(** * Host packet dispatch and build lifecycle (firmware/src/Motherboard/Host.cc)

    A shallow embedding of the host-communication controller of the
    Sailfish G3 firmware.  The globals of Host.cc form the record [Host];
    the collaborators that Host.cc calls (host UART packets, command queue,
    EEPROM, board clock and error indicator, tool channel, SD card,
    steppers) form the record [World].  Every function of Host.cc becomes a
    function on these records; the bounded busy-wait loops take fuel. *)

From Stdlib Require Import ZArith List Bool Lia.
From stdpp Require Import base option list gmap.
Open Scope Z_scope.

(** ** Fixed-width integers: uint8_t, uint16_t, uint32_t and int16_t as [Z] *)

Definition u8 (z : Z) : Z := z mod 256.
Definition u16 (z : Z) : Z := z mod 65536.
Definition u32 (z : Z) : Z := z mod 4294967296.

(** The conversion of a 16-bit pattern to int16_t (two's complement). *)
Definition int16_t (z : Z) : Z :=
  if u16 z <? 32768 then u16 z else u16 z - 65536.

(** ** Enumerations *)

(** Modelled from the spec: Host.hh is not among the sources; the values
    of HostState are the four the spec's data model lists. *)
Inductive HostState : Type :=
  | HOST_STATE_READY
  | HOST_STATE_BUILDING
  | HOST_STATE_BUILDING_FROM_SD
  | HOST_STATE_CANCEL_BUILD.

(** Modelled from the spec: the values of BuildState (Host.hh). *)
Inductive BuildState : Type :=
  | BUILD_NONE
  | BUILD_RUNNING
  | BUILD_PAUSED
  | BUILD_CANCELLING
  | BUILD_CANCELED
  | BUILD_FINISHED_NORMALLY.

(** The packet errors Host.cc names (Packet.hh). *)
Inductive PacketError : Type :=
  | NO_ERROR
  | PACKET_TIMEOUT
  | BAD_CRC
  | EXCEEDED_MAX_LENGTH
  | NOISE_BYTE
  | APPEND_BUFFER_OVERFLOW.

(** The response codes Host.cc writes; their byte values (Commands.hh) are
    a parameter, see [Constants]. *)
Inductive ResponseCode : Type :=
  | RC_OK
  | RC_PACKET_TIMEOUT
  | RC_CRC_MISMATCH
  | RC_PACKET_LENGTH
  | RC_PACKET_ERROR
  | RC_BUFFER_OVERFLOW
  | RC_CMD_UNSUPPORTED
  | RC_BOT_BUILDING
  | RC_DOWNSTREAM_TIMEOUT
  | RC_CANCEL_BUILD.

(** The query opcodes of the switch in processQueryPacket. *)
Inductive HostCommand : Type :=
  | HOST_CMD_VERSION
  | HOST_CMD_GET_BUILD_NAME
  | HOST_CMD_INIT
  | HOST_CMD_CLEAR_BUFFER
  | HOST_CMD_ABORT
  | HOST_CMD_RESET
  | HOST_CMD_GET_BUFFER_SIZE
  | HOST_CMD_GET_POSITION
  | HOST_CMD_GET_POSITION_EXT
  | HOST_CMD_CAPTURE_TO_FILE
  | HOST_CMD_END_CAPTURE
  | HOST_CMD_PLAYBACK_CAPTURE
  | HOST_CMD_NEXT_FILENAME
  | HOST_CMD_PAUSE
  | HOST_CMD_TOOL_QUERY
  | HOST_CMD_IS_FINISHED
  | HOST_CMD_READ_EEPROM
  | HOST_CMD_WRITE_EEPROM
  | HOST_CMD_EXTENDED_STOP
  | HOST_CMD_BOARD_STATUS
  | HOST_CMD_GET_BUILD_STATS
  | HOST_CMD_ADVANCED_VERSION.

(** The board-level indicators Host.cc raises (Errors.hh). *)
Inductive ErrorCode : Type :=
  | ERR_HOST_PACKET_MISC
  | ERR_CANCEL_BUILD
  | ERR_SLAVE_LOCK_TIMEOUT
  | ERR_HOST_TRUNCATED_CMD
  | ERR_RESET_DURING_BUILD.

(** The calls Host.cc makes into the tool channel, kept as a log so that
    "never attempted" can be stated. *)
Inductive ToolCall : Type :=
  | CallGetLock
  | CallReleaseLock
  | CallStartTransaction
  | CallRunToolSlice.

(** How startBuildFromSD is handed its file name: a null pointer, the
    build-name buffer itself, or some other NUL-terminated string. *)
Inductive FileName : Type :=
  | FNull
  | FBuildName
  | FOther (name : list Z).

(** ** Timeout *)

Module Timeout.

(** Modelled from the spec: Timeout.hh and Timeout.cc are not among the
    sources.  A timeout is an arm time and a duration on the 32-bit
    microsecond clock; pausing freezes the elapsed time without moving the
    arm point, and resuming moves the arm point so that the frozen time
    counts as already elapsed. *)
Record t : Type := mk {
  active : bool;
  elapsed : bool;
  is_paused : bool;
  start_stamp_micros : Z;
  duration_micros : Z;
  pause_micros : Z
}.

Definition init : t := mk false false false 0 0 0.

Definition start (now duration : Z) (x : t) : t :=
  mk true false false (u32 now) (u32 duration) (pause_micros x).

Definition hasElapsed (now : Z) (x : t) : bool * t :=
  if active x && negb (elapsed x) && negb (is_paused x) then
    if duration_micros x <=? u32 (now - start_stamp_micros x)
    then (true, mk false true (is_paused x) (start_stamp_micros x)
                   (duration_micros x) (pause_micros x))
    else (false, x)
  else (elapsed x, x).

Definition isActive (x : t) : bool := active x.

Definition abort (x : t) : t :=
  mk false (elapsed x) (is_paused x) (start_stamp_micros x)
     (duration_micros x) (pause_micros x).

Definition pause (now : Z) (pause_in : bool) (x : t) : t :=
  if Bool.eqb (is_paused x) pause_in then x
  else if pause_in
       then mk (active x) (elapsed x) true (start_stamp_micros x)
               (duration_micros x) (u32 (now - start_stamp_micros x))
       else mk (active x) (elapsed x) false (u32 (now - pause_micros x))
               (duration_micros x) (pause_micros x).

Definition getCurrentElapsed (now : Z) (x : t) : Z :=
  if active x then
    if is_paused x then pause_micros x
    else u32 (now - start_stamp_micros x)
  else 0.

End Timeout.

(** ** The bounded command queue *)

Module CircularBuffer.

(** Modelled from the spec: CircularBuffer.hh is not among the sources.
    The command queue is a bounded byte queue with remaining-capacity
    introspection.  [items] holds the queued bytes, oldest first; a push
    into a full buffer stores nothing and raises [overflow]; a pop from an
    empty buffer yields 0 and raises [underflow].  A buffer of the
    firmware never holds more than [buf_size] bytes. *)
Record t : Type := mk {
  buf_size : nat;
  items : list Z;
  overflow : bool;
  underflow : bool
}.

Definition getLength (q : t) : Z := Z.of_nat (length (items q)).

Definition getRemainingCapacity (q : t) : Z :=
  Z.of_nat (buf_size q) - Z.of_nat (length (items q)).

Definition isEmpty (q : t) : bool :=
  match items q with [] => true | _ => false end.

Definition push (b : Z) (q : t) : t :=
  if (length (items q) <? buf_size q)%nat
  then mk (buf_size q) (items q ++ [b]) (overflow q) (underflow q)
  else mk (buf_size q) (items q) true (underflow q).

Definition pop (q : t) : Z * t :=
  match items q with
  | [] => (0, mk (buf_size q) [] (overflow q) true)
  | b :: rest => (b, mk (buf_size q) rest (overflow q) (underflow q))
  end.

End CircularBuffer.

(** ** Packets *)

(** Modelled from the spec: Packet.hh and Packet.cc are not among the
    sources.  An inbound packet is a payload buffer and the count of bytes
    received into it: [received] are the bytes of the packet, [stale] is
    what the rest of the buffer still holds from earlier packets (read8
    does no bounds check).  [started] and [finished] are the reception
    state, [error_code] the pending transport error. *)
Record InPacket : Type := mkInPacket {
  received : list Z;
  stale : list Z;
  started : bool;
  finished : bool;
  error_code : PacketError
}.

(** An outbound packet under construction: the bytes appended so far. *)
Definition OutPacket : Type := list Z.

Definition getLength (p : InPacket) : Z := Z.of_nat (length (received p)).

(** read8 takes a uint8_t index. *)
Definition read8 (idx : Z) (p : InPacket) : Z :=
  nth (Z.to_nat (u8 idx)) (received p ++ stale p) 0.

(** read16 is little-endian. *)
Definition read16 (idx : Z) (p : InPacket) : Z :=
  Z.lor (read8 idx p) (Z.shiftl (read8 (idx + 1) p) 8).

Definition isStarted (p : InPacket) : bool := started p.
Definition isFinished (p : InPacket) : bool := finished p.

Definition hasError (p : InPacket) : bool :=
  match error_code p with NO_ERROR => false | _ => true end.

Definition getErrorCode (p : InPacket) : PacketError := error_code p.

(** reset forgets the received bytes; the buffer keeps them. *)
Definition InPacket_reset (p : InPacket) : InPacket :=
  mkInPacket [] (received p ++ stale p) false false NO_ERROR.

Definition InPacket_timeout (p : InPacket) : InPacket :=
  mkInPacket [] (received p ++ stale p) false false PACKET_TIMEOUT.

(** ** Constants of the build *)

(** The constants, tables and compile-time switches that Host.cc takes
    from headers that are not among the sources. *)
Record Constants : Type := mkConstants {
  MAX_PACKET_PAYLOAD : nat;
  MAX_FILE_LEN : nat;
  firmware_version : Z;
  internal_version : Z;
  SOFTWARE_VARIANT_ID : Z;
  STEPPER_COUNT : Z;
  HONOR_DEBUG_PACKETS : bool;
  PSTOP_SUPPORT : bool;
  HAS_FILAMENT_COUNTER : bool;
  RC : ResponseCode -> Z;
  host_cmd : Z -> option HostCommand;
  BuildState_value : BuildState -> Z;
  SLAVE_CMD_PAUSE_UNPAUSE : Z;
  PAUSE_EXT_OFF : Z;
  PAUSE_HBP_OFF : Z;
  PAUSE_STATE_PAUSED : Z;
  CLEAR_FOR_ESTOP : Z;
  ABP_COPIES : Z;
  EEPROM_DEFAULT_ABP_COPIES : Z;
  SD_SUCCESS : Z;
  SD_ERR_CARD_LOCKED : Z;
  SD_CWD : Z
}.

Definition HOST_PACKET_TIMEOUT_MS : Z := 200.
Definition HOST_PACKET_TIMEOUT_MICROS : Z := 1000 * HOST_PACKET_TIMEOUT_MS.
Definition HOST_TOOL_RESPONSE_TIMEOUT_MS : Z := 50.
Definition HOST_TOOL_RESPONSE_TIMEOUT_MICROS : Z :=
  1000 * HOST_TOOL_RESPONSE_TIMEOUT_MS.
Definition ONE_HOUR : Z := 3600000000.

(** Bit assignments of the extended-stop flags. *)
Definition ES_STEPPERS : Z := 0.
Definition ES_COMMANDS : Z := 1.
Definition _BV (bit : Z) : Z := Z.shiftl 1 bit.

(** ** The globals of Host.cc *)

Record Host : Type := mkHost {
  machineName : list Z;
  buildName : list Z;
  currentState : HostState;
  buildState : BuildState;
  last_print_hours : Z;
  last_print_minutes : Z;
  last_print_line : Z;
  print_time_hours : Z;
  print_time : Timeout.t;
  do_host_reset : bool;
  hard_reset : bool;
  cancelBuild : bool;
  packet_in_timeout : Timeout.t;
  cancel_timeout : Timeout.t;
  do_host_reset_timeout : Timeout.t
}.

(** ** The collaborators *)

(** What Host.cc reaches outside itself.  The host UART's packet pair, the
    command queue with its line counter and copy counts, the EEPROM, the
    board clock, seconds counter and error indicator and the tool
    channel's packet pair are data; [ext] is the remaining state of the
    collaborators (SD card, steppers, the command module's pause machinery,
    the tool link driver), known only through the operations of
    [Collaborators].

    [micros] is the board's microsecond clock as the code reads it.
    Straight-line code sees one clock value; the clock moves between ticks
    and, inside a busy-wait loop, with [interrupts] between two polls.
    [indicated] logs the calls of Motherboard::indicateError and
    [tool_calls] the calls into the tool channel. *)
Record World (Ext : Type) : Type := mkWorld {
  uart_in : InPacket;
  uart_out : OutPacket;
  uart_sending : bool;
  command_buffer : CircularBuffer.t;
  line_number : Z;
  copiesToPrint : Z;
  copiesPrinted : Z;
  eeprom : gmap Z Z;
  micros : Z;
  seconds : Z;
  indicated : list ErrorCode;
  tool_out : OutPacket;
  tool_in : InPacket;
  tool_calls : list ToolCall;
  ext : Ext
}.

Arguments mkWorld {Ext}.
Arguments uart_in {Ext}.
Arguments uart_out {Ext}.
Arguments uart_sending {Ext}.
Arguments command_buffer {Ext}.
Arguments line_number {Ext}.
Arguments copiesToPrint {Ext}.
Arguments copiesPrinted {Ext}.
Arguments eeprom {Ext}.
Arguments micros {Ext}.
Arguments seconds {Ext}.
Arguments indicated {Ext}.
Arguments tool_out {Ext}.
Arguments tool_in {Ext}.
Arguments tool_calls {Ext}.
Arguments ext {Ext}.

(** The operations of the collaborators whose code is not among the
    sources, as functions on the state they own. *)
Record Collaborators : Type := mkCollaborators {
  Ext : Type;
  (* Packet.cc: what appending to a full packet does *)
  append_overflow : OutPacket -> OutPacket;
  (* Eeprom.cc *)
  getEeprom8 : gmap Z Z -> Z -> Z -> Z;
  (* SDCard.cc *)
  sd_isCapturing : Ext -> bool;
  sd_isPlaying : Ext -> bool;
  sd_capturePacket : InPacket -> Ext -> Ext;
  sd_startCapture : list Z -> Ext -> Z * Ext;
  sd_finishCapture : Ext -> Z * Ext;
  sd_reset : Ext -> Ext;
  sd_directoryReset : Ext -> Z * Ext;
  sd_directoryNextEntry : nat -> Ext -> list Z * bool * Ext;
  sd_startPlayback : list Z -> Ext -> Z * Ext;
  sd_playbackHasNext : Ext -> bool;
  (* Steppers.cc *)
  steppers_getStepperPosition : Ext -> nat -> Z;
  steppers_getEndstopStatus : Ext -> Z;
  steppers_isRunning : Ext -> bool;
  steppers_abort : Ext -> Ext;
  steppers_reset : Ext -> Ext;
  (* Command.cc: the pause machinery and the parts behind compile-time
     switches *)
  command_isPaused : Ext -> bool;
  command_pauseIntermediateState : Ext -> bool;
  command_pauseState : Ext -> Z;
  command_pause : bool -> Z -> Ext -> Ext;
  command_pauseHeaters : Z -> Ext -> Ext;
  command_addFilamentUsed : Ext -> Ext;
  command_pstop_clear : Ext -> Ext;
  command_reset : World Ext -> World Ext;
  (* Tool.cc *)
  tool_getLock : Ext -> bool * Ext;
  tool_releaseLock : Ext -> Ext;
  tool_getCurrentToolheadIndex : Ext -> Z;
  tool_startTransaction : World Ext -> World Ext;
  tool_isTransactionDone : World Ext -> bool;
  tool_runToolSlice : World Ext -> World Ext;
  (* what the interrupt handlers (timer, UARTs) do between two polls of a
     busy-wait loop *)
  interrupts : World Ext -> World Ext;
  (* Main.cc *)
  reset : bool -> World Ext -> World Ext;
  (* DebugPacketProcessor.cc *)
  processDebugPacket :
    InPacket -> OutPacket -> World Ext -> bool * OutPacket * World Ext
}.

(** The state Host.cc works on, and the machine: that state together with
    the log of the calls made to Main.cc's reset. *)
Record St (Ext : Type) : Type := mkSt {
  host : Host;
  world : World Ext
}.

Arguments mkSt {Ext}.
Arguments host {Ext}.
Arguments world {Ext}.

Record Machine (Ext : Type) : Type := mkMachine {
  st : St Ext;
  reset_log : list bool
}.

Arguments mkMachine {Ext}.
Arguments st {Ext}.
Arguments reset_log {Ext}.

(** ** Field updates *)

Definition set_machineName v (r : Host) : Host :=
  mkHost v (buildName r) (currentState r) (buildState r) (last_print_hours r) (last_print_minutes r) (last_print_line r) (print_time_hours r) (print_time r) (do_host_reset r) (hard_reset r) (cancelBuild r) (packet_in_timeout r) (cancel_timeout r) (do_host_reset_timeout r).
Definition set_buildName v (r : Host) : Host :=
  mkHost (machineName r) v (currentState r) (buildState r) (last_print_hours r) (last_print_minutes r) (last_print_line r) (print_time_hours r) (print_time r) (do_host_reset r) (hard_reset r) (cancelBuild r) (packet_in_timeout r) (cancel_timeout r) (do_host_reset_timeout r).
Definition set_currentState v (r : Host) : Host :=
  mkHost (machineName r) (buildName r) v (buildState r) (last_print_hours r) (last_print_minutes r) (last_print_line r) (print_time_hours r) (print_time r) (do_host_reset r) (hard_reset r) (cancelBuild r) (packet_in_timeout r) (cancel_timeout r) (do_host_reset_timeout r).
Definition set_buildState v (r : Host) : Host :=
  mkHost (machineName r) (buildName r) (currentState r) v (last_print_hours r) (last_print_minutes r) (last_print_line r) (print_time_hours r) (print_time r) (do_host_reset r) (hard_reset r) (cancelBuild r) (packet_in_timeout r) (cancel_timeout r) (do_host_reset_timeout r).
Definition set_last_print_hours v (r : Host) : Host :=
  mkHost (machineName r) (buildName r) (currentState r) (buildState r) v (last_print_minutes r) (last_print_line r) (print_time_hours r) (print_time r) (do_host_reset r) (hard_reset r) (cancelBuild r) (packet_in_timeout r) (cancel_timeout r) (do_host_reset_timeout r).
Definition set_last_print_minutes v (r : Host) : Host :=
  mkHost (machineName r) (buildName r) (currentState r) (buildState r) (last_print_hours r) v (last_print_line r) (print_time_hours r) (print_time r) (do_host_reset r) (hard_reset r) (cancelBuild r) (packet_in_timeout r) (cancel_timeout r) (do_host_reset_timeout r).
Definition set_last_print_line v (r : Host) : Host :=
  mkHost (machineName r) (buildName r) (currentState r) (buildState r) (last_print_hours r) (last_print_minutes r) v (print_time_hours r) (print_time r) (do_host_reset r) (hard_reset r) (cancelBuild r) (packet_in_timeout r) (cancel_timeout r) (do_host_reset_timeout r).
Definition set_print_time_hours v (r : Host) : Host :=
  mkHost (machineName r) (buildName r) (currentState r) (buildState r) (last_print_hours r) (last_print_minutes r) (last_print_line r) v (print_time r) (do_host_reset r) (hard_reset r) (cancelBuild r) (packet_in_timeout r) (cancel_timeout r) (do_host_reset_timeout r).
Definition set_print_time v (r : Host) : Host :=
  mkHost (machineName r) (buildName r) (currentState r) (buildState r) (last_print_hours r) (last_print_minutes r) (last_print_line r) (print_time_hours r) v (do_host_reset r) (hard_reset r) (cancelBuild r) (packet_in_timeout r) (cancel_timeout r) (do_host_reset_timeout r).
Definition set_do_host_reset v (r : Host) : Host :=
  mkHost (machineName r) (buildName r) (currentState r) (buildState r) (last_print_hours r) (last_print_minutes r) (last_print_line r) (print_time_hours r) (print_time r) v (hard_reset r) (cancelBuild r) (packet_in_timeout r) (cancel_timeout r) (do_host_reset_timeout r).
Definition set_hard_reset v (r : Host) : Host :=
  mkHost (machineName r) (buildName r) (currentState r) (buildState r) (last_print_hours r) (last_print_minutes r) (last_print_line r) (print_time_hours r) (print_time r) (do_host_reset r) v (cancelBuild r) (packet_in_timeout r) (cancel_timeout r) (do_host_reset_timeout r).
Definition set_cancelBuild v (r : Host) : Host :=
  mkHost (machineName r) (buildName r) (currentState r) (buildState r) (last_print_hours r) (last_print_minutes r) (last_print_line r) (print_time_hours r) (print_time r) (do_host_reset r) (hard_reset r) v (packet_in_timeout r) (cancel_timeout r) (do_host_reset_timeout r).
Definition set_packet_in_timeout v (r : Host) : Host :=
  mkHost (machineName r) (buildName r) (currentState r) (buildState r) (last_print_hours r) (last_print_minutes r) (last_print_line r) (print_time_hours r) (print_time r) (do_host_reset r) (hard_reset r) (cancelBuild r) v (cancel_timeout r) (do_host_reset_timeout r).
Definition set_cancel_timeout v (r : Host) : Host :=
  mkHost (machineName r) (buildName r) (currentState r) (buildState r) (last_print_hours r) (last_print_minutes r) (last_print_line r) (print_time_hours r) (print_time r) (do_host_reset r) (hard_reset r) (cancelBuild r) (packet_in_timeout r) v (do_host_reset_timeout r).
Definition set_do_host_reset_timeout v (r : Host) : Host :=
  mkHost (machineName r) (buildName r) (currentState r) (buildState r) (last_print_hours r) (last_print_minutes r) (last_print_line r) (print_time_hours r) (print_time r) (do_host_reset r) (hard_reset r) (cancelBuild r) (packet_in_timeout r) (cancel_timeout r) v.

Definition set_uart_in {Ext : Type} v (r : World Ext) : World Ext :=
  mkWorld v (uart_out r) (uart_sending r) (command_buffer r) (line_number r) (copiesToPrint r) (copiesPrinted r) (eeprom r) (micros r) (seconds r) (indicated r) (tool_out r) (tool_in r) (tool_calls r) (ext r).
Definition set_uart_out {Ext : Type} v (r : World Ext) : World Ext :=
  mkWorld (uart_in r) v (uart_sending r) (command_buffer r) (line_number r) (copiesToPrint r) (copiesPrinted r) (eeprom r) (micros r) (seconds r) (indicated r) (tool_out r) (tool_in r) (tool_calls r) (ext r).
Definition set_uart_sending {Ext : Type} v (r : World Ext) : World Ext :=
  mkWorld (uart_in r) (uart_out r) v (command_buffer r) (line_number r) (copiesToPrint r) (copiesPrinted r) (eeprom r) (micros r) (seconds r) (indicated r) (tool_out r) (tool_in r) (tool_calls r) (ext r).
Definition set_command_buffer {Ext : Type} v (r : World Ext) : World Ext :=
  mkWorld (uart_in r) (uart_out r) (uart_sending r) v (line_number r) (copiesToPrint r) (copiesPrinted r) (eeprom r) (micros r) (seconds r) (indicated r) (tool_out r) (tool_in r) (tool_calls r) (ext r).
Definition set_line_number {Ext : Type} v (r : World Ext) : World Ext :=
  mkWorld (uart_in r) (uart_out r) (uart_sending r) (command_buffer r) v (copiesToPrint r) (copiesPrinted r) (eeprom r) (micros r) (seconds r) (indicated r) (tool_out r) (tool_in r) (tool_calls r) (ext r).
Definition set_copiesToPrint {Ext : Type} v (r : World Ext) : World Ext :=
  mkWorld (uart_in r) (uart_out r) (uart_sending r) (command_buffer r) (line_number r) v (copiesPrinted r) (eeprom r) (micros r) (seconds r) (indicated r) (tool_out r) (tool_in r) (tool_calls r) (ext r).
Definition set_copiesPrinted {Ext : Type} v (r : World Ext) : World Ext :=
  mkWorld (uart_in r) (uart_out r) (uart_sending r) (command_buffer r) (line_number r) (copiesToPrint r) v (eeprom r) (micros r) (seconds r) (indicated r) (tool_out r) (tool_in r) (tool_calls r) (ext r).
Definition set_eeprom {Ext : Type} v (r : World Ext) : World Ext :=
  mkWorld (uart_in r) (uart_out r) (uart_sending r) (command_buffer r) (line_number r) (copiesToPrint r) (copiesPrinted r) v (micros r) (seconds r) (indicated r) (tool_out r) (tool_in r) (tool_calls r) (ext r).
Definition set_micros {Ext : Type} v (r : World Ext) : World Ext :=
  mkWorld (uart_in r) (uart_out r) (uart_sending r) (command_buffer r) (line_number r) (copiesToPrint r) (copiesPrinted r) (eeprom r) v (seconds r) (indicated r) (tool_out r) (tool_in r) (tool_calls r) (ext r).
Definition set_seconds {Ext : Type} v (r : World Ext) : World Ext :=
  mkWorld (uart_in r) (uart_out r) (uart_sending r) (command_buffer r) (line_number r) (copiesToPrint r) (copiesPrinted r) (eeprom r) (micros r) v (indicated r) (tool_out r) (tool_in r) (tool_calls r) (ext r).
Definition set_indicated {Ext : Type} v (r : World Ext) : World Ext :=
  mkWorld (uart_in r) (uart_out r) (uart_sending r) (command_buffer r) (line_number r) (copiesToPrint r) (copiesPrinted r) (eeprom r) (micros r) (seconds r) v (tool_out r) (tool_in r) (tool_calls r) (ext r).
Definition set_tool_out {Ext : Type} v (r : World Ext) : World Ext :=
  mkWorld (uart_in r) (uart_out r) (uart_sending r) (command_buffer r) (line_number r) (copiesToPrint r) (copiesPrinted r) (eeprom r) (micros r) (seconds r) (indicated r) v (tool_in r) (tool_calls r) (ext r).
Definition set_tool_in {Ext : Type} v (r : World Ext) : World Ext :=
  mkWorld (uart_in r) (uart_out r) (uart_sending r) (command_buffer r) (line_number r) (copiesToPrint r) (copiesPrinted r) (eeprom r) (micros r) (seconds r) (indicated r) (tool_out r) v (tool_calls r) (ext r).
Definition set_tool_calls {Ext : Type} v (r : World Ext) : World Ext :=
  mkWorld (uart_in r) (uart_out r) (uart_sending r) (command_buffer r) (line_number r) (copiesToPrint r) (copiesPrinted r) (eeprom r) (micros r) (seconds r) (indicated r) (tool_out r) (tool_in r) v (ext r).
Definition set_ext {Ext : Type} v (r : World Ext) : World Ext :=
  mkWorld (uart_in r) (uart_out r) (uart_sending r) (command_buffer r) (line_number r) (copiesToPrint r) (copiesPrinted r) (eeprom r) (micros r) (seconds r) (indicated r) (tool_out r) (tool_in r) (tool_calls r) v.

Definition with_host {Ext : Type} (f : Host -> Host) (s : St Ext) : St Ext :=
  mkSt (f (host s)) (world s).

Definition with_world {Ext : Type} (f : World Ext -> World Ext) (s : St Ext)
  : St Ext :=
  mkSt (host s) (f (world s)).

Definition with_ext {Ext : Type} (f : Ext -> Ext) (s : St Ext) : St Ext :=
  with_world (fun w => set_ext (f (ext w)) w) s.

(** ** Host.cc *)

Section HostCc.

Context (K : Constants) (X : Collaborators).

Local Abbreviation State := (St (Ext X)).

(** *** Appending to an outbound packet *)

(** Modelled from the spec: Packet.cc is not among the sources.  A packet
    holds at most MAX_PACKET_PAYLOAD bytes; what an append to a full packet
    does is left to [append_overflow]. *)
Definition append8 (value : Z) (p : OutPacket) : OutPacket :=
  if (length p <? MAX_PACKET_PAYLOAD K)%nat
  then p ++ [u8 value]
  else append_overflow X p.

Definition append16 (value : Z) (p : OutPacket) : OutPacket :=
  append8 (Z.land (Z.shiftr value 8) 255) (append8 (Z.land value 255) p).

Definition append32 (value : Z) (p : OutPacket) : OutPacket :=
  append8 (Z.land (Z.shiftr value 24) 255)
    (append8 (Z.land (Z.shiftr value 16) 255)
       (append8 (Z.land (Z.shiftr value 8) 255)
          (append8 (Z.land value 255) p))).

(** [for (i = 0; i < n; i++) to.append8(bytes[i])]. *)
Definition append_all (bytes : list Z) (p : OutPacket) : OutPacket :=
  fold_left (fun acc b => append8 b acc) bytes p.

(** *** Board, clock and EEPROM *)

Definition getCurrentMicros (s : State) : Z := micros (world s).

Definition indicateError (e : ErrorCode) (s : State) : State :=
  with_world (fun w => set_indicated (indicated w ++ [e]) w) s.

Definition resetCurrentSeconds (s : State) : State :=
  with_world (set_seconds 0) s.

(** Modelled from the spec: avr/eeprom.h is not among the sources.  The
    persisted store is a raw key-value byte store: 16-bit addresses to
    bytes, a cell never written reads as the erased value 0xFF. *)
Definition eeprom_read_byte (e : gmap Z Z) (addr : Z) : Z :=
  default 255 (e !! u16 addr).

Definition eeprom_read_block (e : gmap Z Z) (offset : Z) (n : nat) : list Z :=
  map (fun i => eeprom_read_byte e (offset + Z.of_nat i)) (seq 0 n).

Fixpoint eeprom_write_block (data : list Z) (offset : Z) (e : gmap Z Z)
  : gmap Z Z :=
  match data with
  | [] => e
  | b :: rest => eeprom_write_block rest (offset + 1) (<[u16 offset := b]> e)
  end.

(** *** Print time *)

Definition getPrintTime (s : State) : Z * Z :=
  (print_time_hours (host s),
   u8 (Timeout.getCurrentElapsed (getCurrentMicros s) (print_time (host s))
       / 60000000)).

Definition startPrintTime (s : State) : State :=
  with_host (fun h =>
    set_print_time_hours 0
      (set_print_time
         (Timeout.start (getCurrentMicros s) ONE_HOUR (print_time h)) h)) s.

Definition stopPrintTime (s : State) : State :=
  let '(hours, minutes) := getPrintTime s in
  with_host (fun h =>
    set_print_time_hours 0
      (set_print_time Timeout.init
         (set_last_print_minutes minutes (set_last_print_hours hours h)))) s.

Definition managePrintTime (s : State) : State :=
  let '(el, t) :=
    Timeout.hasElapsed (getCurrentMicros s) (print_time (host s)) in
  if el then
    with_host (fun h =>
      set_print_time_hours (u8 (print_time_hours h + 1))
        (set_print_time (Timeout.start (getCurrentMicros s) ONE_HOUR t) h)) s
  else with_host (set_print_time t) s.

(** *** Build lifecycle *)

Definition stopBuildNow (s : State) : State :=
  let s1 :=
    match currentState (host s) with
    | HOST_STATE_BUILDING =>
        with_host (fun h =>
          set_cancelBuild true
            (set_cancel_timeout
               (Timeout.start (getCurrentMicros s) 1000000 (cancel_timeout h))
               (set_currentState HOST_STATE_CANCEL_BUILD h))) s
    | _ => s
    end in
  let s2 := with_host (set_last_print_line (line_number (world s1))) s1 in
  let s3 := stopPrintTime s2 in
  with_host (fun h =>
    set_buildState BUILD_CANCELED
      (set_do_host_reset_timeout
         (Timeout.start (getCurrentMicros s3) 200000 (do_host_reset_timeout h))
         (set_do_host_reset true h))) s3.

Definition stopBuild (s : State) : State :=
  let s1 := with_host (set_buildState BUILD_CANCELLING) s in
  let s2 := with_ext (steppers_abort X) s1 in
  if command_isPaused X (ext (world s2))
     || command_pauseIntermediateState X (ext (world s2))
  then stopBuildNow s2
  else with_ext (command_pause X true 0) s2.

Definition pauseBuild (pause : bool) (heaterControl : Z) (s : State) : State :=
  if negb (Bool.eqb pause (command_isPaused X (ext (world s)))) then
    if command_pauseIntermediateState X (ext (world s)) then s
    else
      let s1 := with_ext (command_pause X pause heaterControl) s in
      if pause then
        with_host (fun h =>
          set_print_time
            (Timeout.pause (getCurrentMicros s1) true (print_time h))
            (set_buildState BUILD_PAUSED h)) s1
      else
        with_host (fun h =>
          set_print_time
            (Timeout.pause (getCurrentMicros s1) false (print_time h))
            (set_buildState BUILD_RUNNING h)) s1
  else s.

(** [while ((uint8_t)buf.pop() != 0) ;] -- a pop from the empty buffer
    yields 0, so the loop runs at most once more than there are bytes. *)
Fixpoint pop_until_nul (n : nat) (buf : CircularBuffer.t) : CircularBuffer.t :=
  match n with
  | O => buf
  | S n' =>
      let '(b, buf') := CircularBuffer.pop buf in
      if u8 b =? 0 then buf' else pop_until_nul n' buf'
  end.

(** [do { buildName[idx++] = buf.pop(); }
     while ((buildName[idx-1] != '\0') && (idx < sizeof(buildName)));] *)
Fixpoint pop_build_name (n : nat) (idx : nat) (name : list Z)
  (buf : CircularBuffer.t) : list Z * CircularBuffer.t :=
  match n with
  | O => (name, buf)
  | S n' =>
      let '(b, buf') := CircularBuffer.pop buf in
      let name' := <[idx := b]> name in
      if negb (b =? 0) && (idx + 1 <? MAX_FILE_LEN K)%nat
      then pop_build_name n' (idx + 1)%nat name' buf'
      else (name', buf')
  end.

Definition handleBuildStartNotification (buf : CircularBuffer.t) (s : State)
  : CircularBuffer.t * State :=
  let read_name (s0 : State) :=
    let '(name, buf') :=
      pop_build_name (S (MAX_FILE_LEN K)) 0 (buildName (host s0)) buf in
    (buf', with_host (set_buildName name) s0) in
  let '(buf1, s1) :=
    match currentState (host s) with
    | HOST_STATE_BUILDING_FROM_SD =>
        (pop_until_nul (S (length (CircularBuffer.items buf))) buf, s)
    | HOST_STATE_READY =>
        let s0 := if PSTOP_SUPPORT K
                  then with_ext (command_pstop_clear X) s else s in
        read_name (with_host (set_currentState HOST_STATE_BUILDING) s0)
    | HOST_STATE_BUILDING => read_name s
    | _ => (buf, s)
    end in
  let s2 := resetCurrentSeconds s1 in
  let s3 := startPrintTime s2 in
  let s4 := with_world (set_line_number 0) s3 in
  (buf1, with_host (set_buildState BUILD_RUNNING) s4).

Definition handleBuildStopNotification (stopFlags : Z) (s : State) : State :=
  if (copiesToPrint (world s) =? 0)
     || (copiesToPrint (world s) - 1 <=? copiesPrinted (world s))
  then
    let s1 := stopPrintTime s in
    let s2 := with_host (set_last_print_line (line_number (world s1))) s1 in
    let s3 :=
      with_ext
        (command_pauseHeaters X (Z.lor (PAUSE_EXT_OFF K) (PAUSE_HBP_OFF K)))
        s2 in
    with_host (fun h =>
      set_currentState HOST_STATE_READY
        (set_buildState BUILD_FINISHED_NORMALLY h)) s3
  else s.

(** [while (fname[i]) { buildName[i] = fname[i];
                        if (++i >= sizeof(buildName) - 1) break; }] *)
Fixpoint copy_file_name (n : nat) (i : nat) (fname name : list Z)
  : nat * list Z :=
  match n with
  | O => (i, name)
  | S n' =>
      if nth i fname 0 =? 0 then (i, name)
      else
        let name' := <[i := nth i fname 0]> name in
        if (MAX_FILE_LEN K - 1 <=? i + 1)%nat then ((i + 1)%nat, name')
        else copy_file_name n' (i + 1)%nat fname name'
  end.

Definition startBuildFromSD (fname : FileName) (s : State) : Z * State :=
  let '(file, s1) :=
    match fname with
    | FNull | FBuildName => (buildName (host s), s)
    | FOther name =>
        let '(i, copied) :=
          copy_file_name (MAX_FILE_LEN K) 0 name (buildName (host s)) in
        (name, with_host (set_buildName (<[i := 0]> copied)) s)
    end in
  let '(e, x1) := sd_startPlayback X file (ext (world s1)) in
  let s2 := with_ext (fun _ => x1) s1 in
  if e =? SD_CWD K then (SD_SUCCESS K, s2)
  else if negb (e =? SD_SUCCESS K) then (e, s2)
  else
    let s3 := with_world (command_reset X) s2 in
    let s4 := with_ext (steppers_reset X) s3 in
    let s5 := with_ext (steppers_abort X) s4 in
    let s6 :=
      with_world (fun w =>
        set_copiesToPrint
          (getEeprom8 X (eeprom w) (ABP_COPIES K) (EEPROM_DEFAULT_ABP_COPIES K))
          w) s5 in
    (e, with_host (set_currentState HOST_STATE_BUILDING_FROM_SD) s6).

Definition resetBuild (s : State) : State :=
  with_host (fun h =>
    set_currentState HOST_STATE_READY
      (set_buildName (<[0%nat := 0]> (buildName h))
         (set_machineName (<[0%nat := 0]> (machineName h)) h))) s.

Definition isBuildComplete (s : State) : bool :=
  CircularBuffer.isEmpty (command_buffer (world s))
  && negb (sd_playbackHasNext X (ext (world s))).

(** *** Action commands *)

(** [for (int i = 0; i < command_length; i++)
       command::push(from_host.read8(i));] *)
Definition push_packet (n : nat) (from_host : InPacket)
  (q : CircularBuffer.t) : CircularBuffer.t :=
  fold_left
    (fun acc i => CircularBuffer.push (read8 (Z.of_nat i) from_host) acc)
    (seq 0 n) q.

Definition processCommandPacket (from_host : InPacket) (to_host : OutPacket)
  (s : State) : bool * OutPacket * State :=
  if 1 <=? getLength from_host then
    let command := read8 0 from_host in
    if negb (Z.land command 128 =? 0) then
      if sd_isCapturing X (ext (world s)) then
        (true, append8 (RC K RC_OK) to_host,
         with_ext (sd_capturePacket X from_host) s)
      else if sd_isPlaying X (ext (world s)) then
        (true, append8 (RC K RC_BOT_BUILDING) to_host, s)
      else
        let command_length := getLength from_host in
        if command_length
           <=? CircularBuffer.getRemainingCapacity (command_buffer (world s))
        then
          (true, append8 (RC K RC_OK) to_host,
           with_world (fun w =>
             set_command_buffer
               (push_packet (Z.to_nat command_length) from_host
                  (command_buffer w)) w) s)
        else (true, append8 (RC K RC_BUFFER_OVERFLOW) to_host, s)
    else (false, to_host, s)
  else (false, to_host, s).

(** *** Query handlers *)

Definition handleVersion (from_host : InPacket) (to_host : OutPacket)
  : OutPacket :=
  let rv := int16_t (read16 1 from_host) in
  if negb (rv =? 29) && (rv <? 39)
  then append16 0 (append8 (RC K RC_OK) to_host)
  else append16 (firmware_version K) (append8 (RC K RC_OK) to_host).

Definition handleGetAdvancedVersion (from_host : InPacket)
  (to_host : OutPacket) : OutPacket :=
  append16 0
    (append8 0
       (append8 (SOFTWARE_VARIANT_ID K)
          (append16 (internal_version K)
             (append16 (firmware_version K) (append8 (RC K RC_OK) to_host))))).

(** [for (idx = 0; idx < sizeof(buildName); idx++) {
       to_host.append8(buildName[idx]);
       if (buildName[idx] == '\0') break; }] *)
Fixpoint append_name (name : list Z) (p : OutPacket) : OutPacket :=
  match name with
  | [] => p
  | c :: rest =>
      let p' := append8 c p in
      if c =? 0 then p' else append_name rest p'
  end.

Definition handleGetBuildName (from_host : InPacket) (to_host : OutPacket)
  (s : State) : OutPacket :=
  append_name (take (MAX_FILE_LEN K) (buildName (host s)))
    (append8 (RC K RC_OK) to_host).

Definition handleGetBufferSize (from_host : InPacket) (to_host : OutPacket)
  (s : State) : OutPacket :=
  append32 (CircularBuffer.getRemainingCapacity (command_buffer (world s)))
    (append8 (RC K RC_OK) to_host).

Definition handleGetPosition (from_host : InPacket) (to_host : OutPacket)
  (s : State) : OutPacket :=
  let p := steppers_getStepperPosition X (ext (world s)) in
  let endstop_status := u8 (steppers_getEndstopStatus X (ext (world s))) in
  append8 endstop_status
    (append32 (p 2%nat)
       (append32 (p 1%nat)
          (append32 (p 0%nat) (append8 (RC K RC_OK) to_host)))).

Definition handleGetPositionExt (from_host : InPacket) (to_host : OutPacket)
  (s : State) : OutPacket :=
  let p := steppers_getStepperPosition X (ext (world s)) in
  let xyz :=
    append32 (p 2%nat)
      (append32 (p 1%nat)
         (append32 (p 0%nat) (append8 (RC K RC_OK) to_host))) in
  let ab :=
    if 3 <? STEPPER_COUNT K
    then append32 (p 4%nat) (append32 (p 3%nat) xyz)
    else append32 0 (append32 0 xyz) in
  let endstop_status := u8 (steppers_getEndstopStatus X (ext (world s))) in
  append16 endstop_status ab.

Definition handleCaptureToFile (from_host : InPacket) (to_host : OutPacket)
  (s : State) : OutPacket * State :=
  let p := drop 1 (received from_host ++ stale from_host) in
  let '(e, x1) := sd_startCapture X p (ext (world s)) in
  (append8 (u8 e) (append8 (RC K RC_OK) to_host), with_ext (fun _ => x1) s).

Definition handleEndCapture (from_host : InPacket) (to_host : OutPacket)
  (s : State) : OutPacket * State :=
  let '(n, x1) := sd_finishCapture X (ext (world s)) in
  (append32 n (append8 (RC K RC_OK) to_host),
   with_ext (fun _ => sd_reset X x1) s).

(** [for (idx = 1; (idx < from_host.getLength()) && (idx < sizeof(buildName));
          idx++) buildName[idx-1] = from_host.read8(idx);] *)
Definition read_build_name (from_host : InPacket) (name : list Z) : list Z :=
  fold_left
    (fun acc idx => <[(idx - 1)%nat := read8 (Z.of_nat idx) from_host]> acc)
    (seq 1 (Nat.min (length (received from_host)) (MAX_FILE_LEN K) - 1))
    name.

Definition handlePlayback (from_host : InPacket) (to_host : OutPacket)
  (s : State) : OutPacket * State :=
  let to1 := append8 (RC K RC_OK) to_host in
  let name := read_build_name from_host (buildName (host s)) in
  let name' := <[(MAX_FILE_LEN K - 1)%nat := 0]> name in
  let '(e, s1) := startBuildFromSD FNull (with_host (set_buildName name') s) in
  (append8 (u8 e) to1, s1).

(** The do-while of handleNextFilename: read entries until one is not a
    dot-file; [..] of a directory counts as not a dot-file. *)
Fixpoint next_visible_entry (fuel : nat) (x : Ext X)
  : option (list Z * Ext X) :=
  match fuel with
  | O => None
  | S fuel' =>
      let '(fnbuf, isdir, x1) := sd_directoryNextEntry X (MAX_FILE_LEN K) x in
      if nth 0 fnbuf 0 =? 0 then Some (fnbuf, x1)
      else if negb (nth 0 fnbuf 0 =? 46)
              || (isdir && (nth 1 fnbuf 0 =? 46) && (nth 2 fnbuf 0 =? 0))
      then Some (fnbuf, x1)
      else next_visible_entry fuel' x1
  end.

(** [for (idx = 0; (idx < sizeof(fnbuf)) && (fnbuf[idx] != 0); idx++)
       to_host.append8(fnbuf[idx]);] *)
Fixpoint append_until_nul (name : list Z) (p : OutPacket) : OutPacket :=
  match name with
  | [] => p
  | c :: rest => if c =? 0 then p else append_until_nul rest (append8 c p)
  end.

Definition handleNextFilename (fuel : nat) (from_host : InPacket)
  (to_host : OutPacket) (s : State) : option (OutPacket * State) :=
  let to1 := append8 (RC K RC_OK) to_host in
  let resetFlag := read8 1 from_host in
  let '(e, x1) :=
    if negb (resetFlag =? 0) then sd_directoryReset X (ext (world s))
    else (SD_SUCCESS K, ext (world s)) in
  if negb (resetFlag =? 0)
     && negb (e =? SD_SUCCESS K) && negb (e =? SD_ERR_CARD_LOCKED K)
  then Some (append8 0 (append8 e to1), with_ext (fun _ => x1) s)
  else
    '(fnbuf, x2) ← next_visible_entry fuel x1;
    Some (append8 0
            (append_until_nul (take (MAX_FILE_LEN K) fnbuf)
               (append8 (SD_SUCCESS K) to1)),
          with_ext (fun _ => x2) s).

(** *** The relay to the tool channel *)

Definition tool_call (c : ToolCall) (w : World (Ext X)) : World (Ext X) :=
  set_tool_calls (tool_calls w ++ [c]) w.

Definition getLock (w : World (Ext X)) : bool * World (Ext X) :=
  let '(got, x1) := tool_getLock X (ext w) in
  (got, tool_call CallGetLock (set_ext x1 w)).

(** [while (!tool::getLock()) {
       if (acquire_lock_timeout.hasElapsed()) { ...; return; } }];
    the result tells whether the lock was obtained. *)
Fixpoint acquire_lock (fuel : nat) (acquire_lock_timeout : Timeout.t)
  (w : World (Ext X)) : option (bool * World (Ext X)) :=
  match fuel with
  | O => None
  | S fuel' =>
      let '(got, w1) := getLock w in
      if got then Some (true, w1)
      else
        let '(el, t) := Timeout.hasElapsed (micros w1) acquire_lock_timeout in
        if el then Some (false, w1)
        else acquire_lock fuel' t (interrupts X w1)
  end.

(** [while (!tool::isTransactionDone()) { tool::runToolSlice(); }] *)
Fixpoint pump_transaction (fuel : nat) (w : World (Ext X))
  : option (World (Ext X)) :=
  match fuel with
  | O => None
  | S fuel' =>
      if tool_isTransactionDone X w then Some w
      else
        pump_transaction fuel'
          (interrupts X (tool_call CallRunToolSlice (tool_runToolSlice X w)))
  end.

(** The bytes of a packet, as [for (i = 0; i < in.getLength(); i++)
    in.read8(i)] reads them. *)
Definition packet_bytes (p : InPacket) : list Z :=
  map (fun i => read8 (Z.of_nat i) p) (seq 0 (length (received p))).

(** The part the two relays share from tool::startTransaction on. *)
Definition run_transaction (fuel : nat) (to_host : OutPacket)
  (h : Host) (w : World (Ext X)) : option (OutPacket * State) :=
  let w1 := tool_call CallStartTransaction (tool_startTransaction X w) in
  let w2 := tool_call CallReleaseLock (set_ext (tool_releaseLock X (ext w1)) w1) in
  w3 ← pump_transaction fuel w2;
  match getErrorCode (tool_in w3) with
  | PACKET_TIMEOUT =>
      Some (append8 (RC K RC_DOWNSTREAM_TIMEOUT) to_host, mkSt h w3)
  | _ => Some (append_all (packet_bytes (tool_in w3)) to_host, mkSt h w3)
  end.

Definition doToolPause (fuel : nat) (to_host : OutPacket) (s : State)
  : option (OutPacket * State) :=
  let acquire_lock_timeout :=
    Timeout.start (getCurrentMicros s) HOST_TOOL_RESPONSE_TIMEOUT_MICROS
      Timeout.init in
  '(got, w1) ← acquire_lock fuel acquire_lock_timeout (world s);
  if negb got then
    Some (append8 (RC K RC_DOWNSTREAM_TIMEOUT) to_host,
          indicateError ERR_SLAVE_LOCK_TIMEOUT (mkSt (host s) w1))
  else
    let out :=
      append8 (SLAVE_CMD_PAUSE_UNPAUSE K)
        (append8 (tool_getCurrentToolheadIndex X (ext w1)) []) in
    run_transaction fuel to_host (host s) (set_tool_out out w1).

Definition handleToolQuery (fuel : nat) (from_host : InPacket)
  (to_host : OutPacket) (s : State) : option (OutPacket * State) :=
  if getLength from_host <? 2 then
    Some (append8 (RC K RC_PACKET_ERROR) to_host,
          indicateError ERR_HOST_TRUNCATED_CMD s)
  else
    let acquire_lock_timeout :=
      Timeout.start (getCurrentMicros s) HOST_TOOL_RESPONSE_TIMEOUT_MICROS
        Timeout.init in
    '(got, w1) ← acquire_lock fuel acquire_lock_timeout (world s);
    if negb got then
      Some (append8 (RC K RC_DOWNSTREAM_TIMEOUT) to_host,
            indicateError ERR_SLAVE_LOCK_TIMEOUT (mkSt (host s) w1))
    else
      let out := append_all (drop 1 (packet_bytes from_host)) [] in
      run_transaction fuel to_host (host s) (set_tool_out out w1).

Definition handlePause (fuel : nat) (from_host : InPacket)
  (to_host : OutPacket) (s : State) : option (OutPacket * State) :=
  if negb (command_pauseIntermediateState X (ext (world s))) then
    let s1 :=
      pauseBuild (negb (command_isPaused X (ext (world s))))
        (Z.lor (PAUSE_EXT_OFF K) (PAUSE_HBP_OFF K)) s in
    '(to1, s2) ← doToolPause fuel to_host s1;
    Some (append8 (RC K RC_OK) to1, s2)
  else Some (append8 (RC K RC_OK) to_host, s).

Definition handleIsFinished (from_host : InPacket) (to_host : OutPacket)
  (s : State) : OutPacket :=
  let done :=
    negb (steppers_isRunning X (ext (world s)))
    && CircularBuffer.isEmpty (command_buffer (world s)) in
  append8 (if done then 1 else 0) (append8 (RC K RC_OK) to_host).

Definition handleReadEeprom (from_host : InPacket) (to_host : OutPacket)
  (s : State) : OutPacket :=
  let offset := read16 1 from_host in
  let len := read8 3 from_host in
  let data := eeprom_read_block (eeprom (world s)) offset (Z.to_nat len) in
  append_all data (append8 (RC K RC_OK) to_host).

(** [for (int i = 0; i < length; i++) data[i] = from_host.read8(i + 4);] *)
Definition read_payload (from_host : InPacket) (data : list Z) : list Z :=
  fold_left
    (fun acc i => <[i := read8 (Z.of_nat i + 4) from_host]> acc)
    (seq 0 (length data)) data.

Definition handleWriteEeprom (from_host : InPacket) (to_host : OutPacket)
  (s : State) : OutPacket * State :=
  let offset := read16 1 from_host in
  let len := read8 3 from_host in
  let data0 := eeprom_read_block (eeprom (world s)) offset (Z.to_nat len) in
  let data := read_payload from_host data0 in
  let s1 :=
    with_world (fun w =>
      set_eeprom (eeprom_write_block data offset (eeprom w)) w) s in
  (append8 len (append8 (RC K RC_OK) to_host), s1).

Definition handleExtendedStop (from_host : InPacket) (to_host : OutPacket)
  (s : State) : OutPacket * State :=
  let flags := read8 1 from_host in
  let s1 := if negb (Z.land flags (_BV ES_STEPPERS) =? 0)
            then with_ext (steppers_abort X) s else s in
  let s2 := if negb (Z.land flags (_BV ES_COMMANDS) =? 0)
            then with_world (command_reset X) s1 else s1 in
  (append8 0 (append8 (RC K RC_OK) to_host), s2).

Definition handleGetBuildStats (to_host : OutPacket) (s : State)
  : OutPacket :=
  let '(hours, minutes) := getPrintTime s in
  let to1 :=
    append8 minutes
      (append8 hours
         (append8 (BuildState_value K (buildState (host s)))
            (append8 (RC K RC_OK) to_host))) in
  let line :=
    match buildState (host s) with
    | BUILD_RUNNING | BUILD_PAUSED => line_number (world s)
    | _ => last_print_line (host s)
    end in
  append32 0 (append32 line to1).

Definition handleGetBoardStatus (to_host : OutPacket) : OutPacket :=
  append8 0 (append8 (RC K RC_OK) to_host).

(** *** Query dispatch *)

Definition processQueryPacket (fuel : nat) (from_host : InPacket)
  (to_host : OutPacket) (s : State) : option (bool * OutPacket * State) :=
  if 1 <=? getLength from_host then
    let command := read8 0 from_host in
    if Z.land command 128 =? 0 then
      match host_cmd K command with
      | Some HOST_CMD_VERSION =>
          Some (true, handleVersion from_host to_host, s)
      | Some HOST_CMD_GET_BUILD_NAME =>
          Some (true, handleGetBuildName from_host to_host s, s)
      | Some HOST_CMD_INIT =>
          Some (true, append8 (RC K RC_OK) to_host, s)
      | Some HOST_CMD_CLEAR_BUFFER
      | Some HOST_CMD_ABORT
      | Some HOST_CMD_RESET =>
          let s0 := if HAS_FILAMENT_COUNTER K
                    then with_ext (command_addFilamentUsed X) s else s in
          let '(resetMe, s1) :=
            match currentState (host s0) with
            | HOST_STATE_BUILDING | HOST_STATE_BUILDING_FROM_SD =>
                let '(resetMe, s') :=
                  if getEeprom8 X (eeprom (world s0)) (CLEAR_FOR_ESTOP K) 0 =? 1
                  then
                    (false,
                     stopBuild (with_host (set_buildState BUILD_CANCELED) s0))
                  else (true, s0) in
                (resetMe, indicateError ERR_RESET_DURING_BUILD s')
            | _ => (true, s0)
            end in
          let s2 :=
            if resetMe : bool then
              with_host (fun h =>
                set_do_host_reset_timeout
                  (Timeout.start (getCurrentMicros s1) 200000
                     (do_host_reset_timeout h))
                  (set_do_host_reset true h)) s1
            else s1 in
          Some (true, append8 (RC K RC_OK) to_host, s2)
      | Some HOST_CMD_GET_BUFFER_SIZE =>
          Some (true, handleGetBufferSize from_host to_host s, s)
      | Some HOST_CMD_GET_POSITION =>
          Some (true, handleGetPosition from_host to_host s, s)
      | Some HOST_CMD_GET_POSITION_EXT =>
          Some (true, handleGetPositionExt from_host to_host s, s)
      | Some HOST_CMD_CAPTURE_TO_FILE =>
          let '(to1, s1) := handleCaptureToFile from_host to_host s in
          Some (true, to1, s1)
      | Some HOST_CMD_END_CAPTURE =>
          let '(to1, s1) := handleEndCapture from_host to_host s in
          Some (true, to1, s1)
      | Some HOST_CMD_PLAYBACK_CAPTURE =>
          let '(to1, s1) := handlePlayback from_host to_host s in
          Some (true, to1, s1)
      | Some HOST_CMD_NEXT_FILENAME =>
          '(to1, s1) ← handleNextFilename fuel from_host to_host s;
          Some (true, to1, s1)
      | Some HOST_CMD_PAUSE =>
          '(to1, s1) ← handlePause fuel from_host to_host s;
          Some (true, to1, s1)
      | Some HOST_CMD_TOOL_QUERY =>
          '(to1, s1) ← handleToolQuery fuel from_host to_host s;
          Some (true, to1, s1)
      | Some HOST_CMD_IS_FINISHED =>
          Some (true, handleIsFinished from_host to_host s, s)
      | Some HOST_CMD_READ_EEPROM =>
          Some (true, handleReadEeprom from_host to_host s, s)
      | Some HOST_CMD_WRITE_EEPROM =>
          let '(to1, s1) := handleWriteEeprom from_host to_host s in
          Some (true, to1, s1)
      | Some HOST_CMD_EXTENDED_STOP =>
          let '(to1, s1) := handleExtendedStop from_host to_host s in
          Some (true, to1, s1)
      | Some HOST_CMD_BOARD_STATUS =>
          Some (true, handleGetBoardStatus to_host, s)
      | Some HOST_CMD_GET_BUILD_STATS =>
          Some (true, handleGetBuildStats to_host s, s)
      | Some HOST_CMD_ADVANCED_VERSION =>
          Some (true, handleGetAdvancedVersion from_host to_host, s)
      | None => Some (false, to_host, s)
      end
    else Some (false, to_host, s)
  else Some (false, to_host, s).

(** *** The tick *)

(** The first statement of runHostSlice: a cancel whose pause has completed
    is finalised. *)
Definition finishCancel (s : State) : State :=
  match buildState (host s) with
  | BUILD_CANCELLING =>
      if command_pauseState X (ext (world s)) =? PAUSE_STATE_PAUSED K
      then stopBuildNow s else s
  | _ => s
  end.

(** [out.isSending() && ((!do_host_reset) ||
       (do_host_reset && (!do_host_reset_timeout.hasElapsed())))] *)
Definition replyInFlight (s : State) : bool * State :=
  if uart_sending (world s) then
    if negb (do_host_reset (host s)) then (true, s)
    else
      let '(el, t) :=
        Timeout.hasElapsed (getCurrentMicros s)
          (do_host_reset_timeout (host s)) in
      (negb el, with_host (set_do_host_reset_timeout t) s)
  else (false, s).

(** [do_host_reset && (!cancelBuild || cancel_timeout.hasElapsed())] *)
Definition resetDue (s : State) : bool * State :=
  if do_host_reset (host s) then
    if negb (cancelBuild (host s)) then (true, s)
    else
      let '(el, t) :=
        Timeout.hasElapsed (getCurrentMicros s) (cancel_timeout (host s)) in
      (el, with_host (set_cancel_timeout t) s)
  else (false, s).

(** The body of the soft reset; the call to Main.cc's reset is logged. *)
Definition doHostReset (s : State) (log : list bool)
  : Machine (Ext X) :=
  let s1 :=
    match buildState (host s) with
    | BUILD_RUNNING | BUILD_PAUSED => stopBuild s
    | _ => s
    end in
  let s2 := with_host (set_do_host_reset false) s1 in
  let hard := hard_reset (host s2) in
  let s3 := with_world (reset X hard) s2 in
  let s4 :=
    with_host (fun h =>
      set_currentState HOST_STATE_READY
        (set_buildName (<[0%nat := 0]> (buildName h))
           (set_machineName (<[0%nat := 0]> (machineName h))
              (set_packet_in_timeout (Timeout.abort (packet_in_timeout h))
                 (set_hard_reset false h))))) s3 in
  mkMachine s4 (log ++ [hard]).

(** A packet is coming in: arm its timeout, or time the packet out. *)
Definition watchInbound (s : State) : State :=
  let inp := uart_in (world s) in
  if isStarted inp && negb (isFinished inp) then
    if negb (Timeout.isActive (packet_in_timeout (host s))) then
      with_host (fun h =>
        set_packet_in_timeout
          (Timeout.start (getCurrentMicros s) HOST_PACKET_TIMEOUT_MICROS
             (packet_in_timeout h)) h) s
    else
      let '(el, t) :=
        Timeout.hasElapsed (getCurrentMicros s) (packet_in_timeout (host s)) in
      let s1 := with_host (set_packet_in_timeout t) s in
      if el then with_world (fun w => set_uart_in (InPacket_timeout (uart_in w)) w) s1
      else s1
  else s.

Definition abortPacketTimeout (s : State) : State :=
  with_host (fun h =>
    set_packet_in_timeout (Timeout.abort (packet_in_timeout h)) h) s.

(** [in.reset(); UART::getHostUART().beginSend();] with the reply [out]. *)
Definition sendReply (out : OutPacket) (s : State) : State :=
  with_world (fun w =>
    set_uart_sending true
      (set_uart_out out (set_uart_in (InPacket_reset (uart_in w)) w))) s.

Definition reportError (s : State) : State :=
  let s1 := abortPacketTimeout s in
  let code :=
    match getErrorCode (uart_in (world s1)) with
    | PACKET_TIMEOUT => RC_PACKET_TIMEOUT
    | BAD_CRC => RC_CRC_MISMATCH
    | EXCEEDED_MAX_LENGTH => RC_PACKET_LENGTH
    | _ => RC_PACKET_ERROR
    end in
  indicateError ERR_HOST_PACKET_MISC (sendReply (append8 (RC K code) []) s1).

(** The chain debug packet / command packet / query packet / unsupported. *)
Definition dispatch (fuel : nat) (from_host : InPacket) (s : State)
  : option (OutPacket * State) :=
  let '(handled, to0, s0) :=
    if HONOR_DEBUG_PACKETS K then
      let '(ok, to', w') := processDebugPacket X from_host [] (world s) in
      (ok, to', mkSt (host s) w')
    else (false, [], s) in
  if handled : bool then Some (to0, s0)
  else
    let '(ok, to1, s1) := processCommandPacket from_host to0 s0 in
    if ok : bool then Some (to1, s1)
    else
      '(ok', to2, s2) ← processQueryPacket fuel from_host to1 s1;
      if ok' : bool then Some (to2, s2)
      else Some (append8 (RC K RC_CMD_UNSUPPORTED) to2, s2).

Definition servePacket (fuel : nat) (s : State) : option State :=
  let s1 := abortPacketTimeout s in
  if cancelBuild (host s1) then
    let s2 := with_host (set_cancelBuild false) s1 in
    Some (sendReply (append8 (RC K RC_CANCEL_BUILD) [])
            (indicateError ERR_CANCEL_BUILD s2))
  else
    '(out, s2) ← dispatch fuel (uart_in (world s1)) s1;
    Some (sendReply out s2).

Definition runHostSlice (fuel : nat) (m : Machine (Ext X))
  : option (Machine (Ext X)) :=
  let s1 := finishCancel (st m) in
  let '(hold, s2) := replyInFlight s1 in
  if hold then Some (mkMachine s2 (reset_log m))
  else
    let '(due, s3) := resetDue s2 in
    if due then Some (doHostReset s3 (reset_log m))
    else
      let s4 := watchInbound s3 in
      s5 ← (if hasError (uart_in (world s4)) then Some (reportError s4)
            else if isFinished (uart_in (world s4)) then servePacket fuel s4
            else Some s4);
      let s6 :=
        match currentState (host s5) with
        | HOST_STATE_BUILDING_FROM_SD =>
            if negb (sd_isPlaying X (ext (world s5)))
            then with_host (set_currentState HOST_STATE_READY) s5
            else s5
        | _ => s5
        end in
      Some (mkMachine (managePrintTime s6) (reset_log m)).

End HostCc.

(** ** A concrete board for the examples *)

(** The byte values of the response codes and the opcode table of the
    host protocol, a 32-byte packet payload and a firmware version 4.7. *)
Definition sample_RC (c : ResponseCode) : Z :=
  match c with
  | RC_PACKET_ERROR => 128
  | RC_OK => 129
  | RC_BUFFER_OVERFLOW => 130
  | RC_CRC_MISMATCH => 131
  | RC_PACKET_LENGTH => 132
  | RC_CMD_UNSUPPORTED => 133
  | RC_DOWNSTREAM_TIMEOUT => 135
  | RC_CANCEL_BUILD => 137
  | RC_BOT_BUILDING => 138
  | RC_PACKET_TIMEOUT => 140
  end.

Definition sample_host_cmd (command : Z) : option HostCommand :=
  match command with
  | 0 => Some HOST_CMD_VERSION
  | 1 => Some HOST_CMD_INIT
  | 2 => Some HOST_CMD_GET_BUFFER_SIZE
  | 3 => Some HOST_CMD_CLEAR_BUFFER
  | 4 => Some HOST_CMD_GET_POSITION
  | 7 => Some HOST_CMD_ABORT
  | 8 => Some HOST_CMD_PAUSE
  | 10 => Some HOST_CMD_TOOL_QUERY
  | 11 => Some HOST_CMD_IS_FINISHED
  | 12 => Some HOST_CMD_READ_EEPROM
  | 13 => Some HOST_CMD_WRITE_EEPROM
  | 14 => Some HOST_CMD_CAPTURE_TO_FILE
  | 15 => Some HOST_CMD_END_CAPTURE
  | 16 => Some HOST_CMD_PLAYBACK_CAPTURE
  | 17 => Some HOST_CMD_RESET
  | 18 => Some HOST_CMD_NEXT_FILENAME
  | 20 => Some HOST_CMD_GET_BUILD_NAME
  | 21 => Some HOST_CMD_GET_POSITION_EXT
  | 22 => Some HOST_CMD_EXTENDED_STOP
  | 23 => Some HOST_CMD_BOARD_STATUS
  | 24 => Some HOST_CMD_GET_BUILD_STATS
  | 27 => Some HOST_CMD_ADVANCED_VERSION
  | _ => None
  end.

Definition sample_BuildState_value (b : BuildState) : Z :=
  match b with
  | BUILD_NONE => 0
  | BUILD_RUNNING => 1
  | BUILD_FINISHED_NORMALLY => 2
  | BUILD_PAUSED => 3
  | BUILD_CANCELED => 4
  | BUILD_CANCELLING => 5
  end.

Definition sample_K : Constants :=
  {| MAX_PACKET_PAYLOAD := 32;
     MAX_FILE_LEN := 31;
     firmware_version := 407;
     internal_version := 0;
     SOFTWARE_VARIANT_ID := 128;
     STEPPER_COUNT := 4;
     HONOR_DEBUG_PACKETS := false;
     PSTOP_SUPPORT := false;
     HAS_FILAMENT_COUNTER := false;
     RC := sample_RC;
     host_cmd := sample_host_cmd;
     BuildState_value := sample_BuildState_value;
     SLAVE_CMD_PAUSE_UNPAUSE := 23;
     PAUSE_EXT_OFF := 1;
     PAUSE_HBP_OFF := 2;
     PAUSE_STATE_PAUSED := 2;
     CLEAR_FOR_ESTOP := 300;
     ABP_COPIES := 301;
     EEPROM_DEFAULT_ABP_COPIES := 1;
     SD_SUCCESS := 0;
     SD_ERR_CARD_LOCKED := 5;
     SD_CWD := 11 |}.

(** The collaborators of the examples.  The pause machinery has the
    states 0 (running), 1 (pause settling), 2 (paused) and 3 (resume
    settling); the tool link either answers a transaction with the single
    byte OK or lets it time out. *)
Record SampleExt : Type := mkSampleExt {
  pause_state : Z;
  capturing : bool;
  playing : bool;
  lock_held : bool;
  transaction_active : bool;
  tool_answers : bool
}.

Definition sample_pause (pause : bool) (heaterControl : Z) (x : SampleExt)
  : SampleExt :=
  mkSampleExt (if pause then 1 else 3) (capturing x) (playing x)
    (lock_held x) (transaction_active x) (tool_answers x).

Definition sample_getLock (x : SampleExt) : bool * SampleExt :=
  if lock_held x || transaction_active x then (false, x)
  else (true, mkSampleExt (pause_state x) (capturing x) (playing x) true
                (transaction_active x) (tool_answers x)).

Definition sample_releaseLock (x : SampleExt) : SampleExt :=
  mkSampleExt (pause_state x) (capturing x) (playing x) false
    (transaction_active x) (tool_answers x).

Definition sample_set_transaction (b : bool) (x : SampleExt) : SampleExt :=
  mkSampleExt (pause_state x) (capturing x) (playing x) (lock_held x) b
    (tool_answers x).

Definition sample_startTransaction (w : World SampleExt) : World SampleExt :=
  set_tool_in (InPacket_reset (tool_in w))
    (set_ext (sample_set_transaction true (ext w)) w).

Definition sample_runToolSlice (w : World SampleExt) : World SampleExt :=
  if transaction_active (ext w) then
    set_tool_in
      (if tool_answers (ext w)
       then mkInPacket [129] [] true true NO_ERROR
       else InPacket_timeout (tool_in w))
      (set_ext (sample_set_transaction false (ext w)) w)
  else w.

Definition sample_getEeprom8 (e : gmap Z Z) (location default_value : Z) : Z :=
  let data := default 255 (e !! u16 location) in
  if data =? 255 then default_value else data.

Definition sample_X : Collaborators :=
  {| Ext := SampleExt;
     append_overflow := fun p => p;
     getEeprom8 := sample_getEeprom8;
     sd_isCapturing := capturing;
     sd_isPlaying := playing;
     sd_capturePacket := fun _ x => x;
     sd_startCapture := fun _ x => (0, x);
     sd_finishCapture := fun x => (0, x);
     sd_reset := fun x => x;
     sd_directoryReset := fun x => (0, x);
     sd_directoryNextEntry := fun n x => (repeat 0 n, false, x);
     sd_startPlayback := fun _ x => (0, x);
     sd_playbackHasNext := playing;
     steppers_getStepperPosition := fun _ _ => 0;
     steppers_getEndstopStatus := fun _ => 0;
     steppers_isRunning := fun _ => false;
     steppers_abort := fun x => x;
     steppers_reset := fun x => x;
     command_isPaused := fun x => pause_state x =? 2;
     command_pauseIntermediateState :=
       fun x => (pause_state x =? 1) || (pause_state x =? 3);
     command_pauseState := pause_state;
     command_pause := sample_pause;
     command_pauseHeaters := fun _ x => x;
     command_addFilamentUsed := fun x => x;
     command_pstop_clear := fun x => x;
     command_reset :=
       fun w => set_line_number 0
                  (set_command_buffer
                     (CircularBuffer.mk
                        (CircularBuffer.buf_size (command_buffer w)) []
                        false false) w);
     tool_getLock := sample_getLock;
     tool_releaseLock := sample_releaseLock;
     tool_getCurrentToolheadIndex := fun _ => 0;
     tool_startTransaction := sample_startTransaction;
     tool_isTransactionDone := fun w => negb (transaction_active (ext w));
     tool_runToolSlice := sample_runToolSlice;
     interrupts := fun w => set_micros (u32 (micros w + 1000)) w;
     reset := fun _ w => w;
     processDebugPacket := fun _ to_host w => (false, to_host, w) |}.

Definition sample_ext : SampleExt := mkSampleExt 0 false false false false true.

Definition sample_host : Host :=
  {| machineName := repeat 0 17;
     buildName := repeat 0 31;
     currentState := HOST_STATE_READY;
     buildState := BUILD_NONE;
     last_print_hours := 0;
     last_print_minutes := 0;
     last_print_line := 0;
     print_time_hours := 0;
     print_time := Timeout.init;
     do_host_reset := false;
     hard_reset := false;
     cancelBuild := false;
     packet_in_timeout := Timeout.init;
     cancel_timeout := Timeout.init;
     do_host_reset_timeout := Timeout.init |}.

Definition sample_world (buf : CircularBuffer.t) (x : SampleExt)
  : World SampleExt :=
  {| uart_in := mkInPacket [] [] false false NO_ERROR;
     uart_out := [];
     uart_sending := false;
     command_buffer := buf;
     line_number := 0;
     copiesToPrint := 0;
     copiesPrinted := 0;
     eeprom := ∅;
     micros := 5000;
     seconds := 0;
     indicated := [];
     tool_out := [];
     tool_in := mkInPacket [] [] false false NO_ERROR;
     tool_calls := [];
     ext := x |}.

(** A host request: the bytes of a finished packet in a fresh buffer. *)
Definition request (bytes : list Z) : InPacket :=
  mkInPacket bytes [] true true NO_ERROR.

Definition sample_queue (queued : list Z) : CircularBuffer.t :=
  CircularBuffer.mk 8 queued false false.

Definition sample_state : St SampleExt :=
  mkSt sample_host (sample_world (sample_queue []) sample_ext).

(** The queue with two free places. *)
Definition sample_busy_state : St SampleExt :=
  mkSt sample_host (sample_world (sample_queue [1; 2; 3; 4; 5; 6]) sample_ext).

(** A build streamed from the host, with the estop-clear policy flag set. *)
Definition sample_building_state : St SampleExt :=
  mkSt (set_buildState BUILD_RUNNING
          (set_currentState HOST_STATE_BUILDING sample_host))
       (set_eeprom (<[300 := 1]> ∅) (sample_world (sample_queue []) sample_ext)).

(** A pause that is settling. *)
Definition sample_settling_state : St SampleExt :=
  mkSt sample_host
       (sample_world (sample_queue [])
          (mkSampleExt 1 false false false false true)).

(** A tool that does not answer. *)
Definition sample_silent_state : St SampleExt :=
  mkSt sample_host
       (sample_world (sample_queue [])
          (mkSampleExt 0 false false false false false)).

(** A cancelled build: the reset is pending, the cancel notification is
    pending and its grace timeout has just been armed. *)
Definition sample_waiting : Machine SampleExt :=
  mkMachine
    (mkSt (set_cancel_timeout (Timeout.start 5000 1000000 Timeout.init)
             (set_cancelBuild true
                (set_do_host_reset true
                   (set_buildState BUILD_CANCELED
                      (set_currentState HOST_STATE_CANCEL_BUILD sample_host)))))
          (sample_world (sample_queue []) sample_ext))
    [].

(** A machine that has just received [inp] from the host. *)
Definition sample_machine (inp : InPacket) (h : Host) (x : SampleExt)
  : Machine SampleExt :=
  mkMachine (mkSt h (set_uart_in inp (sample_world (sample_queue []) x))) [].

(** The machine once the UART has sent the reply and the clock has moved
    on by [dt] microseconds. *)
Definition sample_later (dt : Z) (m : Machine SampleExt) : Machine SampleExt :=
  mkMachine
    (with_world (fun w => set_micros (u32 (micros w + dt))
                            (set_uart_sending false w)) (st m))
    (reset_log m).

(** What the examples observe of a machine: the reply, the host state, the
    pending flags and the log of resets. *)
Definition observe (m : Machine SampleExt)
  : OutPacket * HostState * bool * bool * list bool :=
  (uart_out (world (st m)), currentState (host (st m)),
   do_host_reset (host (st m)), cancelBuild (host (st m)), reset_log m).


(** A board of which only the SD card's directory matters: the entries
    still to be read, each a name and whether it is a directory.  Past the
    last entry the name is empty. *)
Definition Directory : Type := list (list Z * bool).

Definition dir_nextEntry (n : nat) (d : Directory)
  : list Z * bool * Directory :=
  match d with
  | [] => (repeat 0 n, false, [])
  | (name, isdir) :: rest => (take n (name ++ repeat 0 n), isdir, rest)
  end.

Definition dir_X : Collaborators :=
  {| Ext := Directory;
     append_overflow := fun p => p;
     getEeprom8 := sample_getEeprom8;
     sd_isCapturing := fun _ => false;
     sd_isPlaying := fun _ => false;
     sd_capturePacket := fun _ x => x;
     sd_startCapture := fun _ x => (0, x);
     sd_finishCapture := fun x => (0, x);
     sd_reset := fun x => x;
     sd_directoryReset := fun x => (0, x);
     sd_directoryNextEntry := dir_nextEntry;
     sd_startPlayback := fun _ x => (0, x);
     sd_playbackHasNext := fun _ => false;
     steppers_getStepperPosition := fun _ _ => 0;
     steppers_getEndstopStatus := fun _ => 0;
     steppers_isRunning := fun _ => false;
     steppers_abort := fun x => x;
     steppers_reset := fun x => x;
     command_isPaused := fun _ => false;
     command_pauseIntermediateState := fun _ => false;
     command_pauseState := fun _ => 0;
     command_pause := fun _ _ x => x;
     command_pauseHeaters := fun _ x => x;
     command_addFilamentUsed := fun x => x;
     command_pstop_clear := fun x => x;
     command_reset := fun w => w;
     tool_getLock := fun x => (true, x);
     tool_releaseLock := fun x => x;
     tool_getCurrentToolheadIndex := fun _ => 0;
     tool_startTransaction := fun w => w;
     tool_isTransactionDone := fun _ => true;
     tool_runToolSlice := fun w => w;
     interrupts := fun w => w;
     reset := fun _ w => w;
     processDebugPacket := fun _ to_host w => (false, to_host, w) |}.

Definition dir_state (d : Directory) : St Directory :=
  mkSt sample_host
    {| uart_in := mkInPacket [] [] false false NO_ERROR;
       uart_out := [];
       uart_sending := false;
       command_buffer := sample_queue [];
       line_number := 0;
       copiesToPrint := 0;
       copiesPrinted := 0;
       eeprom := ∅;
       micros := 5000;
       seconds := 0;
       indicated := [];
       tool_out := [];
       tool_in := mkInPacket [] [] false false NO_ERROR;
       tool_calls := [];
       ext := d |}.

(** A directory that begins with a hidden file, a file named [..] and the
    directory [..], followed by the file [a.x]. *)
Definition sample_directory : Directory :=
  [([46; 104], false); ([46; 46], false); ([46; 46], true);
   ([97; 46; 120], false)].

(** ** The rest of Host.cc: the accessors *)

(** The constants of getMachineName that are not among the sources:
    the capacity of the name, its EEPROM offset and the EEPROM default. *)
Record NameConstants : Type := mkNameConstants {
  MAX_MACHINE_NAME_LEN : nat;
  MACHINE_NAME : Z;
  EEPROM_DEFAULT_MACHINE_NAME : Z
}.

(** The characters of [defaultMachineName], "Thing-O-Matic". *)
Definition defaultMachineName : list Z :=
  [84; 104; 105; 110; 103; 45; 79; 45; 77; 97; 116; 105; 99].

Section Accessors.

Context (X : Collaborators) (N : NameConstants).

(** [for (uint8_t i = 0; i < n; i++) machineName[i] = f(i);] *)
Definition fill_name (n : nat) (f : nat -> Z) (name : list Z) : list Z :=
  fold_left (fun acc i => <[i := f i]> acc) (seq 0 n) name.

(** getMachineName; [machineName] has MAX_MACHINE_NAME_LEN + 1 places. *)
Definition getMachineName (s : St (Ext X)) : list Z * St (Ext X) :=
  let name0 := machineName (host s) in
  let name1 :=
    if nth 0 name0 0 =? 0 then
      <[MAX_MACHINE_NAME_LEN N := 0]>
        (fill_name (MAX_MACHINE_NAME_LEN N)
           (fun i => getEeprom8 X (eeprom (world s))
                       (u16 (MACHINE_NAME N + Z.of_nat i))
                       (EEPROM_DEFAULT_MACHINE_NAME N))
           name0)
    else name0 in
  let name2 :=
    if nth 0 name1 0 =? 0 then
      <[13%nat := 0]> (fill_name 13 (fun i => nth i defaultMachineName 0) name1)
    else name1 in
  (name2, with_host (set_machineName name2) s).

Definition getBuildName (s : St (Ext X)) : list Z := buildName (host s).

Definition getHostState (s : St (Ext X)) : HostState := currentState (host s).

Definition getBuildState (s : St (Ext X)) : BuildState := buildState (host s).

End Accessors.

Definition sample_N : NameConstants :=
  {| MAX_MACHINE_NAME_LEN := 16;
     MACHINE_NAME := 32;
     EEPROM_DEFAULT_MACHINE_NAME := 0 |}.

(** ** The locale compiler (firmware/src/shared/locale.c) *)

Module Locale.

Import Ascii String.

Definition BAD_LEFT : Z := 1.
Definition MISSING_QUOTE : Z := 2.
Definition PREMATURE_EOL : Z := 3.

(** Characters and C strings.  A C string is the list of its characters;
    [c_str mem] is the string that the memory [mem] holds: the characters
    before the first NUL. *)
Definition str (s : string) : list ascii := list_ascii_of_string s.

Definition NUL : ascii := "000"%char.
Definition newline : ascii := "010"%char.
Definition quote : ascii := "034"%char.
Definition backslash : ascii := "\"%char.


Fixpoint c_str (mem : list ascii) : list ascii :=
  match mem with
  | [] => []
  | c :: rest => if (c =? NUL)%char then [] else c :: c_str rest
  end.

(** isspace of the C locale: space and the controls 9 to 13. *)
Definition isspace (c : ascii) : bool :=
  (c =? " ")%char || (("009" <=? c)%char && (c <=? "013")%char).

(** A character of a name: 'a'..'z', 'A'..'Z', '0'..'9' or '_'. *)
Definition is_name_char (c : ascii) : bool :=
  (("a" <=? c)%char && (c <=? "z")%char)
  || (("A" <=? c)%char && (c <=? "Z")%char)
  || (("0" <=? c)%char && (c <=? "9")%char)
  || (c =? "_")%char.

(** [while (isspace( *line)) ++line;] *)
Fixpoint skip_space (line : list ascii) : list ascii :=
  match line with
  | c :: rest => if isspace c then skip_space rest else line
  | [] => []
  end.

(** The size of [name] and of [text]. *)
Definition BUFFER_SIZE : nat := 1024.

(** How the loop over the name ends: at white space or '=' with the name
    read and the line from that character on; at a character no name may
    hold; at the end of the line; or by a store past the end of [name]. *)
Inductive NameScan : Type :=
  | NameEnds (name : list ascii) (line : list ascii)
  | NameBad
  | NameEol
  | NameOverrun.

Fixpoint scan_name (line : list ascii) (name : list ascii) (name_len : nat)
  : NameScan :=
  match line with
  | [] => NameEol
  | c :: rest =>
      if is_name_char c then
        if (name_len <? BUFFER_SIZE)%nat
        then scan_name rest (name ++ [c]) (S name_len)
        else NameOverrun
      else if isspace c || (c =? "=")%char then
        if (name_len <? BUFFER_SIZE)%nat
        then NameEnds name line
        else NameOverrun
      else NameBad
  end.

(** The loop over the text: backslash makes the next character literal
    (and [n] a newline), an unescaped quote ends the text, and so does the
    end of the line.  [None] is a store past the end of [text]. *)
Fixpoint scan_text (line : list ascii) (literal : bool) (text : list ascii)
  (text_len : nat) : option (list ascii) :=
  match line with
  | [] => Some text
  | c :: rest =>
      if literal then
        if (text_len <? BUFFER_SIZE)%nat
        then scan_text rest false
               (text ++ [if (c =? "n")%char then newline else c])
               (S text_len)
        else None
      else if (c =? backslash)%char then scan_text rest true text text_len
      else if (c =? quote)%char then Some text
      else
        if (text_len <? BUFFER_SIZE)%nat
        then scan_text rest false (text ++ [c]) (S text_len)
        else None
  end.

(** What the fprintf of process writes. *)
Definition declaration (name locale text : list ascii) : list ascii :=
  str "const static PROGMEM prog_uchar " ++ name ++ str "_" ++ locale
  ++ str "[] = " ++ [quote] ++ text ++ [quote] ++ str ";" ++ [newline].

(** process from the name on: what follows the handling of comments and
    blank lines.  [line1] is the line from its first character that is not
    white space, [out] the text written to the stream so far. *)
Definition process_entry (line1 locale out : list ascii)
  : option (Z * option (list ascii)) :=
  match scan_name line1 [] 0 with
  | NameOverrun => None
  | NameBad => Some (BAD_LEFT, Some out)
  | NameEol => Some (PREMATURE_EOL, Some out)
  | NameEnds name line2 =>
      match skip_space line2 with
      | "034"%char :: line3 =>
          text ← scan_text line3 false [] 0;
          Some (0, Some (out ++ declaration name locale text))
      | _ => Some (MISSING_QUOTE, Some out)
      end
  end.

(** process: [line] and [locale] may be null pointers; [f] is the text
    written to the stream so far, or a null stream.  The result is the
    return value and the stream, or [None] when a buffer is overrun. *)
Definition process (line : option (list ascii)) (locale : option (list ascii))
  (f : option (list ascii)) : option (Z * option (list ascii)) :=
  let locale := match locale with Some l => c_str l | None => str "c" end in
  match line, f with
  | Some mem, Some out =>
      match c_str mem with
      | [] => Some (0, f)
      | line0 =>
          let line1 := skip_space line0 in
          match line1 with
          | "#"%char :: _ => Some (0, f)
          | "/"%char :: "/"%char :: _ => Some (0, Some (out ++ line1))
          | "010"%char :: _ => Some (0, Some (out ++ line1))
          | [] => Some (0, Some (out ++ [newline]))
          | _ => process_entry line1 locale out
          end
      end
  | _, _ => Some (0, f)
  end.











End Locale.


(** * Properties *)

Section Properties.

Context (K : Constants) (X : Collaborators).

Local Abbreviation State := (St (Ext X)).

(** ** Bytes and outbound packets *)

Lemma u8_small (b : Z) : 0 <= b < 256 -> u8 b = b.
Proof. intros Hb. unfold u8. apply Z.mod_small. lia. Qed.

Lemma land_255 (v : Z) : Z.land v 255 = v mod 256.
Proof. change 255 with (Z.ones 8). rewrite Z.land_ones by lia. reflexivity. Qed.

Lemma u8_land_255 (v : Z) : u8 (Z.land v 255) = Z.land v 255.
Proof.
  rewrite land_255. unfold u8. apply Z.mod_small.
  apply Z.mod_pos_bound. lia.
Qed.

Lemma append8_fits (v : Z) (p : OutPacket) :
  (length p < MAX_PACKET_PAYLOAD K)%nat -> append8 K X v p = p ++ [u8 v].
Proof.
  intros Hlen. unfold append8.
  destruct (Nat.ltb_spec (length p) (MAX_PACKET_PAYLOAD K)); [reflexivity | lia].
Qed.

Lemma append16_fits (v : Z) (p : OutPacket) :
  (length p + 2 <= MAX_PACKET_PAYLOAD K)%nat ->
  append16 K X v p = p ++ [Z.land v 255; Z.land (Z.shiftr v 8) 255].
Proof.
  intros Hlen. unfold append16.
  rewrite (append8_fits _ p) by lia.
  rewrite append8_fits by (rewrite length_app; simpl; lia).
  rewrite !u8_land_255, <- app_assoc. reflexivity.
Qed.

Lemma append_all_fits (bytes : list Z) (p : OutPacket) :
  (length p + length bytes <= MAX_PACKET_PAYLOAD K)%nat ->
  append_all K X bytes p = p ++ map u8 bytes.
Proof.
  unfold append_all. revert p.
  induction bytes as [|b bytes IH]; intros p Hlen; simpl.
  - rewrite app_nil_r. reflexivity.
  - simpl in Hlen. rewrite append8_fits by lia.
    rewrite IH by (rewrite length_app; simpl; lia).
    rewrite <- app_assoc. reflexivity.
Qed.

Lemma map_u8_bytes (bytes : list Z) :
  Forall (fun b => 0 <= b < 256) bytes -> map u8 bytes = bytes.
Proof.
  induction 1 as [|b bytes Hb _ IH]; simpl; [reflexivity|].
  rewrite u8_small by assumption. rewrite IH. reflexivity.
Qed.

(** ** The version query *)

(** C4.  The reply to a VERSION query carries version 0 for every
    host-supplied version (the int16_t [rv] read at offset 1) strictly
    below the minimum 39, except the grandfathered version 29, which is
    answered like a version that meets the minimum: with the real firmware
    version. *)
Theorem handleVersion_minimum_version (from_host : InPacket) (rv : Z) :
  (3 <= MAX_PACKET_PAYLOAD K)%nat ->
  rv = int16_t (read16 1 from_host) ->
  (rv < 39 -> rv <> 29 ->
   handleVersion K X from_host [] = [u8 (RC K RC_OK); 0; 0])
  /\ (rv = 29 \/ 39 <= rv ->
      handleVersion K X from_host [] =
        [u8 (RC K RC_OK); Z.land (firmware_version K) 255;
         Z.land (Z.shiftr (firmware_version K) 8) 255]).
Proof.
  intros Hcap ->. unfold handleVersion.
  rewrite (append8_fits _ []) by (simpl; lia).
  rewrite !append16_fits by (simpl; lia). simpl.
  split.
  - intros Hlt Hne.
    destruct (Z.eqb_spec (int16_t (read16 1 from_host)) 29); [contradiction|].
    destruct (Z.ltb_spec (int16_t (read16 1 from_host)) 39); [reflexivity|lia].
  - intros [Heq | Hge].
    + rewrite Heq. reflexivity.
    + destruct (Z.ltb_spec (int16_t (read16 1 from_host)) 39); [lia|].
      rewrite andb_false_r. reflexivity.
Qed.

(** C3, as amended.  A VERSION query with host version 29 is answered OK
    followed by the firmware version; with host version 38, OK followed by
    0x0000; with host version 39, OK followed by the firmware version. *)
Theorem handleVersion_scenarios (from_host : InPacket) :
  (3 <= MAX_PACKET_PAYLOAD K)%nat ->
  (read16 1 from_host = 29 ->
   handleVersion K X from_host [] =
     [u8 (RC K RC_OK); Z.land (firmware_version K) 255;
      Z.land (Z.shiftr (firmware_version K) 8) 255])
  /\ (read16 1 from_host = 38 ->
      handleVersion K X from_host [] = [u8 (RC K RC_OK); 0; 0])
  /\ (read16 1 from_host = 39 ->
      handleVersion K X from_host [] =
        [u8 (RC K RC_OK); Z.land (firmware_version K) 255;
         Z.land (Z.shiftr (firmware_version K) 8) 255]).
Proof.
  intros Hcap. unfold handleVersion.
  rewrite (append8_fits _ []) by (simpl; lia).
  rewrite !append16_fits by (simpl; lia). simpl.
  repeat split; intros ->; reflexivity.
Qed.

(** ** Truncated tool queries *)

(** C5.  A TOOL_QUERY whose packet is shorter than 2 bytes is answered
    with packet-error as the first response byte and raises the
    truncated-command indicator; the handler returns at once, for every
    amount of fuel: no call into the tool channel is logged and the tool
    channel (its packets and the collaborators' state) and the globals of
    Host.cc are unchanged. *)
Theorem handleToolQuery_truncated (fuel : nat) (from_host : InPacket)
  (s : State) :
  (1 <= MAX_PACKET_PAYLOAD K)%nat ->
  getLength from_host < 2 ->
  exists s',
    handleToolQuery K X fuel from_host [] s
      = Some ([u8 (RC K RC_PACKET_ERROR)], s')
    /\ indicated (world s') = indicated (world s) ++ [ERR_HOST_TRUNCATED_CMD]
    /\ tool_calls (world s') = tool_calls (world s)
    /\ tool_out (world s') = tool_out (world s)
    /\ tool_in (world s') = tool_in (world s)
    /\ ext (world s') = ext (world s)
    /\ host s' = host s.
Proof.
  intros Hcap Hlen. exists (indicateError X ERR_HOST_TRUNCATED_CMD s).
  unfold handleToolQuery.
  destruct (Z.ltb_spec (getLength from_host) 2); [|lia].
  rewrite (append8_fits _ []) by (simpl; lia).
  repeat split; reflexivity.
Qed.

(** ** Pausing *)

Lemma pauseBuild_same_state (pause : bool) (heaterControl : Z) (s : State) :
  command_isPaused X (ext (world s)) = pause ->
  pauseBuild X pause heaterControl s = s.
Proof.
  intros Hp. unfold pauseBuild. rewrite Hp, Bool.eqb_reflx. reflexivity.
Qed.

Lemma pauseBuild_settling (pause : bool) (heaterControl : Z) (s : State) :
  command_pauseIntermediateState X (ext (world s)) = true ->
  pauseBuild X pause heaterControl s = s.
Proof.
  intros Hmid. unfold pauseBuild. rewrite Hmid.
  destruct (negb _); reflexivity.
Qed.

(** C7.  pauseBuild is idempotent.  If, when pauseBuild(true, h) is called
    again right after a first call, the pause is still settling or the
    paused state is reached, the second call changes nothing (build state,
    pause state of the command queue and print timer included); and any
    call asking for the pause state the build is already in changes
    nothing. *)
Theorem pauseBuild_idempotent (heaterControl : Z) (s : State) :
  let s1 := pauseBuild X true heaterControl s in
  command_pauseIntermediateState X (ext (world s1)) = true
  \/ command_isPaused X (ext (world s1)) = true ->
  pauseBuild X true heaterControl s1 = s1
  /\ forall (pause : bool) (h : Z) (s' : State),
       command_isPaused X (ext (world s')) = pause ->
       pauseBuild X pause h s' = s'.
Proof.
  intros s1 Hsettled. split.
  - destruct Hsettled as [Hmid | Hpaused].
    + apply pauseBuild_settling. exact Hmid.
    + apply pauseBuild_same_state. exact Hpaused.
  - intros pause h s' Hp. apply pauseBuild_same_state. exact Hp.
Qed.

(** ** Build start *)

Lemma pop_until_nul_more (n : nat) (buf : CircularBuffer.t) :
  (length (CircularBuffer.items buf) < n)%nat ->
  pop_until_nul n buf
    = pop_until_nul (S (length (CircularBuffer.items buf))) buf.
Proof.
  revert buf. induction n as [|n IH]; intros [sz l o u] Hn; simpl in *; [lia|].
  destruct l as [|b l]; simpl in *; [reflexivity|].
  destruct (u8 b =? 0); [reflexivity|].
  rewrite IH by (simpl; lia). reflexivity.
Qed.

(** C10, as amended.  Whatever the host state was,
    handleBuildStartNotification ends with BuildState RUNNING, the print
    timer restarted for one hour at the current clock with the hour count
    0, and the line counter 0.  In the states other than READY, BUILDING
    and BUILDING_FROM_SD (the transitional CANCEL_BUILD) no name is
    consumed: the buffer, the build name and the host state stay as they
    were.  Besides the name consumption, what the handler does to the host
    state varies with that state too: READY becomes BUILDING (and the
    pstop flags are cleared where PSTOP support is compiled in), every
    other state is kept; the state of the collaborators is not touched
    otherwise. *)
Theorem handleBuildStartNotification_unconditional
  (buf : CircularBuffer.t) (s : State) :
  let r := handleBuildStartNotification K X buf s in
  buildState (host (snd r)) = BUILD_RUNNING
  /\ print_time (host (snd r))
     = Timeout.start (micros (world s)) ONE_HOUR (print_time (host s))
  /\ print_time_hours (host (snd r)) = 0
  /\ line_number (world (snd r)) = 0
  /\ match currentState (host s) with
     | HOST_STATE_CANCEL_BUILD =>
         fst r = buf
         /\ buildName (host (snd r)) = buildName (host s)
         /\ currentState (host (snd r)) = HOST_STATE_CANCEL_BUILD
     | HOST_STATE_READY =>
         currentState (host (snd r)) = HOST_STATE_BUILDING
     | st => currentState (host (snd r)) = st
     end
  /\ ext (world (snd r))
     = match currentState (host s) with
       | HOST_STATE_READY =>
           if PSTOP_SUPPORT K then command_pstop_clear X (ext (world s))
           else ext (world s)
       | _ => ext (world s)
       end.
Proof.
  unfold handleBuildStartNotification.
  destruct (currentState (host s)) eqn:Hst.
  - destruct (pop_build_name _ _ _ _ _) as [name buf'].
    destruct (PSTOP_SUPPORT K); repeat split; reflexivity.
  - destruct (pop_build_name _ _ _ _ _) as [name buf'].
    repeat split; try reflexivity. exact Hst.
  - repeat split; try reflexivity. exact Hst.
  - repeat split; try reflexivity. exact Hst.
Qed.

(** ** Queueing action commands *)

Lemma read8_received (from_host : InPacket) (i : nat) :
  (i < length (received from_host))%nat -> (i < 256)%nat ->
  read8 (Z.of_nat i) from_host = nth i (received from_host) 0.
Proof.
  intros Hi Hsmall. unfold read8, u8.
  rewrite Z.mod_small by lia. rewrite Nat2Z.id.
  apply app_nth1. exact Hi.
Qed.

Lemma map_nth_seq (l : list Z) :
  map (fun i => nth i l 0) (seq 0 (length l)) = l.
Proof.
  induction l as [|b l IH]; simpl; [reflexivity|].
  f_equal. rewrite <- seq_shift, map_map. exact IH.
Qed.

Lemma packet_bytes_received (p : InPacket) :
  (length (received p) <= 256)%nat -> packet_bytes p = received p.
Proof.
  intros Hlen. unfold packet_bytes.
  rewrite <- (map_nth_seq (received p)) at 2.
  apply map_ext_in. intros i Hi. apply in_seq in Hi.
  apply read8_received; lia.
Qed.

Lemma push_all (bytes : list Z) (q : CircularBuffer.t) :
  (length (CircularBuffer.items q) + length bytes
   <= CircularBuffer.buf_size q)%nat ->
  fold_left (fun acc b => CircularBuffer.push b acc) bytes q
  = CircularBuffer.mk (CircularBuffer.buf_size q)
      (CircularBuffer.items q ++ bytes)
      (CircularBuffer.overflow q) (CircularBuffer.underflow q).
Proof.
  revert q. induction bytes as [|b bytes IH]; intros [sz l o u] Hlen; simpl in *.
  - rewrite app_nil_r. reflexivity.
  - unfold CircularBuffer.push at 2. simpl.
    destruct (Nat.ltb_spec (length l) sz); [|lia].
    rewrite IH by (simpl; rewrite length_app; simpl; lia).
    simpl. rewrite <- app_assoc. reflexivity.
Qed.

Lemma push_packet_bytes (from_host : InPacket) (q : CircularBuffer.t) :
  push_packet (length (received from_host)) from_host q
  = fold_left (fun acc b => CircularBuffer.push b acc)
      (packet_bytes from_host) q.
Proof.
  unfold push_packet, packet_bytes.
  generalize (seq 0 (length (received from_host))). intros l. revert q.
  induction l as [|i l IH]; intros q; simpl; [reflexivity|apply IH].
Qed.

(** C1.  A finished packet whose opcode byte has the high bit set, met
    while neither capture nor playback is active, is queued all or nothing.
    If the queue's remaining capacity is at least the packet length, the
    queue afterwards holds its old bytes followed by every byte of the
    packet in order (no overflow is raised) and the reply code appended is
    OK; otherwise the state, queue included, is unchanged and the reply
    code appended is buffer-overflow.  (A packet length is a uint8_t.) *)
Theorem processCommandPacket_all_or_nothing (from_host : InPacket)
  (to_host : OutPacket) (s : State) :
  1 <= getLength from_host < 256 ->
  Z.land (read8 0 from_host) 128 <> 0 ->
  sd_isCapturing X (ext (world s)) = false ->
  sd_isPlaying X (ext (world s)) = false ->
  let q := command_buffer (world s) in
  (getLength from_host <= CircularBuffer.getRemainingCapacity q ->
   processCommandPacket K X from_host to_host s
   = (true, append8 K X (RC K RC_OK) to_host,
      with_world
        (set_command_buffer
           (CircularBuffer.mk (CircularBuffer.buf_size q)
              (CircularBuffer.items q ++ received from_host)
              (CircularBuffer.overflow q) (CircularBuffer.underflow q))) s))
  /\ (CircularBuffer.getRemainingCapacity q < getLength from_host ->
      processCommandPacket K X from_host to_host s
      = (true, append8 K X (RC K RC_BUFFER_OVERFLOW) to_host, s)).
Proof.
  intros Hlen Hbit Hcap Hplay q. unfold processCommandPacket.
  destruct (Z.leb_spec 1 (getLength from_host)); [|lia].
  destruct (Z.eqb_spec (Z.land (read8 0 from_host) 128) 0); [contradiction|].
  simpl. rewrite Hcap, Hplay. fold q. split; intros Hroom.
  - destruct (Z.leb_spec (getLength from_host)
                (CircularBuffer.getRemainingCapacity q)); [|lia].
    unfold with_world. simpl. fold q. do 2 f_equal.
    unfold getLength in *. rewrite Nat2Z.id.
    rewrite push_packet_bytes, packet_bytes_received by lia.
    unfold CircularBuffer.getRemainingCapacity in *.
    rewrite push_all by lia. reflexivity.
  - destruct (Z.leb_spec (getLength from_host)
                (CircularBuffer.getRemainingCapacity q)); [lia|].
    reflexivity.
Qed.

(** ** Reset, abort and clear-buffer during a build *)

Lemma stopBuildNow_world (s : State) : world (stopBuildNow X s) = world s.
Proof. unfold stopBuildNow. destruct (currentState (host s)); reflexivity. Qed.

Lemma stopBuild_indicated (s : State) :
  indicated (world (stopBuild X s)) = indicated (world s).
Proof.
  unfold stopBuild.
  destruct (command_isPaused X _ || command_pauseIntermediateState X _).
  - rewrite stopBuildNow_world. reflexivity.
  - reflexivity.
Qed.

(** Under a stored estop-clear flag of 1 the query is answered OK and
    handed to stopBuild (entered with BuildState CANCELED), and the
    indicator is raised.  When the command queue is neither paused nor
    settling, do_host_reset is as before, the build state is CANCELLING
    and a pause has been requested. *)
Lemma reset_during_build_cancel_path (fuel : nat) (from_host : InPacket)
  (to_host : OutPacket) (s : State) (c : HostCommand) :
  1 <= getLength from_host ->
  Z.land (read8 0 from_host) 128 = 0 ->
  host_cmd K (read8 0 from_host) = Some c ->
  c = HOST_CMD_RESET \/ c = HOST_CMD_ABORT \/ c = HOST_CMD_CLEAR_BUFFER ->
  currentState (host s) = HOST_STATE_BUILDING
  \/ currentState (host s) = HOST_STATE_BUILDING_FROM_SD ->
  getEeprom8 X (eeprom (world s)) (CLEAR_FOR_ESTOP K) 0 = 1 ->
  let s0 := if HAS_FILAMENT_COUNTER K
            then with_ext (command_addFilamentUsed X) s else s in
  let x1 := steppers_abort X (ext (world s0)) in
  let s1 := stopBuild X (with_host (set_buildState BUILD_CANCELED) s0) in
  processQueryPacket K X fuel from_host to_host s
  = Some (true, append8 K X (RC K RC_OK) to_host,
          indicateError X ERR_RESET_DURING_BUILD s1)
  /\ indicated (world (indicateError X ERR_RESET_DURING_BUILD s1))
     = indicated (world s) ++ [ERR_RESET_DURING_BUILD]
  /\ (command_isPaused X x1 = false ->
      command_pauseIntermediateState X x1 = false ->
      do_host_reset (host s1) = do_host_reset (host s)
      /\ buildState (host s1) = BUILD_CANCELLING
      /\ ext (world s1) = command_pause X true 0 x1).
Proof.
  intros Hlen Hbit Hcmd Hc Hstate Hflag s0 x1 s1.
  assert (Hhost0 : host s0 = host s).
  { unfold s0. destruct (HAS_FILAMENT_COUNTER K); reflexivity. }
  assert (Heep0 : eeprom (world s0) = eeprom (world s)).
  { unfold s0. destruct (HAS_FILAMENT_COUNTER K); reflexivity. }
  assert (Hind0 : indicated (world s0) = indicated (world s)).
  { unfold s0. destruct (HAS_FILAMENT_COUNTER K); reflexivity. }
  split; [|split].
  - unfold processQueryPacket.
    destruct (Z.leb_spec 1 (getLength from_host)); [|lia].
    rewrite Hbit, Hcmd. simpl.
    fold s0. rewrite Hhost0, Heep0, Hflag. simpl.
    destruct Hc as [-> | [-> | ->]];
      destruct Hstate as [-> | ->]; reflexivity.
  - unfold s1. simpl.
    rewrite stopBuild_indicated. simpl. rewrite Hind0. reflexivity.
  - intros Hp Hi. unfold s1, stopBuild. simpl. fold x1.
    rewrite Hp, Hi. simpl. rewrite Hhost0. repeat split; reflexivity.
Qed.

(** The other side of the policy: with any other value of the flag the
    build is abandoned, the deferred reset is armed at once (guarded by the
    200 ms timeout) and the indicator is raised all the same. *)
Lemma reset_during_build_abandoned (fuel : nat) (from_host : InPacket)
  (to_host : OutPacket) (s : State) (c : HostCommand) :
  1 <= getLength from_host ->
  Z.land (read8 0 from_host) 128 = 0 ->
  host_cmd K (read8 0 from_host) = Some c ->
  c = HOST_CMD_RESET \/ c = HOST_CMD_ABORT \/ c = HOST_CMD_CLEAR_BUFFER ->
  currentState (host s) = HOST_STATE_BUILDING
  \/ currentState (host s) = HOST_STATE_BUILDING_FROM_SD ->
  getEeprom8 X (eeprom (world s)) (CLEAR_FOR_ESTOP K) 0 <> 1 ->
  exists s',
    processQueryPacket K X fuel from_host to_host s
    = Some (true, append8 K X (RC K RC_OK) to_host, s')
    /\ do_host_reset (host s') = true
    /\ do_host_reset_timeout (host s')
       = Timeout.start (micros (world s)) 200000
           (do_host_reset_timeout (host s))
    /\ buildState (host s') = buildState (host s)
    /\ indicated (world s') = indicated (world s) ++ [ERR_RESET_DURING_BUILD]
    /\ ext (world s')
       = ext (world (if HAS_FILAMENT_COUNTER K
                     then with_ext (command_addFilamentUsed X) s else s)).
Proof.
  intros Hlen Hbit Hcmd Hc Hstate Hflag.
  set (s0 := if HAS_FILAMENT_COUNTER K
             then with_ext (command_addFilamentUsed X) s else s).
  assert (Hhost0 : host s0 = host s).
  { unfold s0. destruct (HAS_FILAMENT_COUNTER K); reflexivity. }
  assert (Hworld0 : eeprom (world s0) = eeprom (world s)
                    /\ indicated (world s0) = indicated (world s)
                    /\ micros (world s0) = micros (world s)).
  { unfold s0. destruct (HAS_FILAMENT_COUNTER K); repeat split. }
  destruct Hworld0 as (Heep0 & Hind0 & Hclk0).
  exists (with_host (fun h =>
            set_do_host_reset_timeout
              (Timeout.start (micros (world s0)) 200000
                 (do_host_reset_timeout h))
              (set_do_host_reset true h))
            (indicateError X ERR_RESET_DURING_BUILD s0)).
  split.
  - unfold processQueryPacket.
    destruct (Z.leb_spec 1 (getLength from_host)); [|lia].
    rewrite Hbit, Hcmd. simpl. fold s0. rewrite Hhost0, Heep0.
    destruct (Z.eqb_spec (getEeprom8 X (eeprom (world s))
                            (CLEAR_FOR_ESTOP K) 0) 1); [contradiction|].
    destruct Hc as [-> | [-> | ->]]; destruct Hstate as [-> | ->];
      reflexivity.
  - simpl. rewrite Hhost0, Hind0, Hclk0. repeat split.
Qed.

(** stopBuild on a command queue that is paused or settling finishes
    through stopBuildNow at once. *)
Lemma stopBuild_finishes_now (s : State) :
  let x1 := steppers_abort X (ext (world s)) in
  command_isPaused X x1 = true
  \/ command_pauseIntermediateState X x1 = true ->
  do_host_reset (host (stopBuild X s)) = true
  /\ do_host_reset_timeout (host (stopBuild X s))
     = Timeout.start (micros (world s)) 200000
         (do_host_reset_timeout (host s))
  /\ buildState (host (stopBuild X s)) = BUILD_CANCELED
  /\ ext (world (stopBuild X s)) = x1.
Proof.
  intros x1 Hp. unfold stopBuild. simpl. fold x1.
  assert (Hor : command_isPaused X x1
                || command_pauseIntermediateState X x1 = true)
    by (destruct Hp as [-> | ->]; [reflexivity | apply orb_true_r]).
  rewrite Hor. unfold stopBuildNow. simpl.
  destruct (currentState (host s)); repeat split; reflexivity.
Qed.

(** C2, as amended.  A RESET, ABORT or CLEAR_BUFFER query that arrives
    while the host state is BUILDING or BUILDING_FROM_SD is answered OK and
    raises the reset-during-build indicator.  If the stored estop-clear
    flag reads 1, the request is handed to stopBuild (entered with
    BuildState CANCELED) and the handler itself does not arm the reset:
    when the command queue is neither paused nor settling, do_host_reset
    is as before, the build state is CANCELLING and a pause has been
    requested; when it is paused or settling, stopBuild finishes through
    stopBuildNow within the same call, which arms the deferred reset
    (guarded by 200 ms) with the build state CANCELED and requests no
    pause.  For every other value of the flag, the default 0 of an erased
    cell included, the build is abandoned: the deferred reset is armed at
    once, the build state stays and no cancel sequence is entered. *)
Theorem reset_during_build_diverted (fuel : nat) (from_host : InPacket)
  (to_host : OutPacket) (s : State) (c : HostCommand) :
  1 <= getLength from_host ->
  Z.land (read8 0 from_host) 128 = 0 ->
  host_cmd K (read8 0 from_host) = Some c ->
  c = HOST_CMD_RESET \/ c = HOST_CMD_ABORT \/ c = HOST_CMD_CLEAR_BUFFER ->
  currentState (host s) = HOST_STATE_BUILDING
  \/ currentState (host s) = HOST_STATE_BUILDING_FROM_SD ->
  let flag := getEeprom8 X (eeprom (world s)) (CLEAR_FOR_ESTOP K) 0 in
  let s0 := if HAS_FILAMENT_COUNTER K
            then with_ext (command_addFilamentUsed X) s else s in
  let x1 := steppers_abort X (ext (world s0)) in
  exists s' : State,
    processQueryPacket K X fuel from_host to_host s
    = Some (true, append8 K X (RC K RC_OK) to_host, s')
    /\ indicated (world s') = indicated (world s) ++ [ERR_RESET_DURING_BUILD]
    /\ (flag = 1 ->
        s' = indicateError X ERR_RESET_DURING_BUILD
               (stopBuild X (with_host (set_buildState BUILD_CANCELED) s0))
        /\ (command_isPaused X x1 = false ->
            command_pauseIntermediateState X x1 = false ->
            do_host_reset (host s') = do_host_reset (host s)
            /\ buildState (host s') = BUILD_CANCELLING
            /\ ext (world s') = command_pause X true 0 x1)
        /\ (command_isPaused X x1 = true
            \/ command_pauseIntermediateState X x1 = true ->
            do_host_reset (host s') = true
            /\ do_host_reset_timeout (host s')
               = Timeout.start (micros (world s)) 200000
                   (do_host_reset_timeout (host s))
            /\ buildState (host s') = BUILD_CANCELED
            /\ ext (world s') = x1))
    /\ (flag <> 1 ->
        do_host_reset (host s') = true
        /\ do_host_reset_timeout (host s')
           = Timeout.start (micros (world s)) 200000
               (do_host_reset_timeout (host s))
        /\ buildState (host s') = buildState (host s)
        /\ ext (world s') = ext (world s0)).
Proof.
  intros Hlen Hbit Hcmd Hc Hstate flag s0 x1.
  destruct (Z.eq_dec flag 1) as [Hflag | Hflag].
  - destruct (reset_during_build_cancel_path fuel from_host to_host s c
                Hlen Hbit Hcmd Hc Hstate Hflag) as (Hrun & Hind & Hrunning).
    eexists. split; [exact Hrun|]. split; [exact Hind|].
    split; [|intros Hno; contradiction].
    intros _. split; [reflexivity|]. split; [exact Hrunning|].
    intros Hp.
    assert (Hhost0 : do_host_reset_timeout (host s0)
                     = do_host_reset_timeout (host s)
                     /\ micros (world s0) = micros (world s))
      by (unfold s0; destruct (HAS_FILAMENT_COUNTER K); split; reflexivity).
    destruct Hhost0 as [Ht0 Hm0].
    destruct (stopBuild_finishes_now
                (with_host (set_buildState BUILD_CANCELED) s0) Hp)
      as (Hr & Ht & Hb & Hx).
    split; [exact Hr|]. split; [|split; [exact Hb | exact Hx]].
    rewrite <- Ht0, <- Hm0. exact Ht.
  - destruct (reset_during_build_abandoned fuel from_host to_host s c
                Hlen Hbit Hcmd Hc Hstate Hflag)
      as (s' & Hrun & Hr & Ht & Hb & Hind & Hx).
    exists s'. split; [exact Hrun|]. split; [exact Hind|].
    split; [intros Hyes; contradiction|].
    intros _. repeat split; assumption.
Qed.

(** ** EEPROM round trip *)

Lemma fold_insert_seq (f : nat -> Z) (l : list Z) (k : nat) :
  (k <= length l)%nat ->
  fold_left (fun acc i => <[i := f i]> acc) (seq 0 k) l
  = map f (seq 0 k) ++ drop k l.
Proof.
  induction k as [|k IH]; intros Hk; [reflexivity|].
  rewrite seq_S, fold_left_app, IH by lia. simpl.
  rewrite map_app. simpl.
  destruct (lookup_lt_is_Some_2 l k) as [x Hx]; [lia|].
  rewrite (drop_S l x k Hx).
  rewrite insert_app_r_alt by (rewrite length_map, length_seq; lia).
  rewrite length_map, length_seq, Nat.sub_diag. simpl.
  rewrite <- app_assoc. reflexivity.
Qed.

Lemma read_payload_bytes (from_host : InPacket) (data0 : list Z) :
  read_payload from_host data0
  = map (fun i => read8 (Z.of_nat i + 4) from_host) (seq 0 (length data0)).
Proof.
  unfold read_payload. rewrite fold_insert_seq by lia.
  rewrite drop_all, app_nil_r. reflexivity.
Qed.

Lemma u16_apart (a d : Z) : 0 < d < 65536 -> u16 (a + d) <> u16 a.
Proof.
  unfold u16. intros Hd Heq.
  assert (H0 : (a + d - a) mod 65536 = 0).
  { rewrite Zminus_mod, Heq, Z.sub_diag. reflexivity. }
  replace (a + d - a) with d in H0 by lia.
  rewrite Z.mod_small in H0 by lia. lia.
Qed.

Lemma eeprom_write_block_other (data : list Z) (offset a : Z) (e : gmap Z Z) :
  (forall i, (i < length data)%nat -> u16 (offset + Z.of_nat i) <> u16 a) ->
  eeprom_read_byte (eeprom_write_block data offset e) a = eeprom_read_byte e a.
Proof.
  revert offset e. induction data as [|b data IH]; intros offset e Hne; simpl.
  - reflexivity.
  - rewrite IH.
    + unfold eeprom_read_byte. rewrite lookup_insert_ne; [reflexivity|].
      specialize (Hne 0%nat ltac:(simpl; lia)).
      rewrite Z.add_0_r in Hne. exact Hne.
    + intros i Hi. specialize (Hne (S i) ltac:(simpl; lia)).
      replace (offset + 1 + Z.of_nat i) with (offset + Z.of_nat (S i)) by lia.
      exact Hne.
Qed.

Lemma eeprom_write_read (data : list Z) (offset : Z) (e : gmap Z Z) :
  Z.of_nat (length data) <= 65536 ->
  eeprom_read_block (eeprom_write_block data offset e) offset (length data)
  = data.
Proof.
  revert offset e. induction data as [|b data IH]; intros offset e Hlen.
  - reflexivity.
  - simpl length in Hlen. unfold eeprom_read_block. simpl. f_equal.
    + rewrite Z.add_0_r. rewrite eeprom_write_block_other.
      * unfold eeprom_read_byte. rewrite lookup_insert_eq. reflexivity.
      * intros i Hi.
        replace (offset + 1 + Z.of_nat i) with (offset + (1 + Z.of_nat i))
          by lia.
        apply u16_apart. lia.
    + rewrite <- seq_shift, map_map.
      rewrite <- (IH (offset + 1) (<[u16 offset := b]> e)) at 2 by lia.
      unfold eeprom_read_block. apply map_ext. intros i.
      f_equal. lia.
Qed.

(** C8.  WRITE_EEPROM(offset, len, data) with [data] of [len] bytes, in a
    packet that fits the payload buffer, followed by READ_EEPROM(offset,
    len): the write reply is OK followed by [len], and the read reply is OK
    followed by exactly [data].  The offset is the 16-bit value at bytes 1
    and 2 of the request, any value. *)
Theorem eeprom_write_read_roundtrip (opcode lo hi : Z) (data : list Z)
  (wpkt rpkt : InPacket) (s : State) :
  (MAX_PACKET_PAYLOAD K < 256)%nat ->
  received wpkt = [opcode; lo; hi; Z.of_nat (length data)] ++ data ->
  (length (received wpkt) <= MAX_PACKET_PAYLOAD K)%nat ->
  Forall (fun b => 0 <= b < 256) data ->
  read16 1 rpkt = read16 1 wpkt ->
  read8 3 rpkt = Z.of_nat (length data) ->
  let r := handleWriteEeprom K X wpkt [] s in
  fst r = [u8 (RC K RC_OK); Z.of_nat (length data)]
  /\ handleReadEeprom K X rpkt [] (snd r) = u8 (RC K RC_OK) :: data.
Proof.
  intros Hmax Hw Hfit Hbytes Hoff Hlen r.
  rewrite Hw in Hfit. simpl in Hfit.
  assert (Hlenw : read8 3 wpkt = Z.of_nat (length data)).
  { unfold read8. rewrite Hw. reflexivity. }
  assert (Hdata : read_payload wpkt
                    (eeprom_read_block (eeprom (world s)) (read16 1 wpkt)
                       (length data)) = data).
  { rewrite read_payload_bytes.
    unfold eeprom_read_block. rewrite length_map, length_seq.
    rewrite <- (map_nth_seq data) at 2.
    apply map_ext_in. intros i Hi. apply in_seq in Hi.
    unfold read8, u8. rewrite Z.mod_small by lia.
    rewrite Hw. replace (Z.to_nat (Z.of_nat i + 4)) with (4 + i)%nat by lia.
    simpl. apply app_nth1. lia. }
  unfold r, handleWriteEeprom, handleReadEeprom. simpl.
  rewrite Hlenw, Hlen, Hoff, Nat2Z.id, Hdata.
  rewrite eeprom_write_read by lia.
  rewrite (append8_fits _ []) by (simpl; lia). simpl.
  rewrite append8_fits by (simpl; lia).
  rewrite append_all_fits by (simpl; lia).
  rewrite map_u8_bytes by assumption.
  rewrite (u8_small (Z.of_nat (length data))) by lia. split; reflexivity.
Qed.

(** ** The pause query *)

Lemma acquire_lock_more (n m : nat) (t : Timeout.t) (w : World (Ext X))
  (r : bool * World (Ext X)) :
  acquire_lock X n t w = Some r -> (n <= m)%nat ->
  acquire_lock X m t w = Some r.
Proof.
  revert m t w. induction n as [|n IH]; intros m t w; simpl; [discriminate|].
  intros Hrun Hle. destruct m as [|m]; [lia|]. simpl.
  destruct (getLock X w) as [got w1]. destruct got; [exact Hrun|].
  destruct (Timeout.hasElapsed (micros w1) t) as [el t'].
  destruct el; [exact Hrun|]. apply IH; [exact Hrun | lia].
Qed.

Lemma pump_transaction_more (n m : nat) (w w3 : World (Ext X)) :
  pump_transaction X n w = Some w3 -> (n <= m)%nat ->
  pump_transaction X m w = Some w3.
Proof.
  revert m w. induction n as [|n IH]; intros m w; simpl; [discriminate|].
  intros Hrun Hle. destruct m as [|m]; [lia|]. simpl.
  destruct (tool_isTransactionDone X w); [exact Hrun|].
  apply IH; [exact Hrun | lia].
Qed.

(** The world in which the answer of the tool is waited for: the request
    is in the tool's out-packet, the transaction started and the lock
    released. *)
Lemma run_transaction_result (k fuel : nat) (to_host : OutPacket) (h : Host)
  (w w3 : World (Ext X)) :
  let w1 := tool_call X CallStartTransaction (tool_startTransaction X w) in
  let w2 :=
    tool_call X CallReleaseLock (set_ext (tool_releaseLock X (ext w1)) w1) in
  pump_transaction X k w2 = Some w3 ->
  (k <= fuel)%nat ->
  run_transaction K X fuel to_host h w
  = Some (match getErrorCode (tool_in w3) with
          | PACKET_TIMEOUT => append8 K X (RC K RC_DOWNSTREAM_TIMEOUT) to_host
          | _ => append_all K X (packet_bytes (tool_in w3)) to_host
          end, mkSt h w3).
Proof.
  intros w1 w2 Hpump Hle. unfold run_transaction. fold w1. fold w2.
  rewrite (pump_transaction_more k fuel w2 w3 Hpump Hle). simpl.
  destruct (getErrorCode (tool_in w3)); reflexivity.
Qed.

(** What the relay of the pause gives once its two waits have ended: the
    wait for the lock after [n] polls, and, when the lock was obtained, the
    wait for the answer after [k] polls. *)
Lemma doToolPause_result (n fuel : nat) (to_host : OutPacket) (s : State)
  (got : bool) (w1 : World (Ext X)) :
  let lock_timeout :=
    Timeout.start (micros (world s)) HOST_TOOL_RESPONSE_TIMEOUT_MICROS
      Timeout.init in
  let request :=
    append8 K X (SLAVE_CMD_PAUSE_UNPAUSE K)
      (append8 K X (tool_getCurrentToolheadIndex X (ext w1)) []) in
  let w2 :=
    tool_call X CallStartTransaction
      (tool_startTransaction X (set_tool_out request w1)) in
  let w3 :=
    tool_call X CallReleaseLock (set_ext (tool_releaseLock X (ext w2)) w2) in
  acquire_lock X n lock_timeout (world s) = Some (got, w1) ->
  (n <= fuel)%nat ->
  (got = false ->
   doToolPause K X fuel to_host s
   = Some (append8 K X (RC K RC_DOWNSTREAM_TIMEOUT) to_host,
           indicateError X ERR_SLAVE_LOCK_TIMEOUT (mkSt (host s) w1)))
  /\ (got = true ->
      forall (k : nat) (w4 : World (Ext X)),
        pump_transaction X k w3 = Some w4 ->
        (k <= fuel)%nat ->
        doToolPause K X fuel to_host s
        = Some (match getErrorCode (tool_in w4) with
                | PACKET_TIMEOUT =>
                    append8 K X (RC K RC_DOWNSTREAM_TIMEOUT) to_host
                | _ => append_all K X (packet_bytes (tool_in w4)) to_host
                end, mkSt (host s) w4)).
Proof.
  intros lock_timeout request w2 w3 Hlock Hle.
  pose proof (acquire_lock_more n fuel _ _ _ Hlock Hle) as Hfuel.
  split.
  - intros ->. unfold doToolPause, getCurrentMicros.
    fold lock_timeout. rewrite Hfuel. reflexivity.
  - intros -> k w4 Hpump Hk. unfold doToolPause, getCurrentMicros.
    fold lock_timeout. rewrite Hfuel. simpl.
    apply (run_transaction_result k fuel to_host (host s)
             (set_tool_out request w1) w4 Hpump Hk).
Qed.

(** The wait for the lock ends.  If every poll takes between one
    microsecond and the 32-bit clock's period less the timeout, the clock
    cannot step over the timeout: the lock is obtained or the timeout is
    seen within as many polls as microseconds are left of it. *)
Lemma acquire_lock_ends (fuel : nat) (t0 : Z) (tm : Timeout.t)
  (w : World (Ext X)) :
  (forall w0 : World (Ext X),
     1 <= u32 (micros (interrupts X w0) - micros w0)
       <= 4294967296 - HOST_TOOL_RESPONSE_TIMEOUT_MICROS) ->
  (0 < fuel)%nat ->
  HOST_TOOL_RESPONSE_TIMEOUT_MICROS - u32 (micros w - u32 t0)
  < Z.of_nat fuel ->
  exists (got : bool) (w1 : World (Ext X)),
    acquire_lock X fuel
      (Timeout.start t0 HOST_TOOL_RESPONSE_TIMEOUT_MICROS tm) w
    = Some (got, w1).
Proof.
  intros Hclock. revert w.
  induction fuel as [|fuel IH]; intros w Hpos Hleft; [lia|].
  simpl. unfold getLock. destruct (tool_getLock X (ext w)) as [g x1].
  destruct g; [eexists _, _; reflexivity|].
  unfold Timeout.hasElapsed, Timeout.start. simpl.
  assert (HD : u32 HOST_TOOL_RESPONSE_TIMEOUT_MICROS
               = HOST_TOOL_RESPONSE_TIMEOUT_MICROS) by reflexivity.
  rewrite HD.
  destruct (Z.leb_spec HOST_TOOL_RESPONSE_TIMEOUT_MICROS
              (u32 (micros w - u32 t0))) as [_ | Hearly];
    [eexists _, _; reflexivity|].
  set (w0 := tool_call X CallGetLock (set_ext x1 w)).
  specialize (Hclock w0).
  change (micros w0) with (micros w) in Hclock.
  assert (Hstep : u32 (micros (interrupts X w0) - u32 t0)
                  = u32 (micros (interrupts X w0) - micros w)
                    + u32 (micros w - u32 t0)).
  { unfold u32 in *.
    replace (micros (interrupts X w0) - t0 mod 4294967296)
      with ((micros (interrupts X w0) - micros w)
            + (micros w - t0 mod 4294967296)) by lia.
    rewrite Zplus_mod. apply Z.mod_small.
    pose proof (Z.mod_pos_bound (micros w - t0 mod 4294967296) 4294967296).
    lia. }
  apply (IH (interrupts X w0)); [|rewrite Hstep]; lia.
Qed.

(** The wait for the answer ends when the tool driver makes progress:
    [left] bounds the slices a transaction still needs, and every slice of
    a transaction that is not done lowers it. *)
Lemma pump_transaction_ends (left : World (Ext X) -> nat) (fuel : nat)
  (w : World (Ext X)) :
  (forall w0 : World (Ext X),
     tool_isTransactionDone X w0 = false ->
     (left (interrupts X (tool_call X CallRunToolSlice
                            (tool_runToolSlice X w0))) < left w0)%nat) ->
  (left w < fuel)%nat ->
  exists w3 : World (Ext X), pump_transaction X fuel w = Some w3.
Proof.
  intros Hprogress. revert w.
  induction fuel as [|fuel IH]; intros w Hleft; [lia|].
  simpl. destruct (tool_isTransactionDone X w) eqn:Hdone;
    [eexists; reflexivity|].
  apply IH. specialize (Hprogress w Hdone). lia.
Qed.

(** C9, as amended.  While a pause or unpause is settling, a PAUSE query
    is answered with the single byte OK and changes nothing.  Otherwise
    the build is paused or resumed and the tool pause is relayed, and the
    bytes of the relay come first in the response.  When the wait for the
    tool lock ends without the lock, the response is downstream-timeout
    followed by OK.  When the lock is obtained and the wait for the answer
    ends, the response is downstream-timeout followed by OK if the tool's
    packet timed out, and else the tool's own reply followed by OK.  The
    handler returns so with every fuel that covers the polls the two waits
    took; and the two waits do end, so that the handler returns, when the
    clock moves with every poll and the tool driver makes progress. *)
Theorem handlePause_reply (from_host : InPacket) (s : State) :
  (2 <= MAX_PACKET_PAYLOAD K)%nat ->
  let s1 :=
    pauseBuild X (negb (command_isPaused X (ext (world s))))
      (Z.lor (PAUSE_EXT_OFF K) (PAUSE_HBP_OFF K)) s in
  let lock_timeout :=
    Timeout.start (micros (world s1)) HOST_TOOL_RESPONSE_TIMEOUT_MICROS
      Timeout.init in
  let waiting (w1 : World (Ext X)) :=
    let request :=
      append8 K X (SLAVE_CMD_PAUSE_UNPAUSE K)
        (append8 K X (tool_getCurrentToolheadIndex X (ext w1)) []) in
    let w2 :=
      tool_call X CallStartTransaction
        (tool_startTransaction X (set_tool_out request w1)) in
    tool_call X CallReleaseLock (set_ext (tool_releaseLock X (ext w2)) w2) in
  (command_pauseIntermediateState X (ext (world s)) = true ->
   forall fuel : nat,
     handlePause K X fuel from_host [] s = Some ([u8 (RC K RC_OK)], s))
  /\ (command_pauseIntermediateState X (ext (world s)) = false ->
      forall (n : nat) (got : bool) (w1 : World (Ext X)),
        acquire_lock X n lock_timeout (world s1) = Some (got, w1) ->
        (got = false ->
         forall fuel : nat,
           (n <= fuel)%nat ->
           handlePause K X fuel from_host [] s
           = Some ([u8 (RC K RC_DOWNSTREAM_TIMEOUT); u8 (RC K RC_OK)],
                   indicateError X ERR_SLAVE_LOCK_TIMEOUT
                     (mkSt (host s1) w1)))
        /\ (got = true ->
            forall (k : nat) (w4 : World (Ext X)),
              pump_transaction X k (waiting w1) = Some w4 ->
              forall fuel : nat,
                (n <= fuel)%nat -> (k <= fuel)%nat ->
                handlePause K X fuel from_host [] s
                = Some (match getErrorCode (tool_in w4) with
                        | PACKET_TIMEOUT =>
                            [u8 (RC K RC_DOWNSTREAM_TIMEOUT); u8 (RC K RC_OK)]
                        | _ =>
                            append8 K X (RC K RC_OK)
                              (append_all K X (packet_bytes (tool_in w4)) [])
                        end, mkSt (host s1) w4)))
  /\ (forall left : World (Ext X) -> nat,
        (forall w0 : World (Ext X),
           1 <= u32 (micros (interrupts X w0) - micros w0)
             <= 4294967296 - HOST_TOOL_RESPONSE_TIMEOUT_MICROS) ->
        (forall w0 : World (Ext X),
           tool_isTransactionDone X w0 = false ->
           (left (interrupts X (tool_call X CallRunToolSlice
                                  (tool_runToolSlice X w0))) < left w0)%nat) ->
        exists fuel0 : nat,
          forall fuel : nat,
            (fuel0 <= fuel)%nat ->
            exists r : OutPacket * State,
              handlePause K X fuel from_host [] s = Some r).
Proof.
  intros Hcap s1 lock_timeout waiting.
  assert (Hsettling :
            command_pauseIntermediateState X (ext (world s)) = true ->
            forall fuel : nat,
              handlePause K X fuel from_host [] s
              = Some ([u8 (RC K RC_OK)], s)).
  { intros Hmid fuel. unfold handlePause. rewrite Hmid. simpl.
    rewrite (append8_fits _ []) by (simpl; lia). reflexivity. }
  assert (Hrelay :
            command_pauseIntermediateState X (ext (world s)) = false ->
            forall (fuel : nat) (r : OutPacket * State),
              doToolPause K X fuel [] s1 = Some r ->
              handlePause K X fuel from_host [] s
              = Some (append8 K X (RC K RC_OK) (fst r), snd r)).
  { intros Hmid fuel [to1 s2] Hr. unfold handlePause. rewrite Hmid. simpl.
    fold s1. rewrite Hr. reflexivity. }
  split; [exact Hsettling|]. split.
  - intros Hmid n got w1 Hlock. split.
    + intros Hgot fuel Hn.
      rewrite (Hrelay Hmid fuel _
                 (proj1 (doToolPause_result n fuel [] s1 got w1 Hlock Hn)
                    Hgot)).
      simpl. rewrite (append8_fits _ []) by (simpl; lia).
      rewrite append8_fits by (simpl; lia). reflexivity.
    + intros Hgot k w4 Hpump fuel Hn Hk.
      rewrite (Hrelay Hmid fuel _
                 (proj2 (doToolPause_result n fuel [] s1 got w1 Hlock Hn)
                    Hgot k w4 Hpump Hk)).
      simpl. destruct (getErrorCode (tool_in w4)); try reflexivity.
      rewrite (append8_fits _ []) by (simpl; lia).
      rewrite append8_fits by (simpl; lia). reflexivity.
  - intros left Hclock Hprogress.
    destruct (command_pauseIntermediateState X (ext (world s))) eqn:Hmid.
    + exists 0%nat. intros fuel _. eexists. apply (Hsettling eq_refl).
    + set (n := Z.to_nat (HOST_TOOL_RESPONSE_TIMEOUT_MICROS + 1)).
      destruct (acquire_lock_ends n (micros (world s1)) Timeout.init
                  (world s1) Hclock) as (got & w1 & Hlock).
      { unfold n. change HOST_TOOL_RESPONSE_TIMEOUT_MICROS with 50000. lia. }
      { unfold u32. rewrite Zminus_mod_idemp_r, Z.sub_diag.
        unfold n. change HOST_TOOL_RESPONSE_TIMEOUT_MICROS with 50000.
        rewrite Z.mod_0_l by lia. lia. }
      destruct got.
      * destruct (pump_transaction_ends left (S (left (waiting w1)))
                    (waiting w1) Hprogress) as [w4 Hpump]; [lia|].
        exists (Nat.max n (S (left (waiting w1)))). intros fuel Hfuel.
        eexists.
        apply (Hrelay eq_refl fuel _
                 (proj2 (doToolPause_result n fuel [] s1 true w1 Hlock
                           ltac:(lia)) eq_refl _ w4 Hpump ltac:(lia))).
      * exists n. intros fuel Hfuel. eexists.
        apply (Hrelay eq_refl fuel _
                 (proj1 (doToolPause_result n fuel [] s1 false w1 Hlock
                           Hfuel) eq_refl)).
Qed.

(** ** The deferred reset and the cancel notification *)

Lemma u32_sub_self (now : Z) : u32 (now - u32 now) = 0.
Proof. unfold u32. rewrite Zminus_mod_idemp_r, Z.sub_diag. reflexivity. Qed.

Lemma hasElapsed_start (t0 now d : Z) (t : Timeout.t) :
  fst (Timeout.hasElapsed now (Timeout.start t0 d t))
  = (u32 d <=? u32 (now - u32 t0)).
Proof.
  unfold Timeout.hasElapsed, Timeout.start. simpl.
  destruct (u32 d <=? u32 (now - u32 t0)); reflexivity.
Qed.

Lemma finishCancel_keeps_waiting (s : State) :
  do_host_reset (host s) = true ->
  cancelBuild (host s) = true ->
  fst (Timeout.hasElapsed (micros (world s)) (cancel_timeout (host s)))
  = false ->
  do_host_reset (host (finishCancel K X s)) = true
  /\ cancelBuild (host (finishCancel K X s)) = true
  /\ fst (Timeout.hasElapsed (micros (world (finishCancel K X s)))
            (cancel_timeout (host (finishCancel K X s)))) = false.
Proof.
  intros Hreset Hcancel Hwait. unfold finishCancel.
  destruct (buildState (host s)); auto.
  destruct (command_pauseState X _ =? PAUSE_STATE_PAUSED K); auto.
  rewrite stopBuildNow_world. unfold stopBuildNow.
  destruct (currentState (host s)); simpl; auto.
  repeat split.
  rewrite hasElapsed_start, u32_sub_self. reflexivity.
Qed.

Lemma replyInFlight_keeps (s : State) :
  do_host_reset (host (snd (replyInFlight X s))) = do_host_reset (host s)
  /\ cancelBuild (host (snd (replyInFlight X s))) = cancelBuild (host s)
  /\ cancel_timeout (host (snd (replyInFlight X s))) = cancel_timeout (host s)
  /\ world (snd (replyInFlight X s)) = world s.
Proof.
  unfold replyInFlight.
  destruct (uart_sending (world s)); [|auto].
  destruct (do_host_reset (host s)) eqn:Hr; simpl; [|auto].
  destruct (Timeout.hasElapsed _ _) as [el t]. simpl. auto.
Qed.

Lemma resetDue_true (s : State) :
  fst (resetDue X s) = true ->
  do_host_reset (host s) = true
  /\ (cancelBuild (host s) = false
      \/ fst (Timeout.hasElapsed (micros (world s)) (cancel_timeout (host s)))
         = true).
Proof.
  unfold resetDue.
  destruct (do_host_reset (host s)); [|discriminate].
  destruct (cancelBuild (host s)); simpl; [|auto].
  unfold getCurrentMicros.
  destruct (Timeout.hasElapsed _ _) as [el t]. simpl. auto.
Qed.

Lemma runHostSlice_log (fuel : nat) (m m' : Machine (Ext X)) :
  runHostSlice K X fuel m = Some m' ->
  let s2 := snd (replyInFlight X (finishCancel K X (st m))) in
  (reset_log m' = reset_log m
   /\ (fst (replyInFlight X (finishCancel K X (st m))) = true
       \/ fst (resetDue X s2) = false))
  \/ (fst (resetDue X s2) = true
      /\ exists hard : bool, reset_log m' = reset_log m ++ [hard]).
Proof.
  unfold runHostSlice.
  destruct (replyInFlight X (finishCancel K X (st m))) as [hold s2]. simpl.
  destruct hold.
  { intros [= <-]. left. auto. }
  destruct (resetDue X s2) as [due s3]. simpl.
  destruct due.
  { intros [= <-]. right. split; [reflexivity|]. eexists. reflexivity. }
  match goal with
  | |- context [mbind _ ?c] => destruct c as [s5|]; simpl; [|discriminate]
  end.
  intros [= <-]. left. auto.
Qed.

(** C6.  A tick that finds a deferred reset pending together with a
    pending cancel notification whose grace timeout has not elapsed does
    not call reset.  A tick calls reset only when, at its reset gate, the
    reset is pending and either no cancel notification is pending
    (cancelBuild clear) or the cancel grace timeout has elapsed.  The grace
    timeout is the one stopBuildNow arms, for 1000000 microseconds, in the
    step that sets cancelBuild. *)
Theorem reset_waits_for_cancel (fuel : nat) (m m' : Machine (Ext X)) :
  runHostSlice K X fuel m = Some m' ->
  let s1 := finishCancel K X (st m) in
  (do_host_reset (host (st m)) = true ->
   cancelBuild (host (st m)) = true ->
   fst (Timeout.hasElapsed (micros (world (st m)))
          (cancel_timeout (host (st m)))) = false ->
   reset_log m' = reset_log m)
  /\ (reset_log m' <> reset_log m ->
      do_host_reset (host s1) = true
      /\ (cancelBuild (host s1) = false
          \/ fst (Timeout.hasElapsed (micros (world s1))
                    (cancel_timeout (host s1))) = true))
  /\ (forall s : State,
        currentState (host s) = HOST_STATE_BUILDING ->
        cancelBuild (host (stopBuildNow X s)) = true
        /\ cancel_timeout (host (stopBuildNow X s))
           = Timeout.start (micros (world s)) 1000000
               (cancel_timeout (host s))
        /\ forall now : Z,
             fst (Timeout.hasElapsed now
                    (cancel_timeout (host (stopBuildNow X s))))
             = (1000000 <=? u32 (now - u32 (micros (world s))))).
Proof.
  intros Hrun s1.
  pose proof (runHostSlice_log _ _ _ Hrun) as Hlog. simpl in Hlog.
  destruct (replyInFlight_keeps s1) as (Hr & Hc & Ht & Hw).
  fold s1 in Hlog.
  split; [|split].
  - intros Hreset Hcancel Hwait.
    destruct Hlog as [[Hsame _] | [Hdue _]]; [exact Hsame|].
    apply resetDue_true in Hdue. rewrite Hr, Hc, Ht, Hw in Hdue.
    destruct (finishCancel_keeps_waiting _ Hreset Hcancel Hwait)
      as (Hr1 & Hc1 & Hw1).
    fold s1 in Hr1, Hc1, Hw1.
    destruct Hdue as [_ [Hd | Hd]]; congruence.
  - intros Hchanged.
    destruct Hlog as [[Hsame _] | [Hdue _]]; [contradiction|].
    apply resetDue_true in Hdue. rewrite Hr, Hc, Ht, Hw in Hdue. exact Hdue.
  - intros s Hbuilding. unfold stopBuildNow. rewrite Hbuilding. simpl.
    repeat split. intros now. rewrite hasElapsed_start. reflexivity.
Qed.

(** When nothing holds the reset back, the tick performs it, for every
    amount of fuel: reset is called once and the pending flag is cleared. *)
Lemma runHostSlice_reset_fires (fuel : nat) (m : Machine (Ext X)) :
  let s1 := finishCancel K X (st m) in
  uart_sending (world s1) = false ->
  do_host_reset (host s1) = true ->
  cancelBuild (host s1) = false ->
  exists m',
    runHostSlice K X fuel m = Some m'
    /\ reset_log m' = reset_log m ++ [hard_reset (host s1)]
    /\ do_host_reset (host (st m')) = false
    /\ currentState (host (st m')) = HOST_STATE_READY.
Proof.
  intros s1 Hidle Hreset Hcancel. unfold runHostSlice. fold s1.
  unfold replyInFlight. rewrite Hidle.
  unfold resetDue. rewrite Hreset, Hcancel. simpl.
  eexists. split; [reflexivity|].
  unfold doHostReset. simpl.
  assert (Hhard : forall s : State, hard_reset (host (stopBuild X s))
                                    = hard_reset (host s)).
  { intros s. unfold stopBuild.
    destruct (command_isPaused X _ || command_pauseIntermediateState X _);
      [|reflexivity].
    unfold stopBuildNow. simpl.
    destruct (currentState (host s)); reflexivity. }
  repeat split.
  destruct (buildState (host s1)); try reflexivity; rewrite Hhard; reflexivity.
Qed.

End Properties.

(** * The properties at the concrete board *)

(** A tick answers a VERSION query of a host at version 39. *)
Example tick_answers_version :
  option_map observe
    (runHostSlice sample_K sample_X 0
       (sample_machine (request [0; 39; 0]) sample_host sample_ext))
  = Some ([129; 151; 1], HOST_STATE_READY, false, false, []).
Proof. vm_compute. reflexivity. Qed.

(** With a reset and a cancel notification pending, the next finished
    packet is answered with the cancel notification and no reset happens in
    that tick; the tick after the reply has gone out performs the reset. *)
Example tick_notifies_then_resets :
  let m0 := mkMachine
              (with_world (set_uart_in (request [0; 39; 0])) (st sample_waiting))
              [] in
  option_map observe (runHostSlice sample_K sample_X 0 m0)
  = Some ([137], HOST_STATE_CANCEL_BUILD, true, false, [])
  /\ option_map observe
       (m1 ← runHostSlice sample_K sample_X 0 m0;
        runHostSlice sample_K sample_X 0 (sample_later 1000 m1))
     = Some ([137], HOST_STATE_READY, false, false, [false]).
Proof. vm_compute. split; reflexivity. Qed.

(** With no traffic from the host, the reset is held while the grace
    timeout runs and performed once the second is over. *)
Example tick_resets_after_grace :
  option_map observe
    (runHostSlice sample_K sample_X 0 (sample_later 999999 sample_waiting))
  = Some ([], HOST_STATE_CANCEL_BUILD, true, true, [])
  /\ option_map observe
       (runHostSlice sample_K sample_X 0 (sample_later 1000000 sample_waiting))
     = Some ([], HOST_STATE_READY, false, true, [false]).
Proof. vm_compute. split; reflexivity. Qed.

(** A RESET during a build streamed from the host, under the estop-clear
    policy: the build is cancelling and a pause is requested; once the
    pause has completed, a tick finalises the cancel. *)
Example reset_during_build_scenario :
  let m0 := mkMachine
              (with_world (set_uart_in (request [17])) sample_building_state)
              [] in
  option_map
    (fun m => (observe m, buildState (host (st m)),
               pause_state (ext (world (st m)))))
    (runHostSlice sample_K sample_X 0 m0)
  = Some (([129], HOST_STATE_BUILDING, false, false, []), BUILD_CANCELLING, 1)
  /\ option_map
       (fun m => (observe m, buildState (host (st m))))
       (m1 ← runHostSlice sample_K sample_X 0 m0;
        runHostSlice sample_K sample_X 0
          (sample_later 1000
             (mkMachine
                (with_ext (fun x => mkSampleExt 2 (capturing x) (playing x)
                                      (lock_held x) (transaction_active x)
                                      (tool_answers x)) (st m1))
                (reset_log m1))))
     = Some (([129], HOST_STATE_CANCEL_BUILD, true, true, []), BUILD_CANCELED).
Proof. vm_compute. split; reflexivity. Qed.

Lemma processCommandPacket_all_or_nothing_witness :
  processCommandPacket sample_K sample_X (request [129; 1; 2]) [] sample_state
  = (true, [129],
     with_world (set_command_buffer (sample_queue [129; 1; 2])) sample_state)
  /\ processCommandPacket sample_K sample_X (request [129; 1; 2]) []
       sample_busy_state
     = (true, [130], sample_busy_state).
Proof.
  split.
  - apply (proj1 (processCommandPacket_all_or_nothing sample_K sample_X
                    (request [129; 1; 2]) [] sample_state
                    ltac:(unfold getLength; simpl; lia)
                    ltac:(vm_compute; discriminate) eq_refl eq_refl)).
    vm_compute. discriminate.
  - apply (proj2 (processCommandPacket_all_or_nothing sample_K sample_X
                    (request [129; 1; 2]) [] sample_busy_state
                    ltac:(unfold getLength; simpl; lia)
                    ltac:(vm_compute; discriminate) eq_refl eq_refl)).
    vm_compute. reflexivity.
Defined.

(** C2 as the spec states it fails.  With the estop-clear flag stored as 1
    and the command queue paused, a RESET during a build arms the deferred
    reset within the same call.  With nothing stored (the erased cell reads
    as the default 0) the build is abandoned without a cancel sequence:
    the reset is armed, the build state stays RUNNING and the command
    module is not touched. *)
Lemma reset_during_build_arms_reset :
  let paused :=
    with_ext (fun _ => mkSampleExt 2 false false false false true)
      sample_building_state in
  let erased := with_world (set_eeprom ∅) sample_building_state in
  (currentState (host paused) = HOST_STATE_BUILDING
   /\ getEeprom8 sample_X (eeprom (world paused)) (CLEAR_FOR_ESTOP sample_K) 0
      = 1
   /\ do_host_reset (host paused) = false
   /\ exists s',
        processQueryPacket sample_K sample_X 0 (request [17]) [] paused
        = Some (true, [129], s')
        /\ do_host_reset (host s') = true)
  /\ (currentState (host erased) = HOST_STATE_BUILDING
      /\ eeprom (world erased) = ∅
      /\ exists s',
           processQueryPacket sample_K sample_X 0 (request [17]) [] erased
           = Some (true, [129], s')
           /\ do_host_reset (host s') = true
           /\ buildState (host s') = BUILD_RUNNING
           /\ ext (world s') = ext (world erased)).
Proof.
  intros paused erased. split.
  - split; [reflexivity|]. split; [vm_compute; reflexivity|].
    split; [reflexivity|].
    eexists. split; [vm_compute; reflexivity|]. reflexivity.
  - split; [reflexivity|]. split; [reflexivity|].
    eexists. split; [vm_compute; reflexivity|].
    split; [reflexivity|]. split; reflexivity.
Qed.

Lemma reset_during_build_diverted_witness :
  exists s',
    processQueryPacket sample_K sample_X 0 (request [17]) []
      sample_building_state
    = Some (true, [129], s')
    /\ indicated (world s') = [ERR_RESET_DURING_BUILD]
    /\ buildState (host s') = BUILD_CANCELLING
    /\ do_host_reset (host s') = false.
Proof.
  destruct (reset_during_build_diverted sample_K sample_X 0 (request [17])
              [] sample_building_state HOST_CMD_RESET
              ltac:(unfold getLength; simpl; lia) eq_refl eq_refl
              (or_introl eq_refl) (or_introl eq_refl))
    as (s' & Hrun & Hind & Hflag & _).
  destruct (Hflag ltac:(vm_compute; reflexivity)) as (_ & Hrunning & _).
  destruct (Hrunning eq_refl eq_refl) as (Hreset & Hbuild & _).
  exists s'. split; [exact Hrun|]. split; [exact Hind|].
  split; [exact Hbuild | exact Hreset].
Defined.

(** C3 as the spec states it fails: with firmware version 407, a VERSION
    query with host version 29 is not answered OK, 0x0000. *)
Lemma version_29_not_zero :
  read16 1 (request [0; 29; 0]) = 29
  /\ handleVersion sample_K sample_X (request [0; 29; 0]) []
     <> [RC sample_K RC_OK; 0; 0].
Proof. split; [reflexivity|]. vm_compute. discriminate. Qed.

Lemma handleVersion_scenarios_witness :
  handleVersion sample_K sample_X (request [0; 29; 0]) [] = [129; 151; 1]
  /\ handleVersion sample_K sample_X (request [0; 38; 0]) [] = [129; 0; 0]
  /\ handleVersion sample_K sample_X (request [0; 39; 0]) [] = [129; 151; 1].
Proof.
  split; [|split].
  - apply (proj1 (handleVersion_scenarios sample_K sample_X
                    (request [0; 29; 0]) ltac:(simpl; lia))).
    reflexivity.
  - apply (proj1 (proj2 (handleVersion_scenarios sample_K sample_X
                           (request [0; 38; 0]) ltac:(simpl; lia)))).
    reflexivity.
  - apply (proj2 (proj2 (handleVersion_scenarios sample_K sample_X
                           (request [0; 39; 0]) ltac:(simpl; lia)))).
    reflexivity.
Defined.

Lemma handleVersion_minimum_version_witness :
  handleVersion sample_K sample_X (request [0; 38; 0]) [] = [129; 0; 0]
  /\ handleVersion sample_K sample_X (request [0; 29; 0]) [] = [129; 151; 1].
Proof.
  split.
  - apply (proj1 (handleVersion_minimum_version sample_K sample_X
                    (request [0; 38; 0]) 38 ltac:(simpl; lia) eq_refl)); lia.
  - apply (proj2 (handleVersion_minimum_version sample_K sample_X
                    (request [0; 29; 0]) 29 ltac:(simpl; lia) eq_refl)).
    left. reflexivity.
Defined.

Lemma handleToolQuery_truncated_witness :
  exists s',
    handleToolQuery sample_K sample_X 0 (request [10]) [] sample_state
      = Some ([128], s')
    /\ indicated (world s') = [ERR_HOST_TRUNCATED_CMD]
    /\ tool_calls (world s') = []
    /\ tool_out (world s') = tool_out (world sample_state)
    /\ tool_in (world s') = tool_in (world sample_state)
    /\ ext (world s') = sample_ext
    /\ host s' = sample_host.
Proof.
  apply (handleToolQuery_truncated sample_K sample_X 0 (request [10])
           sample_state ltac:(simpl; lia)
           ltac:(unfold getLength; simpl; lia)).
Defined.

Lemma reset_waits_for_cancel_witness :
  match runHostSlice sample_K sample_X 0 sample_waiting with
  | Some m' => reset_log m' = reset_log sample_waiting
  | None => False
  end.
Proof.
  destruct (runHostSlice sample_K sample_X 0 sample_waiting) as [m'|] eqn:E.
  - exact (proj1 (reset_waits_for_cancel sample_K sample_X 0 sample_waiting
                    m' E) eq_refl eq_refl eq_refl).
  - vm_compute in E. discriminate E.
Defined.

(** At the concrete board a pause request always leaves the pause either
    settling or reached, so there pauseBuild(true, h) is idempotent without
    any condition. *)
Lemma pauseBuild_twice_sample (heaterControl : Z) (s : St (Ext sample_X)) :
  pauseBuild sample_X true heaterControl
    (pauseBuild sample_X true heaterControl s)
  = pauseBuild sample_X true heaterControl s.
Proof.
  destruct (command_isPaused sample_X (ext (world s))) eqn:Hp.
  - rewrite !(pauseBuild_same_state sample_X true heaterControl s Hp).
    reflexivity.
  - destruct (command_pauseIntermediateState sample_X (ext (world s))) eqn:Hm.
    + rewrite !(pauseBuild_settling sample_X true heaterControl s Hm).
      reflexivity.
    + apply pauseBuild_settling. unfold pauseBuild.
      rewrite Hp, Hm. reflexivity.
Qed.

Lemma pauseBuild_idempotent_witness :
  pauseBuild sample_X true 3 (pauseBuild sample_X true 3 sample_state)
  = pauseBuild sample_X true 3 sample_state.
Proof.
  exact (proj1 (pauseBuild_idempotent sample_X 3 sample_state
                  (or_introl eq_refl))).
Defined.

Lemma eeprom_write_read_roundtrip_witness :
  fst (handleWriteEeprom sample_K sample_X (request [13; 16; 0; 3; 7; 8; 9])
         [] sample_state) = [129; 3]
  /\ handleReadEeprom sample_K sample_X (request [12; 16; 0; 3]) []
       (snd (handleWriteEeprom sample_K sample_X
               (request [13; 16; 0; 3; 7; 8; 9]) [] sample_state))
     = [129; 7; 8; 9].
Proof.
  apply (eeprom_write_read_roundtrip sample_K sample_X 13 16 0 [7; 8; 9]
           (request [13; 16; 0; 3; 7; 8; 9]) (request [12; 16; 0; 3])
           sample_state ltac:(simpl; lia) eq_refl ltac:(simpl; lia)
           ltac:(repeat constructor; lia) eq_refl eq_refl).
Defined.

(** C9 as the spec states it fails: when the tool does not answer, the
    response to PAUSE starts with downstream-timeout, not with OK. *)
Lemma handlePause_first_byte_not_ok :
  exists s',
    handlePause sample_K sample_X 3 (request [8]) [] sample_silent_state
    = Some ([135; 129], s')
    /\ nth 0 [135; 129] 0 <> RC sample_K RC_OK.
Proof.
  eexists. split; [vm_compute; reflexivity|]. vm_compute. discriminate.
Qed.

(** The relay at the sample board: the lock is granted at the first poll
    and the answer (or the timeout of the tool's packet) is there at the
    second. *)
Ltac relay_at_sample H :=
  cbv zeta in H;
  match type of H with
  | forall n got w1, acquire_lock ?X0 n ?t ?w = _ -> _ =>
      let r := eval vm_compute in (acquire_lock X0 1 t w) in
      match r with
      | Some (?g, ?w1) =>
          specialize (H 1%nat g w1 ltac:(vm_compute; reflexivity))
      end
  end;
  destruct H as [_ H]; specialize (H eq_refl);
  match type of H with
  | forall k w4, pump_transaction ?X0 k ?w = _ -> _ =>
      let r := eval vm_compute in (pump_transaction X0 2 w) in
      match r with
      | Some ?w4 =>
          specialize (H 2%nat w4 ltac:(vm_compute; reflexivity) 2%nat
                        ltac:(lia) ltac:(lia))
      end
  end.

(** At the sample board every poll moves the clock by a millisecond and a
    transaction is done after one slice. *)
Lemma sample_clock_moves (w0 : World (Ext sample_X)) :
  1 <= u32 (micros (interrupts sample_X w0) - micros w0)
    <= 4294967296 - HOST_TOOL_RESPONSE_TIMEOUT_MICROS.
Proof.
  change (micros (interrupts sample_X w0)) with (u32 (micros w0 + 1000)).
  unfold u32. rewrite Zminus_mod_idemp_l.
  replace (micros w0 + 1000 - micros w0) with 1000 by lia.
  change HOST_TOOL_RESPONSE_TIMEOUT_MICROS with 50000.
  rewrite Z.mod_small by lia. lia.
Qed.

Lemma sample_transaction_progress (w0 : World (Ext sample_X)) :
  let left (w : World (Ext sample_X)) :=
    if transaction_active (ext w) then 1%nat else 0%nat in
  tool_isTransactionDone sample_X w0 = false ->
  (left (interrupts sample_X
           (tool_call sample_X CallRunToolSlice
              (tool_runToolSlice sample_X w0))) < left w0)%nat.
Proof.
  intros left. unfold left.
  destruct w0 as [i o sd cb ln ctp cp ee mi se ind to ti tc x].
  destruct x as [ps cap pl lk act ans].
  destruct act; simpl; [lia | discriminate].
Qed.

Lemma handlePause_reply_witness :
  handlePause sample_K sample_X 0 (request [8]) [] sample_settling_state
  = Some ([129], sample_settling_state)
  /\ (exists s',
        handlePause sample_K sample_X 2 (request [8]) [] sample_silent_state
        = Some ([135; 129], s'))
  /\ (exists s',
        handlePause sample_K sample_X 2 (request [8]) [] sample_state
        = Some ([129; 129], s'))
  /\ (exists fuel0 : nat,
        forall fuel : nat,
          (fuel0 <= fuel)%nat ->
          exists r,
            handlePause sample_K sample_X fuel (request [8]) [] sample_state
            = Some r).
Proof.
  split; [|split; [|split]].
  - exact (proj1 (handlePause_reply sample_K sample_X (request [8])
                    sample_settling_state ltac:(simpl; lia)) eq_refl 0%nat).
  - pose proof (proj1 (proj2 (handlePause_reply sample_K sample_X
                                (request [8]) sample_silent_state
                                ltac:(simpl; lia))) eq_refl) as H.
    relay_at_sample H. eexists. exact H.
  - pose proof (proj1 (proj2 (handlePause_reply sample_K sample_X
                                (request [8]) sample_state
                                ltac:(simpl; lia))) eq_refl) as H.
    relay_at_sample H. eexists. exact H.
  - exact (proj2 (proj2 (handlePause_reply sample_K sample_X (request [8])
                           sample_state ltac:(simpl; lia)))
             _ sample_clock_moves sample_transaction_progress).
Defined.

(** C10 as the spec states it fails.  From READY and from BUILDING the same
    name is consumed in the same way, and yet the handler does not treat
    the two states alike: it changes the host state READY to BUILDING and
    leaves the host state BUILDING as it is. *)
Lemma handleBuildStartNotification_state_varies :
  let buf := sample_queue [104; 105; 0; 7] in
  let building :=
    with_host (set_currentState HOST_STATE_BUILDING) sample_state in
  let from_ready := handleBuildStartNotification sample_K sample_X buf
                      sample_state in
  let from_building := handleBuildStartNotification sample_K sample_X buf
                         building in
  fst from_ready = fst from_building
  /\ buildName (host (snd from_ready)) = buildName (host (snd from_building))
  /\ currentState (host sample_state) = HOST_STATE_READY
  /\ currentState (host (snd from_ready)) = HOST_STATE_BUILDING
  /\ currentState (host (snd from_building)) = currentState (host building).
Proof. vm_compute. repeat split; reflexivity. Qed.


(** * More properties of Host.cc *)

Section MoreProperties.

Context (K : Constants) (X : Collaborators).

Local Abbreviation State := (St (Ext X)).

(** ** Action commands that are not queued *)

(** X1.  While the SD card captures or plays, an action packet is never
    queued: the packet is taken (the dispatch ends there), the command
    queue and the globals of Host.cc stay as they are.  Capture comes
    first: the packet goes to the capture and the reply is OK; during
    playback without capture the reply is bot-building and nothing at all
    changes. *)
Theorem processCommandPacket_not_queued (from_host : InPacket)
  (to_host : OutPacket) (s : State) :
  1 <= getLength from_host ->
  Z.land (read8 0 from_host) 128 <> 0 ->
  sd_isCapturing X (ext (world s)) = true
  \/ sd_isPlaying X (ext (world s)) = true ->
  let r := processCommandPacket K X from_host to_host s in
  fst (fst r) = true
  /\ snd (fst r)
     = append8 K X
         (RC K (if sd_isCapturing X (ext (world s))
                then RC_OK else RC_BOT_BUILDING)) to_host
  /\ command_buffer (world (snd r)) = command_buffer (world s)
  /\ host (snd r) = host s
  /\ ext (world (snd r))
     = (if sd_isCapturing X (ext (world s))
        then sd_capturePacket X from_host (ext (world s))
        else ext (world s)).
Proof.
  intros Hlen Hbit Hbusy. unfold processCommandPacket.
  destruct (Z.leb_spec 1 (getLength from_host)); [|lia].
  destruct (Z.eqb_spec (Z.land (read8 0 from_host) 128) 0); [contradiction|].
  simpl. destruct (sd_isCapturing X (ext (world s))) eqn:Hcap.
  - repeat split.
  - destruct Hbusy as [Hc | Hp]; [discriminate|]. rewrite Hp. repeat split.
Qed.

(** ** Packets that no handler takes *)

(** X2.  With debug packets compiled out, an empty packet and a query
    whose opcode is not in the table are answered with the single code
    unsupported-command, and nothing changes, for every amount of fuel. *)
Theorem dispatch_unsupported (fuel : nat) (from_host : InPacket) (s : State) :
  HONOR_DEBUG_PACKETS K = false ->
  getLength from_host = 0
  \/ (Z.land (read8 0 from_host) 128 = 0
      /\ host_cmd K (read8 0 from_host) = None) ->
  dispatch K X fuel from_host s
  = Some (append8 K X (RC K RC_CMD_UNSUPPORTED) [], s).
Proof.
  intros Hdebug Hcase. unfold dispatch. rewrite Hdebug.
  unfold processCommandPacket, processQueryPacket.
  destruct Hcase as [Hempty | [Hbit Hcmd]].
  - rewrite Hempty. simpl. destruct s; reflexivity.
  - rewrite Hbit, Hcmd. simpl.
    destruct (1 <=? getLength from_host); simpl; destruct s; reflexivity.
Qed.

(** ** Host versions with the sign bit *)

(** X3.  The host version is compared as an int16_t: a VERSION query whose
    16-bit version field is 32768 or more counts as a negative version and
    is answered with version 0. *)
Theorem handleVersion_sign_bit (from_host : InPacket) :
  (3 <= MAX_PACKET_PAYLOAD K)%nat ->
  32768 <= read16 1 from_host < 65536 ->
  handleVersion K X from_host [] = [u8 (RC K RC_OK); 0; 0].
Proof.
  intros Hcap Hv. unfold handleVersion.
  rewrite (append8_fits K X _ []) by (simpl; lia).
  rewrite !append16_fits by (simpl; lia). simpl.
  assert (Hrv : int16_t (read16 1 from_host) = read16 1 from_host - 65536).
  { unfold int16_t, u16. rewrite Z.mod_small by lia.
    destruct (Z.ltb_spec (read16 1 from_host) 32768); lia. }
  rewrite Hrv.
  destruct (Z.eqb_spec (read16 1 from_host - 65536) 29); [lia|].
  destruct (Z.ltb_spec (read16 1 from_host - 65536) 39); [reflexivity|lia].
Qed.

(** ** Extended stop *)

Lemma land_BV (a k : Z) :
  0 <= k -> (Z.land a (_BV k) =? 0) = negb (Z.testbit a k).
Proof.
  intros Hk. unfold _BV. rewrite Z.shiftl_1_l.
  destruct (Z.testbit a k) eqn:Hb; simpl.
  - apply Z.eqb_neq. intros H0.
    assert (Hbit : Z.testbit (Z.land a (2 ^ k)) k = true).
    { rewrite Z.land_spec, Hb, Z.pow2_bits_true by lia. reflexivity. }
    rewrite H0, Z.bits_0 in Hbit. discriminate.
  - apply Z.eqb_eq. apply Z.bits_inj'. intros n Hn.
    rewrite Z.land_spec, Z.bits_0.
    destruct (Z.eq_dec n k) as [-> | Hne].
    + rewrite Hb. reflexivity.
    + rewrite (Z.pow2_bits_false k n) by lia. apply andb_false_r.
Qed.

(** X4.  Extended stop looks at bits 0 and 1 of its flags byte and at
    nothing else: bit 0 alone aborts the steppers, bit 1 alone resets the
    command module, both do the abort and then the reset, neither leaves
    the machine as it is.  The reply is OK followed by 0 in every case. *)
Theorem handleExtendedStop_bits (from_host : InPacket) (to_host : OutPacket)
  (s : State) :
  let flags := read8 1 from_host in
  let r := handleExtendedStop K X from_host to_host s in
  fst r = append8 K X 0 (append8 K X (RC K RC_OK) to_host)
  /\ snd r
     = match Z.testbit flags 0, Z.testbit flags 1 with
       | false, false => s
       | true, false => with_ext (steppers_abort X) s
       | false, true => with_world (command_reset X) s
       | true, true =>
           with_world (command_reset X) (with_ext (steppers_abort X) s)
       end.
Proof.
  intros flags r. unfold r, handleExtendedStop. fold flags.
  unfold ES_STEPPERS, ES_COMMANDS.
  rewrite !land_BV by lia. rewrite !negb_involutive.
  destruct (Z.testbit flags 0), (Z.testbit flags 1); split; reflexivity.
Qed.

(** ** Writing the EEPROM *)

(** X5.  WRITE_EEPROM touches the [len] cells from [offset] on (addresses
    wrap at 16 bits) and nothing else: every other cell reads as before,
    and so do the globals of Host.cc, the command queue and the other
    collaborators.  With [len] 0 no cell changes. *)
Theorem handleWriteEeprom_frame (from_host : InPacket) (to_host : OutPacket)
  (s : State) (addr : Z) :
  let offset := read16 1 from_host in
  let len := read8 3 from_host in
  (forall i, 0 <= i < len -> u16 (offset + i) <> u16 addr) ->
  let s' := snd (handleWriteEeprom K X from_host to_host s) in
  eeprom_read_byte (eeprom (world s')) addr
  = eeprom_read_byte (eeprom (world s)) addr
  /\ host s' = host s
  /\ command_buffer (world s') = command_buffer (world s)
  /\ ext (world s') = ext (world s).
Proof.
  intros offset len Hout s'. unfold s', handleWriteEeprom. simpl.
  fold offset len. repeat split.
  apply eeprom_write_block_other. intros i Hi.
  rewrite read_payload_bytes in Hi.
  unfold eeprom_read_block in Hi.
  rewrite !length_map, !length_seq in Hi.
  apply Hout. lia.
Qed.

(** ** The end of a build *)

(** X6.  A build-stop notification ends the build only when no further
    copy is due.  While copies remain (copiesToPrint is not 0 and
    copiesPrinted is below copiesToPrint - 1) it changes nothing.
    Otherwise the build is FINISHED_NORMALLY, the host state READY, the
    last line and the hours of the print are recorded, the print timer is
    cleared and the heaters are paused; the command queue is not
    touched. *)
Theorem handleBuildStopNotification_copies (stopFlags : Z) (s : State) :
  let copies := copiesToPrint (world s) in
  let printed := copiesPrinted (world s) in
  let s' := handleBuildStopNotification K X stopFlags s in
  (copies <> 0 /\ printed < copies - 1 -> s' = s)
  /\ (copies = 0 \/ copies - 1 <= printed ->
      buildState (host s') = BUILD_FINISHED_NORMALLY
      /\ currentState (host s') = HOST_STATE_READY
      /\ last_print_line (host s') = line_number (world s)
      /\ last_print_hours (host s') = print_time_hours (host s)
      /\ print_time (host s') = Timeout.init
      /\ print_time_hours (host s') = 0
      /\ command_buffer (world s') = command_buffer (world s)
      /\ ext (world s')
         = command_pauseHeaters X
             (Z.lor (PAUSE_EXT_OFF K) (PAUSE_HBP_OFF K)) (ext (world s))).
Proof.
  intros copies printed s'. unfold s', handleBuildStopNotification.
  fold copies printed. split.
  - intros [Hne Hlt].
    destruct (Z.eqb_spec copies 0); [contradiction|].
    destruct (Z.leb_spec (copies - 1) printed); [lia|]. reflexivity.
  - intros Hdone.
    assert (Hcond : (copies =? 0) || (copies - 1 <=? printed) = true).
    { destruct Hdone as [-> | Hle]; [reflexivity|].
      apply orb_true_iff. right. apply Z.leb_le. exact Hle. }
    rewrite Hcond. repeat split.
Qed.

(** ** Finalising a cancel *)

(** X7.  stopBuildNow always arms the deferred reset, sets the build state
    to CANCELED, records the last line and clears the print timer, and
    leaves the host state other than BUILDING.  Only a build streamed from
    the host (host state BUILDING) gets a cancel notification; in every
    other state cancelBuild, the cancel grace timeout and the host state
    are left alone.  So a second stopBuildNow does not restart the grace
    timeout or re-raise the notification; it does overwrite the recorded
    hours of the print with 0. *)
Theorem stopBuildNow_once (s : State) :
  let s1 := stopBuildNow X s in
  let s2 := stopBuildNow X s1 in
  do_host_reset (host s1) = true
  /\ buildState (host s1) = BUILD_CANCELED
  /\ last_print_line (host s1) = line_number (world s)
  /\ print_time (host s1) = Timeout.init
  /\ currentState (host s1) <> HOST_STATE_BUILDING
  /\ match currentState (host s) with
     | HOST_STATE_BUILDING =>
         cancelBuild (host s1) = true
         /\ currentState (host s1) = HOST_STATE_CANCEL_BUILD
     | _ =>
         cancelBuild (host s1) = cancelBuild (host s)
         /\ cancel_timeout (host s1) = cancel_timeout (host s)
         /\ currentState (host s1) = currentState (host s)
     end
  /\ cancelBuild (host s2) = cancelBuild (host s1)
  /\ cancel_timeout (host s2) = cancel_timeout (host s1)
  /\ currentState (host s2) = currentState (host s1)
  /\ last_print_hours (host s2) = 0.
Proof.
  intros s1 s2. unfold s2, s1, stopBuildNow.
  destruct (currentState (host s)) eqn:Hst; simpl; rewrite ?Hst;
    repeat split; try discriminate; exact Hst.
Qed.

(** ** The name in a build-start notification *)

Lemma pop_until_nul_exact (name : list Z) (rest : list Z) (sz : nat)
  (o u : bool) (n : nat) :
  Forall (fun b => 0 < b < 256) name ->
  (length name < n)%nat ->
  pop_until_nul n (CircularBuffer.mk sz (name ++ 0 :: rest) o u)
  = CircularBuffer.mk sz rest o u.
Proof.
  intros Hname. revert n.
  induction Hname as [|b name Hb _ IH]; intros n Hn;
    (destruct n as [|n]; [simpl in Hn; lia|]); simpl.
  - reflexivity.
  - unfold u8. rewrite Z.mod_small by lia.
    destruct (Z.eqb_spec b 0); [lia|].
    apply IH. simpl in Hn. lia.
Qed.

Lemma pop_build_name_exact (name : list Z) (idx : nat) (old rest : list Z)
  (sz : nat) (o u : bool) (n : nat) :
  Forall (fun b => b <> 0) name ->
  (idx + length name < MAX_FILE_LEN K)%nat ->
  length old = MAX_FILE_LEN K ->
  (length name < n)%nat ->
  pop_build_name K n idx old (CircularBuffer.mk sz (name ++ 0 :: rest) o u)
  = (take idx old ++ name ++ 0 :: drop (idx + length name + 1) old,
     CircularBuffer.mk sz rest o u).
Proof.
  intros Hname. revert idx old n.
  induction Hname as [|b name Hb _ IH]; intros idx old n Hfit Hold Hn;
    (destruct n as [|n]; [simpl in Hn; lia|]); simpl in *.
  - rewrite Nat.add_0_r, Nat.add_1_r.
    rewrite <- insert_take_drop by lia. reflexivity.
  - destruct (Z.eqb_spec b 0); [contradiction|]. simpl.
    destruct (Nat.ltb_spec (idx + 1) (MAX_FILE_LEN K)); [|lia].
    rewrite IH by (rewrite ?length_insert; lia).
    f_equal.
    replace (idx + 1)%nat with (S idx) by lia.
    rewrite (take_S_r (<[idx:=b]> old) idx b)
      by (apply list_lookup_insert_eq; lia).
    rewrite take_insert_ge by lia.
    rewrite drop_insert_lt by lia.
    rewrite <- app_assoc. simpl.
    replace (S (idx + length name + 1)) with (idx + S (length name) + 1)%nat
      by lia.
    reflexivity.
Qed.

Lemma pop_build_name_full (name : list Z) (idx : nat) (old rest : list Z)
  (sz : nat) (o u : bool) (n : nat) :
  Forall (fun b => b <> 0) name ->
  (0 < length name)%nat ->
  (idx + length name = MAX_FILE_LEN K)%nat ->
  length old = MAX_FILE_LEN K ->
  (length name <= n)%nat ->
  pop_build_name K n idx old (CircularBuffer.mk sz (name ++ rest) o u)
  = (take idx old ++ name, CircularBuffer.mk sz rest o u).
Proof.
  intros Hname. revert idx old n.
  induction Hname as [|b name Hb Hname IH]; intros idx old n Hpos Hfit Hold Hn;
    simpl in *; [lia|].
  destruct n as [|n]; [lia|]. simpl.
  destruct (Z.eqb_spec b 0); [contradiction|]. simpl.
  destruct name as [|b' name].
  - simpl in *. destruct (Nat.ltb_spec (idx + 1) (MAX_FILE_LEN K)); [lia|].
    f_equal. rewrite insert_take_drop by lia.
    rewrite drop_ge by lia. reflexivity.
  - destruct (Nat.ltb_spec (idx + 1) (MAX_FILE_LEN K));
      [|simpl in Hfit; lia].
    rewrite IH by (rewrite ?length_insert; simpl in *; lia).
    f_equal.
    replace (idx + 1)%nat with (S idx) by lia.
    rewrite (take_S_r (<[idx:=b]> old) idx b)
      by (apply list_lookup_insert_eq; simpl in Hfit; lia).
    rewrite take_insert_ge by lia.
    rewrite <- app_assoc. reflexivity.
Qed.

Lemma handleBuildStartNotification_name (buf : CircularBuffer.t)
  (s : State) :
  currentState (host s) = HOST_STATE_READY
  \/ currentState (host s) = HOST_STATE_BUILDING ->
  let p := pop_build_name K (S (MAX_FILE_LEN K)) 0 (buildName (host s)) buf in
  let r := handleBuildStartNotification K X buf s in
  fst r = snd p
  /\ buildName (host (snd r)) = fst p
  /\ currentState (host (snd r)) = HOST_STATE_BUILDING.
Proof.
  intros Hst. unfold handleBuildStartNotification.
  destruct Hst as [Hst | Hst]; rewrite Hst.
  - assert (Hname : buildName
                      (host (with_host (set_currentState HOST_STATE_BUILDING)
                               (if PSTOP_SUPPORT K
                                then with_ext (command_pstop_clear X) s
                                else s)))
                    = buildName (host s)).
    { destruct (PSTOP_SUPPORT K); reflexivity. }
    rewrite Hname.
    destruct (pop_build_name _ _ _ _ _) as [name buf'].
    destruct (PSTOP_SUPPORT K); repeat split.
  - destruct (pop_build_name _ _ _ _ _) as [name buf'].
    repeat split. exact Hst.
Qed.

(** X8.  A build-start notification met while building from the SD card
    consumes the embedded name, whatever its length, up to and including
    its NUL, and nothing more: the queue then holds what followed the
    name; the stored build name and the host state are not touched. *)
Theorem handleBuildStartNotification_discards_name (buf : CircularBuffer.t)
  (s : State) (name rest : list Z) :
  currentState (host s) = HOST_STATE_BUILDING_FROM_SD ->
  CircularBuffer.items buf = name ++ 0 :: rest ->
  Forall (fun b => 0 < b < 256) name ->
  let r := handleBuildStartNotification K X buf s in
  fst r = CircularBuffer.mk (CircularBuffer.buf_size buf) rest
            (CircularBuffer.overflow buf) (CircularBuffer.underflow buf)
  /\ buildName (host (snd r)) = buildName (host s)
  /\ currentState (host (snd r)) = HOST_STATE_BUILDING_FROM_SD.
Proof.
  intros Hst Hitems Hname. unfold handleBuildStartNotification.
  rewrite Hst. destruct buf as [sz items o u].
  cbn [CircularBuffer.items CircularBuffer.buf_size CircularBuffer.overflow
       CircularBuffer.underflow] in *.
  subst items.
  rewrite pop_until_nul_exact
    by (try assumption; rewrite length_app; simpl; lia).
  repeat split. exact Hst.
Qed.

(** X9.  A build-start notification met in the state READY or BUILDING
    takes the name from the queue up to and including its NUL, when the
    name with its NUL fits the build-name buffer: the queue then holds
    what followed the name, the buffer starts with the name and its NUL
    (the bytes behind are those of the older name), and the host state is
    BUILDING. *)
Theorem handleBuildStartNotification_takes_name (buf : CircularBuffer.t)
  (s : State) (name rest : list Z) :
  currentState (host s) = HOST_STATE_READY
  \/ currentState (host s) = HOST_STATE_BUILDING ->
  CircularBuffer.items buf = name ++ 0 :: rest ->
  Forall (fun b => b <> 0) name ->
  (length name < MAX_FILE_LEN K)%nat ->
  length (buildName (host s)) = MAX_FILE_LEN K ->
  let r := handleBuildStartNotification K X buf s in
  fst r = CircularBuffer.mk (CircularBuffer.buf_size buf) rest
            (CircularBuffer.overflow buf) (CircularBuffer.underflow buf)
  /\ buildName (host (snd r))
     = name ++ 0 :: drop (S (length name)) (buildName (host s))
  /\ currentState (host (snd r)) = HOST_STATE_BUILDING.
Proof.
  intros Hst Hitems Hname Hfit Hold.
  destruct (handleBuildStartNotification_name buf s Hst) as (Hb & Hn & Hc).
  destruct buf as [sz items o u].
  cbn [CircularBuffer.items CircularBuffer.buf_size CircularBuffer.overflow
       CircularBuffer.underflow] in *.
  subst items.
  rewrite pop_build_name_exact in Hb, Hn by (try assumption; lia).
  simpl in Hb, Hn. rewrite Nat.add_1_r in Hn.
  split; [exact Hb | split; [exact Hn | exact Hc]].
Qed.

(** X10.  A name of MAX_FILE_LEN or more bytes without NUL is cut: in the
    state READY or BUILDING exactly MAX_FILE_LEN bytes are taken from the
    queue and fill the build-name buffer, which is then not terminated;
    the bytes behind them, the rest of the name included, stay in the
    queue. *)
Theorem handleBuildStartNotification_cuts_name (buf : CircularBuffer.t)
  (s : State) (name rest : list Z) :
  currentState (host s) = HOST_STATE_READY
  \/ currentState (host s) = HOST_STATE_BUILDING ->
  CircularBuffer.items buf = name ++ rest ->
  Forall (fun b => b <> 0) name ->
  length name = MAX_FILE_LEN K ->
  (0 < MAX_FILE_LEN K)%nat ->
  length (buildName (host s)) = MAX_FILE_LEN K ->
  let r := handleBuildStartNotification K X buf s in
  fst r = CircularBuffer.mk (CircularBuffer.buf_size buf) rest
            (CircularBuffer.overflow buf) (CircularBuffer.underflow buf)
  /\ buildName (host (snd r)) = name.
Proof.
  intros Hst Hitems Hname Hlen Hpos Hold.
  destruct (handleBuildStartNotification_name buf s Hst) as (Hb & Hn & _).
  destruct buf as [sz items o u].
  cbn [CircularBuffer.items CircularBuffer.buf_size CircularBuffer.overflow
       CircularBuffer.underflow] in *.
  subst items.
  rewrite pop_build_name_full in Hb, Hn by (try assumption; lia).
  split; [exact Hb | exact Hn].
Qed.

(** X11.  A build-start notification that finds the queue empty reads
    past its end once: the queue stays empty with its underflow flag
    raised, in the states READY and BUILDING the build name becomes the
    empty string, and while building from the SD card the build name is
    kept. *)
Theorem handleBuildStartNotification_empty_queue (buf : CircularBuffer.t)
  (s : State) :
  CircularBuffer.items buf = [] ->
  currentState (host s) <> HOST_STATE_CANCEL_BUILD ->
  let r := handleBuildStartNotification K X buf s in
  fst r = CircularBuffer.mk (CircularBuffer.buf_size buf) []
            (CircularBuffer.overflow buf) true
  /\ buildName (host (snd r))
     = match currentState (host s) with
       | HOST_STATE_BUILDING_FROM_SD => buildName (host s)
       | _ => <[0%nat := 0]> (buildName (host s))
       end.
Proof.
  intros Hitems Hst. unfold handleBuildStartNotification.
  destruct buf as [sz items o u]. simpl in *. subst items.
  destruct (currentState (host s)); try contradiction; simpl.
  - destruct (PSTOP_SUPPORT K); split; reflexivity.
  - split; reflexivity.
  - split; reflexivity.
Qed.

(** ** The build name in replies *)

Lemma append_name_terminated (name rest : list Z) (p : OutPacket) :
  Forall (fun b => 0 < b < 256) name ->
  (length p + length name + 1 <= MAX_PACKET_PAYLOAD K)%nat ->
  append_name K X (name ++ 0 :: rest) p = p ++ name ++ [0].
Proof.
  intros Hname. revert p.
  induction Hname as [|b name Hb _ IH]; intros p Hfit; simpl in *.
  - rewrite append8_fits by lia. reflexivity.
  - rewrite append8_fits by lia. rewrite u8_small by lia.
    destruct (Z.eqb_spec b 0); [lia|].
    rewrite IH by (rewrite length_app; simpl; lia).
    rewrite <- app_assoc. reflexivity.
Qed.

Lemma append_name_unterminated (name : list Z) (p : OutPacket) :
  Forall (fun b => 0 < b < 256) name ->
  (length p + length name <= MAX_PACKET_PAYLOAD K)%nat ->
  append_name K X name p = p ++ name.
Proof.
  intros Hname. revert p.
  induction Hname as [|b name Hb _ IH]; intros p Hfit; simpl in *.
  - rewrite app_nil_r. reflexivity.
  - rewrite append8_fits by lia. rewrite u8_small by lia.
    destruct (Z.eqb_spec b 0); [lia|].
    rewrite IH by (rewrite length_app; simpl; lia).
    rewrite <- app_assoc. reflexivity.
Qed.

(** X12.  GET_BUILD_NAME answers OK followed by the build name up to and
    including its first NUL.  When the MAX_FILE_LEN places of the buffer
    hold no NUL, the reply carries all of them and no terminator.  (The
    reply fits a packet when MAX_FILE_LEN + 1 does.) *)
Theorem handleGetBuildName_reply (from_host : InPacket) (s : State) :
  (1 + MAX_FILE_LEN K <= MAX_PACKET_PAYLOAD K)%nat ->
  let buffer := take (MAX_FILE_LEN K) (buildName (host s)) in
  (forall name rest : list Z,
     buffer = name ++ 0 :: rest ->
     Forall (fun b => 0 < b < 256) name ->
     handleGetBuildName K X from_host [] s = u8 (RC K RC_OK) :: name ++ [0])
  /\ (Forall (fun b => 0 < b < 256) buffer ->
      handleGetBuildName K X from_host [] s = u8 (RC K RC_OK) :: buffer).
Proof.
  intros Hcap buffer.
  assert (Hlen : (length buffer <= MAX_FILE_LEN K)%nat).
  { unfold buffer. rewrite length_take. lia. }
  unfold handleGetBuildName. fold buffer.
  rewrite (append8_fits K X _ []) by (simpl; lia). simpl.
  split.
  - intros name rest Hbuf Hname. rewrite Hbuf in *.
    rewrite length_app in Hlen. simpl in Hlen.
    rewrite append_name_terminated by (simpl; try assumption; lia).
    reflexivity.
  - intros Hname.
    rewrite append_name_unterminated by (simpl; try assumption; lia).
    reflexivity.
Qed.

(** ** Starting a build from the SD card *)

(** X13.  startBuildFromSD with the stored build name.  When the SD card
    answers that the name was a directory change (SD_CWD), the result is
    SD_SUCCESS and no build starts; when it answers with an error, the
    result is that error.  In both cases the host state, the build state,
    the command queue and the build name are as before.  Only when the
    playback starts does the host state become BUILDING_FROM_SD, with the
    copy count read from the EEPROM; the build state is not set. *)
Theorem startBuildFromSD_outcomes (fname : FileName) (s : State) :
  fname = FNull \/ fname = FBuildName ->
  let e := fst (sd_startPlayback X (buildName (host s)) (ext (world s))) in
  let x1 := snd (sd_startPlayback X (buildName (host s)) (ext (world s))) in
  let r := startBuildFromSD K X fname s in
  (e = SD_CWD K \/ e <> SD_SUCCESS K ->
   r = ((if e =? SD_CWD K then SD_SUCCESS K else e),
        with_ext (fun _ => x1) s))
  /\ (e <> SD_CWD K /\ e = SD_SUCCESS K ->
      fst r = SD_SUCCESS K
      /\ currentState (host (snd r)) = HOST_STATE_BUILDING_FROM_SD
      /\ copiesToPrint (world (snd r))
         = getEeprom8 X (eeprom (world (snd r))) (ABP_COPIES K)
             (EEPROM_DEFAULT_ABP_COPIES K)
      /\ buildState (host (snd r)) = buildState (host s)
      /\ buildName (host (snd r)) = buildName (host s)).
Proof.
  intros Hname e x1 r. unfold r, startBuildFromSD.
  destruct Hname as [-> | ->];
    (unfold e, x1;
     destruct (sd_startPlayback X (buildName (host s)) (ext (world s)))
       as [e0 x0]; simpl; split;
     [ intros [-> | Hne];
       [ rewrite Z.eqb_refl; reflexivity
       | destruct (Z.eqb_spec e0 (SD_CWD K)); [reflexivity|];
         destruct (Z.eqb_spec e0 (SD_SUCCESS K)); [contradiction|];
         reflexivity ]
     | intros [Hne ->];
       destruct (Z.eqb_spec (SD_SUCCESS K) (SD_CWD K)); [contradiction|];
       rewrite Z.eqb_refl; simpl; repeat split ]).
Qed.

Lemma copy_file_name_spec (n i : nat) (fname cur : list Z) :
  Forall (fun b => b <> 0) fname ->
  (i <= length fname)%nat ->
  (i + 1 < MAX_FILE_LEN K)%nat ->
  length cur = MAX_FILE_LEN K ->
  (MAX_FILE_LEN K - 1 - i <= n)%nat ->
  let k := Nat.min (length fname) (MAX_FILE_LEN K - 1) in
  copy_file_name K n i fname cur
  = (k, take i cur ++ take (k - i) (drop i fname) ++ drop k cur).
Proof.
  intros Hname. revert i cur.
  induction n as [|n IH]; intros i cur Hi Hroom Hcur Hn k; [lia|].
  simpl. rewrite nth_lookup.
  destruct (fname !! i) as [c|] eqn:Hc; simpl.
  - assert (Hlt : (i < length fname)%nat) by (eapply lookup_lt_Some; eauto).
    pose proof (Forall_lookup_1 _ _ _ _ Hname Hc) as Hnz. simpl in Hnz.
    destruct (Z.eqb_spec c 0); [contradiction|].
    destruct (Nat.leb_spec (MAX_FILE_LEN K - 1) (i + 1)).
    + assert (Hk : k = (i + 1)%nat) by (unfold k; lia).
      rewrite Hk. replace (i + 1 - i)%nat with 1%nat by lia.
      rewrite (drop_S fname c i Hc). simpl.
      rewrite insert_take_drop by lia.
      replace (i + 1)%nat with (S i) by lia. reflexivity.
    + rewrite IH by (rewrite ?length_insert; lia).
      fold k. f_equal.
      assert (Hk : (i + 1 <= k)%nat) by (unfold k; lia).
      replace (i + 1)%nat with (S i) in * by lia.
      rewrite (take_S_r (<[i:=c]> cur) i c)
        by (apply list_lookup_insert_eq; lia).
      rewrite take_insert_ge by lia.
      rewrite drop_insert_lt by lia.
      rewrite (drop_S fname c i Hc).
      replace (k - i)%nat with (S (k - S i)) by lia.
      simpl. rewrite <- app_assoc. reflexivity.
  - assert (Hge : (length fname <= i)%nat) by (apply lookup_ge_None; exact Hc).
    assert (Hk : k = i) by (unfold k; lia).
    rewrite Hk, Nat.sub_diag. simpl. rewrite take_drop. reflexivity.
Qed.

(** X14.  startBuildFromSD with a file name of its own copies the name
    into the build-name buffer cut to MAX_FILE_LEN - 1 characters and
    terminates it there: the build name is always NUL-terminated inside
    the buffer, whether or not the playback starts. *)
Theorem startBuildFromSD_copies_name (name : list Z) (s : State) :
  Forall (fun b => b <> 0) name ->
  (2 <= MAX_FILE_LEN K)%nat ->
  length (buildName (host s)) = MAX_FILE_LEN K ->
  let k := Nat.min (length name) (MAX_FILE_LEN K - 1) in
  buildName (host (snd (startBuildFromSD K X (FOther name) s)))
  = take k name ++ 0 :: drop (S k) (buildName (host s)).
Proof.
  intros Hname Hmax Hold k. unfold startBuildFromSD.
  rewrite copy_file_name_spec by (simpl; try assumption; lia).
  fold k. simpl. rewrite Nat.sub_0_r.
  assert (Hk : (k < length (take k name ++ drop k (buildName (host s))))%nat).
  { rewrite length_app, length_take, length_drop. unfold k. lia. }
  assert (Hname' : buildName
                     (host (with_host
                              (set_buildName
                                 (<[k:=0]> (take k name
                                            ++ drop k (buildName (host s)))))
                              s))
                   = take k name ++ 0 :: drop (S k) (buildName (host s))).
  { simpl. rewrite insert_take_drop by exact Hk.
    assert (Htk : length (take k name) = k).
    { rewrite length_take. unfold k. lia. }
    rewrite take_app_length' by (symmetry; exact Htk).
    replace (S k) with (length (take k name) + 1)%nat at 1 by lia.
    rewrite drop_app_add. rewrite drop_drop.
    replace (k + 1)%nat with (S k) by lia. reflexivity. }
  destruct (sd_startPlayback X name _) as [e x1].
  destruct (e =? SD_CWD K); [exact Hname'|].
  destruct (negb (e =? SD_SUCCESS K)); exact Hname'.
Qed.

(** ** The name in a playback request *)

Lemma fold_left_map_arg {A B C : Type} (g : A -> C -> A) (h : B -> C)
  (l : list B) (a : A) :
  fold_left g (map h l) a = fold_left (fun acc x => g acc (h x)) l a.
Proof. revert a. induction l as [|x l IH]; intros a; simpl; auto. Qed.

Lemma map_nth_seq_take (l : list Z) (k : nat) :
  (k <= length l)%nat -> map (fun i => nth i l 0) (seq 0 k) = take k l.
Proof.
  revert k. induction l as [|b l IH]; intros [|k] Hk; simpl in *;
    try reflexivity; try lia.
  f_equal. rewrite <- seq_shift, map_map. apply IH. lia.
Qed.

Lemma read_build_name_spec (from_host : InPacket) (old : list Z) :
  length old = MAX_FILE_LEN K ->
  let n := (Nat.min (length (received from_host)) (MAX_FILE_LEN K) - 1)%nat in
  read_build_name K from_host old
  = map (fun i => read8 (Z.of_nat (S i)) from_host) (seq 0 n) ++ drop n old.
Proof.
  intros Hold n. unfold read_build_name. fold n.
  rewrite <- seq_shift, fold_left_map_arg.
  rewrite <- (fold_insert_seq
                (fun i => read8 (Z.of_nat (S i)) from_host) old n)
    by (unfold n; lia).
  generalize (seq 0 n). intros l. generalize old.
  induction l as [|i l IH]; intros a; simpl; [reflexivity|].
  rewrite Nat.sub_0_r. apply IH.
Qed.

Lemma startBuildFromSD_stored_name (s : State) :
  buildName (host (snd (startBuildFromSD K X FNull s))) = buildName (host s).
Proof.
  unfold startBuildFromSD.
  destruct (sd_startPlayback X _ _) as [e x1].
  destruct (e =? SD_CWD K); [reflexivity|].
  destruct (negb (e =? SD_SUCCESS K)); reflexivity.
Qed.

(** X15.  PLAYBACK_CAPTURE stores the name it carries over the head of
    the build-name buffer, cut to MAX_FILE_LEN - 1 bytes, and writes a NUL
    into the last place of the buffer only: when the packet does not carry
    the NUL of a name shorter than the one stored before, the bytes of the
    older name stay behind it.  The reply is OK followed by one status
    byte. *)
Theorem handlePlayback_name (from_host : InPacket) (to_host : OutPacket)
  (s : State) (opcode : Z) (fname : list Z) :
  received from_host = opcode :: fname ->
  (length fname < 255)%nat ->
  (1 <= MAX_FILE_LEN K)%nat ->
  length (buildName (host s)) = MAX_FILE_LEN K ->
  let k := Nat.min (length fname) (MAX_FILE_LEN K - 1) in
  let r := handlePlayback K X from_host to_host s in
  buildName (host (snd r))
  = <[(MAX_FILE_LEN K - 1)%nat := 0]>
      (take k fname ++ drop k (buildName (host s)))
  /\ exists e : Z,
       fst r = append8 K X (u8 e) (append8 K X (RC K RC_OK) to_host).
Proof.
  intros Hpkt Hlen Hmax Hold k r. unfold r, handlePlayback.
  destruct (startBuildFromSD K X FNull _) as [e s1] eqn:Hstart.
  simpl. split; [|eexists; reflexivity].
  replace s1 with (snd (startBuildFromSD K X FNull
                          (with_host
                             (set_buildName
                                (<[(MAX_FILE_LEN K - 1)%nat:=0]>
                                   (read_build_name K from_host
                                      (buildName (host s))))) s)))
    by (rewrite Hstart; reflexivity).
  rewrite startBuildFromSD_stored_name. simpl.
  rewrite read_build_name_spec by exact Hold.
  rewrite Hpkt. simpl length.
  replace (Nat.min (S (length fname)) (MAX_FILE_LEN K) - 1)%nat with k
    by (unfold k; lia).
  do 2 f_equal.
  rewrite <- (map_nth_seq_take fname k) by (unfold k; lia).
  apply map_ext_in. intros i Hi. apply in_seq in Hi.
  rewrite read8_received; [rewrite Hpkt; reflexivity | |];
    [rewrite Hpkt; simpl; unfold k in Hi; lia | unfold k in Hi; lia].
Qed.

End MoreProperties.

(** ** The machine name *)

Section MachineNameProperties.

Context (X : Collaborators) (N : NameConstants).

Lemma fill_name_spec (n : nat) (f : nat -> Z) (name : list Z) :
  (n <= length name)%nat ->
  fill_name n f name = map f (seq 0 n) ++ drop n name.
Proof. intros Hn. unfold fill_name. apply fold_insert_seq. exact Hn. Qed.

Lemma getMachineName_cached (s : St (Ext X)) :
  nth 0 (machineName (host s)) 0 <> 0 ->
  getMachineName X N s = (machineName (host s), s).
Proof.
  intros Hset. apply Z.eqb_neq in Hset. unfold getMachineName.
  cbv zeta. rewrite Hset. cbv iota. rewrite Hset.
  destruct s as [[] w]. reflexivity.
Qed.

Lemma getMachineName_head (s : St (Ext X)) :
  length (machineName (host s)) = S (MAX_MACHINE_NAME_LEN N) ->
  (13 <= MAX_MACHINE_NAME_LEN N)%nat ->
  nth 0 (fst (getMachineName X N s)) 0 <> 0
  /\ length (fst (getMachineName X N s)) = S (MAX_MACHINE_NAME_LEN N).
Proof.
  intros Hlen Hmax. unfold getMachineName. simpl.
  set (loaded := <[MAX_MACHINE_NAME_LEN N:=0]> (fill_name _ _ _)).
  assert (Hloaded : length loaded = S (MAX_MACHINE_NAME_LEN N)).
  { unfold loaded, fill_name. rewrite length_insert.
    generalize (seq 0 (MAX_MACHINE_NAME_LEN N)).
    intros l. generalize (machineName (host s)) Hlen.
    induction l as [|i l IH]; intros a Ha; simpl; [exact Ha|].
    apply IH. rewrite length_insert. exact Ha. }
  assert (Hdefault : forall name : list Z,
             length name = S (MAX_MACHINE_NAME_LEN N) ->
             nth 0 (<[13%nat:=0]>
                      (fill_name 13 (fun i => nth i defaultMachineName 0) name))
                 0 <> 0
             /\ length (<[13%nat:=0]>
                          (fill_name 13
                             (fun i => nth i defaultMachineName 0) name))
                = S (MAX_MACHINE_NAME_LEN N)).
  { intros name Hname. rewrite fill_name_spec by lia.
    rewrite length_insert, length_app, length_map, length_seq, length_drop.
    split; [simpl; lia | lia]. }
  destruct (Z.eqb_spec (nth 0 (machineName (host s)) 0) 0) as [Hz | Hnz].
  - destruct (Z.eqb_spec (nth 0 loaded 0) 0).
    + apply Hdefault. exact Hloaded.
    + split; assumption.
  - destruct (Z.eqb_spec (nth 0 (machineName (host s)) 0) 0);
      [contradiction|]. split; assumption.
Qed.

(** X16.  getMachineName never yields an empty name, and it loads the
    name once: a name that is stored already is returned as it is,
    whatever the EEPROM holds by then, and a second call returns what the
    first returned and changes nothing.  (The buffer has
    MAX_MACHINE_NAME_LEN + 1 places and room for the 13 characters of the
    default name.) *)
Theorem getMachineName_loaded_once (s : St (Ext X)) :
  length (machineName (host s)) = S (MAX_MACHINE_NAME_LEN N) ->
  (13 <= MAX_MACHINE_NAME_LEN N)%nat ->
  let r := getMachineName X N s in
  nth 0 (fst r) 0 <> 0
  /\ getMachineName X N (snd r) = (fst r, snd r)
  /\ (nth 0 (machineName (host s)) 0 <> 0 -> r = (machineName (host s), s)).
Proof.
  intros Hlen Hmax r.
  destruct (getMachineName_head s Hlen Hmax) as [Hhead _].
  split; [exact Hhead|]. split.
  - rewrite getMachineName_cached; [reflexivity|exact Hhead].
  - apply getMachineName_cached.
Qed.

(** X17.  When getMachineName loads the name (none is stored), the name
    it leaves is bounded: the last place of the buffer holds NUL even if
    the EEPROM holds a name without one.  If the EEPROM name is empty, the
    name is the default, Thing-O-Matic, with its NUL. *)
Theorem getMachineName_load (s : St (Ext X)) :
  length (machineName (host s)) = S (MAX_MACHINE_NAME_LEN N) ->
  (13 <= MAX_MACHINE_NAME_LEN N)%nat ->
  nth 0 (machineName (host s)) 0 = 0 ->
  let stored (i : nat) :=
    getEeprom8 X (eeprom (world s)) (u16 (MACHINE_NAME N + Z.of_nat i))
      (EEPROM_DEFAULT_MACHINE_NAME N) in
  let name := fst (getMachineName X N s) in
  nth (MAX_MACHINE_NAME_LEN N) name 0 = 0
  /\ (stored 0%nat <> 0 ->
      take (MAX_MACHINE_NAME_LEN N) name
      = map stored (seq 0 (MAX_MACHINE_NAME_LEN N)))
  /\ (stored 0%nat = 0 -> take 14%nat name = defaultMachineName ++ [0]).
Proof.
  intros Hlen Hmax Hempty stored name. unfold name, getMachineName. simpl.
  rewrite Hempty. simpl.
  rewrite fill_name_spec by lia. fold stored.
  set (loaded := <[MAX_MACHINE_NAME_LEN N:=0]> (map stored _ ++ _)).
  assert (Hll : length loaded = S (MAX_MACHINE_NAME_LEN N)).
  { unfold loaded.
    rewrite length_insert, length_app, length_map, length_seq, length_drop.
    lia. }
  assert (Hhead : nth 0 loaded 0 = stored 0%nat).
  { unfold loaded. destruct (MAX_MACHINE_NAME_LEN N) as [|m]; [lia|].
    reflexivity. }
  assert (Hlast : nth (MAX_MACHINE_NAME_LEN N) loaded 0 = 0).
  { unfold loaded. apply nth_lookup_Some.
    apply list_lookup_insert_eq.
    rewrite length_app, length_map, length_seq, length_drop. lia. }
  assert (Htake : take (MAX_MACHINE_NAME_LEN N) loaded
                  = map stored (seq 0 (MAX_MACHINE_NAME_LEN N))).
  { unfold loaded. rewrite take_insert_ge by lia.
    rewrite take_app_length' by (rewrite length_map, length_seq; reflexivity).
    reflexivity. }
  rewrite Hhead.
  destruct (Z.eqb_spec (stored 0%nat) 0) as [Hz | Hnz].
  - rewrite fill_name_spec by lia.
    split; [|split; [contradiction|]].
    + destruct (Nat.eq_dec (MAX_MACHINE_NAME_LEN N) 13%nat) as [E | E].
      * rewrite E. apply nth_lookup_Some. apply list_lookup_insert_eq.
        rewrite length_app, length_map, length_seq, length_drop. lia.
      * apply nth_lookup_Some. rewrite list_lookup_insert_ne by lia.
        rewrite lookup_app_r by (rewrite length_map, length_seq; lia).
        rewrite length_map, length_seq, lookup_drop.
        replace (13 + (MAX_MACHINE_NAME_LEN N - 13))%nat
          with (MAX_MACHINE_NAME_LEN N) by lia.
        unfold loaded. apply list_lookup_insert_eq.
        rewrite length_app, length_map, length_seq, length_drop. lia.
    + intros _. simpl.
      destruct (drop 13%nat loaded) eqn:Hd; simpl.
      * assert (Hdl : length (drop 13%nat loaded) = 0%nat) by (rewrite Hd; auto).
        rewrite length_drop in Hdl. lia.
      * reflexivity.
  - split; [exact Hlast|]. split; [intros _; exact Htake | contradiction].
Qed.

End MachineNameProperties.

(** ** More on the tick *)

Section TickProperties.

Context (K : Constants) (X : Collaborators).

Local Abbreviation State := (St (Ext X)).

Lemma finishCancel_world (s : State) : world (finishCancel K X s) = world s.
Proof.
  unfold finishCancel. destruct (buildState (host s)); try reflexivity.
  destruct (_ =? _); [apply stopBuildNow_world | reflexivity].
Qed.


Lemma stopBuildNow_reset_timeout (s : State) :
  do_host_reset_timeout (host (stopBuildNow X s))
  = Timeout.start (micros (world s)) 200000 (do_host_reset_timeout (host s)).
Proof. unfold stopBuildNow. destruct (currentState (host s)); reflexivity. Qed.


(** X18.  While a reply is still being sent and no reset was pending when
    the tick began, the tick leaves everything outside Host.cc's own
    variables as it was: no packet is read or answered, nothing is
    queued, no collaborator is called and no reset is made.  This holds
    also for the tick that finalises a cancel, whose reset is only
    scheduled. *)
Theorem runHostSlice_held_while_sending (fuel : nat) (m : Machine (Ext X)) :
  uart_sending (world (st m)) = true ->
  do_host_reset (host (st m)) = false ->
  exists m' : Machine (Ext X),
    runHostSlice K X fuel m = Some m'
    /\ world (st m') = world (st m)
    /\ reset_log m' = reset_log m.
Proof.
  intros Hsend Hreset. unfold runHostSlice.
  assert (Hhold : fst (replyInFlight X (finishCancel K X (st m))) = true).
  { unfold replyInFlight. rewrite finishCancel_world, Hsend.
    unfold finishCancel.
    assert (Hidle : (if negb (do_host_reset (host (st m)))
                     then (true, st m)
                     else let '(el, t) :=
                            Timeout.hasElapsed (getCurrentMicros X (st m))
                              (do_host_reset_timeout (host (st m))) in
                          (negb el,
                           with_host (set_do_host_reset_timeout t) (st m))).1
                    = true) by (rewrite Hreset; reflexivity).
    destruct (buildState (host (st m))); try exact Hidle.
    destruct (_ =? _); [|exact Hidle].
    destruct (negb (do_host_reset (host (stopBuildNow X (st m)))));
      [reflexivity|].
    unfold getCurrentMicros. rewrite stopBuildNow_world.
    rewrite stopBuildNow_reset_timeout.
    pose proof (hasElapsed_start (micros (world (st m)))
                  (micros (world (st m))) 200000
                  (do_host_reset_timeout (host (st m)))) as Hfresh.
    rewrite u32_sub_self in Hfresh. clear Hidle.
    destruct (Timeout.hasElapsed (micros (world (st m))) _) as [el t].
    simpl in Hfresh. subst el. reflexivity. }
  pose proof (replyInFlight_keeps X (finishCancel K X (st m)))
    as (_ & _ & _ & Hworld).
  destruct (replyInFlight X (finishCancel K X (st m))) as [hold s2].
  simpl in Hhold, Hworld. subst hold.
  eexists. split; [reflexivity|]. simpl. split; [|reflexivity].
  rewrite Hworld. apply finishCancel_world.
Qed.




(** What the end of the tick (the SD reconciliation and managePrintTime)
    keeps. *)
Lemma tick_tail (s5 : State) :
  let s6 :=
    match currentState (host s5) with
    | HOST_STATE_BUILDING_FROM_SD =>
        if negb (sd_isPlaying X (ext (world s5)))
        then with_host (set_currentState HOST_STATE_READY) s5
        else s5
    | _ => s5
    end in
  world (managePrintTime X s6) = world s5
  /\ cancelBuild (host (managePrintTime X s6)) = cancelBuild (host s5)
  /\ packet_in_timeout (host (managePrintTime X s6))
     = packet_in_timeout (host s5)
  /\ do_host_reset (host (managePrintTime X s6)) = do_host_reset (host s5)
  /\ (currentState (host (managePrintTime X s6)) = HOST_STATE_BUILDING_FROM_SD
      -> sd_isPlaying X (ext (world s5)) = true).
Proof.
  intros s6. unfold managePrintTime.
  destruct (Timeout.hasElapsed _ _) as [el t].
  assert (Hs6 : world s6 = world s5
                /\ cancelBuild (host s6) = cancelBuild (host s5)
                /\ packet_in_timeout (host s6) = packet_in_timeout (host s5)
                /\ do_host_reset (host s6) = do_host_reset (host s5)
                /\ (currentState (host s6) = HOST_STATE_BUILDING_FROM_SD ->
                    sd_isPlaying X (ext (world s5)) = true)).
  { unfold s6. destruct (currentState (host s5)) eqn:Hstate;
      try (repeat split; try reflexivity; rewrite Hstate; discriminate).
    destruct (sd_isPlaying X (ext (world s5))); simpl;
      repeat split; try reflexivity; discriminate. }
  destruct Hs6 as (Hw & Hc & Hp & Hr & Hsd).
  destruct el; simpl; repeat split; assumption.
Qed.







(** X23.  After a tick that was not held by a reply in flight, the host
    state is BUILDING_FROM_SD only while the SD card is playing a file:
    the tick turns a finished playback into READY, also in the tick that
    started it. *)
Theorem runHostSlice_sd_state (fuel : nat) (m m' : Machine (Ext X)) :
  uart_sending (world (st m)) = false ->
  runHostSlice K X fuel m = Some m' ->
  currentState (host (st m')) = HOST_STATE_BUILDING_FROM_SD ->
  sd_isPlaying X (ext (world (st m'))) = true.
Proof.
  intros Hsend. unfold runHostSlice.
  unfold replyInFlight. rewrite finishCancel_world, Hsend.
  destruct (resetDue X _) as [[|] s3].
  - intros [= <-]. simpl. discriminate.
  - destruct (if hasError _ then _ else _) as [s5|]; simpl; [|discriminate].
    intros [= <-]. simpl.
    pose proof (tick_tail s5) as (Hw & _ & _ & _ & Hsd).
    simpl in Hw, Hsd. rewrite Hw. exact Hsd.
Qed.

End TickProperties.

(** ** The relay to the tool, build statistics and file names *)

Section RelayProperties.

Context (K : Constants) (X : Collaborators).

Local Abbreviation State := (St (Ext X)).

(** X24.  A PAUSE query is a toggle that does not depend on the tool.
    Unless a pause or unpause is settling, the build is paused when it was
    running and resumed when it was paused, heaters off, before the
    request is relayed to the tool.  When the clock moves with every poll
    and the tool driver makes progress, the handler returns (with every
    fuel from some amount on), and whatever the relay gave, lock timeout
    and downstream timeout included, Host.cc's variables are as that
    pauseBuild left them. *)
Theorem handlePause_toggles (from_host : InPacket) (to_host : OutPacket)
  (s : State) (left : World (Ext X) -> nat) :
  command_pauseIntermediateState X (ext (world s)) = false ->
  (forall w0 : World (Ext X),
     1 <= u32 (micros (interrupts X w0) - micros w0)
       <= 4294967296 - HOST_TOOL_RESPONSE_TIMEOUT_MICROS) ->
  (forall w0 : World (Ext X),
     tool_isTransactionDone X w0 = false ->
     (left (interrupts X (tool_call X CallRunToolSlice
                            (tool_runToolSlice X w0))) < left w0)%nat) ->
  exists fuel0 : nat,
    forall fuel : nat,
      (fuel0 <= fuel)%nat ->
      exists (to' : OutPacket) (s' : State),
        handlePause K X fuel from_host to_host s = Some (to', s')
        /\ host s'
           = host (pauseBuild X (negb (command_isPaused X (ext (world s))))
                     (Z.lor (PAUSE_EXT_OFF K) (PAUSE_HBP_OFF K)) s)
        /\ buildState (host s')
           = (if command_isPaused X (ext (world s))
              then BUILD_RUNNING else BUILD_PAUSED).
Proof.
  intros Hmid Hclock Hprogress.
  set (s1 := pauseBuild X (negb (command_isPaused X (ext (world s))))
               (Z.lor (PAUSE_EXT_OFF K) (PAUSE_HBP_OFF K)) s).
  assert (Hbuild : buildState (host s1)
                   = (if command_isPaused X (ext (world s))
                      then BUILD_RUNNING else BUILD_PAUSED)).
  { unfold s1, pauseBuild. rewrite Hmid.
    destruct (command_isPaused X (ext (world s))); reflexivity. }
  assert (Hrelay : forall (fuel : nat) (to1 : OutPacket) (w : World (Ext X)),
             doToolPause K X fuel to_host s1 = Some (to1, mkSt (host s1) w) ->
             exists (to' : OutPacket) (s' : State),
               handlePause K X fuel from_host to_host s = Some (to', s')
               /\ host s' = host s1
               /\ buildState (host s')
                  = (if command_isPaused X (ext (world s))
                     then BUILD_RUNNING else BUILD_PAUSED)).
  { intros fuel to1 w Hr. unfold handlePause. rewrite Hmid. simpl.
    fold s1. rewrite Hr. simpl. eexists _, _.
    split; [reflexivity|]. split; [reflexivity | exact Hbuild]. }
  set (n := Z.to_nat (HOST_TOOL_RESPONSE_TIMEOUT_MICROS + 1)).
  destruct (acquire_lock_ends X n (micros (world s1)) Timeout.init
              (world s1) Hclock) as (got & w1 & Hlock).
  { unfold n. change HOST_TOOL_RESPONSE_TIMEOUT_MICROS with 50000. lia. }
  { rewrite u32_sub_self. unfold n.
    change HOST_TOOL_RESPONSE_TIMEOUT_MICROS with 50000. lia. }
  destruct got.
  - set (request :=
           append8 K X (SLAVE_CMD_PAUSE_UNPAUSE K)
             (append8 K X (tool_getCurrentToolheadIndex X (ext w1)) [])).
    set (w2 := tool_call X CallStartTransaction
                 (tool_startTransaction X (set_tool_out request w1))).
    set (waiting := tool_call X CallReleaseLock
                      (set_ext (tool_releaseLock X (ext w2)) w2)).
    destruct (pump_transaction_ends X left (S (left waiting)) waiting
                Hprogress) as [w4 Hpump]; [lia|].
    exists (Nat.max n (S (left waiting))). intros fuel Hfuel.
    eapply (Hrelay fuel _ w4).
    apply (proj2 (doToolPause_result K X n fuel to_host s1 true w1 Hlock
                    ltac:(lia)) eq_refl _ w4 Hpump). lia.
  - exists n. intros fuel Hfuel.
    eapply (Hrelay fuel _ (set_indicated
                            (indicated w1 ++ [ERR_SLAVE_LOCK_TIMEOUT]) w1)).
    apply (proj1 (doToolPause_result K X n fuel to_host s1 false w1 Hlock
                    Hfuel) eq_refl).
Qed.






Lemma stopBuildNow_stats (s : State) :
  buildState (host (stopBuildNow X s)) = BUILD_CANCELED
  /\ last_print_line (host (stopBuildNow X s)) = line_number (world s)
  /\ print_time_hours (host (stopBuildNow X s)) = 0
  /\ print_time (host (stopBuildNow X s)) = Timeout.init
  /\ (last_print_hours (host (stopBuildNow X s)),
      last_print_minutes (host (stopBuildNow X s))) = getPrintTime X s.
Proof.
  unfold stopBuildNow. destruct (currentState (host s)); simpl;
    repeat split; reflexivity.
Qed.

(** X26.  Build statistics after a build was stopped.  stopBuildNow keeps
    the elapsed time of the build in last_print_hours and
    last_print_minutes and the line reached in last_print_line, and
    restarts the print timer from nothing; GET_BUILD_STATS reads the
    timer, not the kept values.  So after a stop the statistics are:
    OK, CANCELED, 0 hours, 0 minutes, the line at which the build
    stopped, and the four zero bytes. *)
Theorem handleGetBuildStats_after_stop (s : State) :
  (12 <= MAX_PACKET_PAYLOAD K)%nat ->
  let s' := stopBuildNow X s in
  handleGetBuildStats K X [] s'
  = [u8 (RC K RC_OK); u8 (BuildState_value K BUILD_CANCELED); 0; 0;
     Z.land (line_number (world s)) 255;
     Z.land (Z.shiftr (line_number (world s)) 8) 255;
     Z.land (Z.shiftr (line_number (world s)) 16) 255;
     Z.land (Z.shiftr (line_number (world s)) 24) 255;
     0; 0; 0; 0]
  /\ (last_print_hours (host s'), last_print_minutes (host s'))
     = getPrintTime X s.
Proof.
  intros Hcap s'. subst s'.
  destruct (stopBuildNow_stats s) as (Hb & Hl & Hh & Ht & Hlast).
  split; [|exact Hlast].
  unfold handleGetBuildStats, getPrintTime, getCurrentMicros.
  rewrite Hb, Hl, Hh, Ht. unfold append32.
  rewrite (append8_fits K X _ []) by (simpl; lia).
  repeat (rewrite (append8_fits K X _ (_ ++ _))
            by (rewrite ?length_app; simpl; lia)).
  rewrite !u8_land_255. reflexivity.
Qed.




End RelayProperties.

(** ** The locale compiler *)

Section LocaleProperties.

Import Ascii String Locale.

Lemma is_name_char_props (c : ascii) :
  is_name_char c = true ->
  isspace c = false /\ (c =? NUL)%char = false /\ (c =? "=")%char = false
  /\ (c =? quote)%char = false.
Proof.
  destruct c as [[] [] [] [] [] [] [] []]; vm_compute; intros H;
    try discriminate H; repeat split; reflexivity.
Qed.

Lemma isspace_props (c : ascii) :
  isspace c = true ->
  is_name_char c = false /\ (c =? NUL)%char = false
  /\ (c =? quote)%char = false /\ (c =? "=")%char = false.
Proof.
  destruct c as [[] [] [] [] [] [] [] []]; vm_compute; intros H;
    try discriminate H; repeat split; reflexivity.
Qed.

Lemma c_str_app (l r : list ascii) :
  forallb (fun c => negb (c =? NUL)%char) l = true ->
  c_str (l ++ r) = l ++ c_str r.
Proof.
  induction l as [|c l IH]; simpl; [reflexivity|].
  intros H. apply andb_true_iff in H as [Hc Hl].
  apply negb_true_iff in Hc. rewrite Hc. rewrite IH by exact Hl. reflexivity.
Qed.

Lemma forallb_impl_bool {A : Type} (p q : A -> bool) (l : list A) :
  (forall x, p x = true -> q x = true) ->
  forallb p l = true -> forallb q l = true.
Proof.
  intros Hpq. induction l as [|x l IH]; simpl; [reflexivity|].
  intros H. apply andb_true_iff in H as [Hx Hl].
  rewrite (Hpq x Hx), (IH Hl). reflexivity.
Qed.

Lemma skip_space_app (ws r : list ascii) :
  forallb isspace ws = true -> skip_space (ws ++ r) = skip_space r.
Proof.
  induction ws as [|c ws IH]; simpl; [reflexivity|].
  intros H. apply andb_true_iff in H as [Hc Hl].
  rewrite Hc. apply IH. exact Hl.
Qed.

Lemma skip_space_stop (c : ascii) (r : list ascii) :
  isspace c = false -> skip_space (c :: r) = c :: r.
Proof. intros H. simpl. rewrite H. reflexivity. Qed.

Lemma scan_name_app (name : list ascii) (c : ascii) (rest acc : list ascii)
  (n : nat) :
  forallb is_name_char name = true ->
  (n + List.length name < BUFFER_SIZE)%nat ->
  is_name_char c = false ->
  isspace c || (c =? "=")%char = true ->
  scan_name (name ++ c :: rest) acc n = NameEnds (acc ++ name) (c :: rest).
Proof.
  revert acc n. induction name as [|x name IH]; intros acc n Hname Hlen Hc Hend.
  - simpl. rewrite Hc, Hend.
    destruct (Nat.ltb_spec n BUFFER_SIZE); [|simpl in Hlen; lia].
    rewrite app_nil_r. reflexivity.
  - simpl in Hname. apply andb_true_iff in Hname as [Hx Hname].
    simpl. rewrite Hx.
    destruct (Nat.ltb_spec n BUFFER_SIZE); [|simpl in Hlen; lia].
    rewrite IH; [|assumption|simpl in Hlen; lia|assumption..].
    rewrite <- app_assoc. reflexivity.
Qed.

Lemma scan_text_app (text closing acc : list ascii) (n : nat) :
  forallb (fun c => negb (c =? NUL)%char && negb (c =? backslash)%char
                    && negb (c =? quote)%char) text = true ->
  (n + List.length text <= BUFFER_SIZE)%nat ->
  scan_text (text ++ closing) false acc n
  = scan_text closing false (acc ++ text) (n + List.length text).
Proof.
  revert acc n. induction text as [|x text IH]; intros acc n Htext Hlen.
  - simpl. rewrite app_nil_r, Nat.add_0_r. reflexivity.
  - simpl in Htext. apply andb_true_iff in Htext as [Hx Htext].
    apply andb_true_iff in Hx as [Hx Hq]. apply andb_true_iff in Hx as [_ Hb].
    apply negb_true_iff in Hq, Hb.
    simpl. rewrite Hb, Hq.
    destruct (Nat.ltb_spec n BUFFER_SIZE); [|simpl in Hlen; lia].
    rewrite IH; [|assumption|simpl in Hlen; lia].
    rewrite <- app_assoc. simpl. f_equal. lia.
Qed.

Lemma process_at_entry (mem ws rest : list ascii) (c : ascii)
  (locale : option (list ascii)) (out : list ascii) :
  c_str mem = ws ++ c :: rest ->
  forallb isspace ws = true ->
  is_name_char c = true \/ c = "="%char ->
  process (Some mem) locale (Some out)
  = process_entry (c :: rest)
      match locale with Some l => c_str l | None => str "c" end out.
Proof.
  intros Hstr Hws Hc. unfold process. rewrite Hstr.
  assert (Hsp : isspace c = false)
    by (destruct Hc as [Hc | ->]; [apply is_name_char_props, Hc | reflexivity]).
  remember (ws ++ c :: rest) as L eqn:HL.
  destruct L as [|a l]; [destruct ws; discriminate HL|].
  rewrite HL. clear HL a l Hstr.
  rewrite skip_space_app by exact Hws.
  rewrite skip_space_stop by exact Hsp.
  destruct Hc as [Hc | ->]; [|reflexivity].
  destruct c as [[] [] [] [] [] [] [] []]; vm_compute in Hc;
    try discriminate Hc; reflexivity.
Qed.

Lemma no_nul (p : ascii -> bool) (l : list ascii) :
  (forall c, p c = true -> (c =? NUL)%char = false) ->
  forallb p l = true ->
  forallb (fun c => negb (c =? NUL)%char) l = true.
Proof.
  intros Hp. apply forallb_impl_bool. intros c Hc.
  rewrite (Hp c Hc). reflexivity.
Qed.

Lemma no_nul_space (l : list ascii) :
  forallb isspace l = true ->
  forallb (fun c => negb (c =? NUL)%char) l = true.
Proof. apply no_nul. intros c Hc. apply (isspace_props c Hc). Qed.

Lemma no_nul_name (l : list ascii) :
  forallb is_name_char l = true ->
  forallb (fun c => negb (c =? NUL)%char) l = true.
Proof. apply no_nul. intros c Hc. apply (is_name_char_props c Hc). Qed.

(** X28.  A line that holds a name, white space and a quoted text is
    turned into one declaration, and process returns 0.  White space
    before the name is skipped; the name is made of letters, digits and
    underscores; the text (here without escapes) runs to the closing
    quote, and whatever follows that quote is dropped.  The closing quote
    may be missing: the text then runs to the end of the line.  A name
    holds at most 1023 characters and a text at most 1024. *)
Theorem process_declaration (ws1 name ws2 text closing locale out : list ascii) :
  forallb isspace ws1 = true ->
  forallb is_name_char name = true ->
  name <> [] ->
  (List.length name < 1024)%nat ->
  forallb isspace ws2 = true ->
  ws2 <> [] ->
  forallb (fun c => negb (c =? NUL)%char && negb (c =? backslash)%char
                    && negb (c =? quote)%char) text = true ->
  (List.length text <= 1024)%nat ->
  closing = [] \/ (exists tail, closing = quote :: tail) ->
  process (Some (ws1 ++ name ++ ws2 ++ quote :: text ++ closing))
    (Some locale) (Some out)
  = Some (0, Some (out ++ declaration name (c_str locale) text)).
Proof.
  intros Hws1 Hname Hne Hnlen Hws2 Hne2 Htext Htlen Hclosing.
  assert (Hstr : c_str (ws1 ++ name ++ ws2 ++ quote :: text ++ closing)
                 = ws1 ++ name ++ ws2 ++ quote :: text ++ c_str closing).
  { rewrite c_str_app by (apply no_nul_space, Hws1).
    rewrite c_str_app by (apply no_nul_name, Hname).
    rewrite c_str_app by (apply no_nul_space, Hws2).
    simpl. rewrite c_str_app; [reflexivity|].
    revert Htext. apply forallb_impl_bool. intros c Hc.
    apply andb_true_iff in Hc as [Hc _]. apply andb_true_iff in Hc as [Hc _].
    exact Hc. }
  destruct name as [|c name]; [contradiction|].
  destruct ws2 as [|w ws2]; [contradiction|].
  simpl in Hname, Hws2.
  apply andb_true_iff in Hname as [Hc Hname].
  apply andb_true_iff in Hws2 as [Hw Hws2].
  destruct (isspace_props w Hw) as (Hwn & _ & Hwq & _).
  rewrite (process_at_entry _ ws1 (name ++ (w :: ws2) ++ quote :: text
                                     ++ c_str closing) c _ _ Hstr Hws1)
    by (left; exact Hc).
  unfold process_entry.
  change (c :: name ++ (w :: ws2) ++ quote :: text ++ c_str closing)
    with ((c :: name) ++ w :: (ws2 ++ quote :: text ++ c_str closing)).
  rewrite (scan_name_app (c :: name) w _ [] 0);
    [|simpl; rewrite Hc; exact Hname|unfold BUFFER_SIZE; simpl in *; lia
     |exact Hwn|rewrite Hw; reflexivity].
  change (w :: ws2 ++ quote :: text ++ c_str closing)
    with ((w :: ws2) ++ quote :: text ++ c_str closing).
  rewrite (skip_space_app (w :: ws2)) by (simpl; rewrite Hw; exact Hws2).
  rewrite skip_space_stop by reflexivity.
  change (quote :: text ++ c_str closing)
    with ("034"%char :: text ++ c_str closing).
  cbv iota beta.
  rewrite scan_text_app by (try exact Htext; unfold BUFFER_SIZE; simpl; lia).
  destruct Hclosing as [-> | [tail ->]]; reflexivity.
Qed.

(** X29.  An equals sign after the name ends the name, as white space
    does, but it is not skipped before the opening quote is looked for:
    every line that has [=] right after the name, or after the white space
    that follows it, is refused with MISSING_QUOTE, and nothing is
    written. *)
Theorem process_equals_sign (ws1 name ws2 rest : list ascii)
  (locale : option (list ascii)) (out : list ascii) :
  forallb isspace ws1 = true ->
  forallb is_name_char name = true ->
  (List.length name < 1024)%nat ->
  forallb isspace ws2 = true ->
  process (Some (ws1 ++ name ++ ws2 ++ "="%char :: rest)) locale (Some out)
  = Some (MISSING_QUOTE, Some out).
Proof.
  intros Hws1 Hname Hnlen Hws2.
  assert (Hstr : c_str (ws1 ++ name ++ ws2 ++ "="%char :: rest)
                 = ws1 ++ name ++ ws2 ++ "="%char :: c_str rest).
  { rewrite c_str_app by (apply no_nul_space, Hws1).
    rewrite c_str_app by (apply no_nul_name, Hname).
    rewrite c_str_app by (apply no_nul_space, Hws2).
    reflexivity. }
  assert (Hentry : forall l : list ascii,
             forallb isspace l = true ->
             process_entry (name ++ l ++ "="%char :: c_str rest)
               match locale with Some l => c_str l | None => str "c" end out
             = Some (MISSING_QUOTE, Some out)).
  { intros l Hl. unfold process_entry.
    assert (Hscan : scan_name (name ++ l ++ "="%char :: c_str rest) [] 0
                    = NameEnds name (l ++ "="%char :: c_str rest)).
    { destruct l as [|w l].
      - apply (scan_name_app name "="%char _ [] 0); auto.
      - simpl in Hl. apply andb_true_iff in Hl as [Hw Hl].
        apply (scan_name_app name w _ [] 0); auto.
        + apply (isspace_props w Hw).
        + rewrite Hw. reflexivity. }
    rewrite Hscan. rewrite skip_space_app by exact Hl. reflexivity. }
  destruct name as [|c name].
  - simpl app in *.
    rewrite (process_at_entry _ (ws1 ++ ws2) (c_str rest) "="%char locale out);
      [apply (Hentry [] eq_refl)
      |rewrite Hstr, <- app_assoc; reflexivity
      |rewrite forallb_app, Hws1, Hws2; reflexivity
      |right; reflexivity].
  - simpl in Hname. apply andb_true_iff in Hname as [Hc Hname'].
    rewrite (process_at_entry _ ws1 (name ++ ws2 ++ "="%char :: c_str rest)
               c locale out Hstr Hws1) by (left; exact Hc).
    apply (Hentry ws2 Hws2).
Qed.









Lemma process_declaration_witness :
  process (Some (str "  HELLO_MSG  " ++ [quote] ++ str "Hi there" ++ [quote]
                   ++ str " // greeting" ++ [newline]))
    (Some (str "en")) (Some [])
  = Some (0, Some (str "const static PROGMEM prog_uchar HELLO_MSG_en[] = "
                     ++ [quote] ++ str "Hi there" ++ [quote] ++ str ";"
                     ++ [newline])).
Proof.
  exact (process_declaration (str "  ") (str "HELLO_MSG") (str "  ")
           (str "Hi there") (quote :: str " // greeting" ++ [newline])
           (str "en") [] eq_refl eq_refl ltac:(discriminate)
           ltac:(simpl; lia) eq_refl ltac:(discriminate) eq_refl
           ltac:(simpl; lia) (or_intror (ex_intro _ _ eq_refl))).
Defined.

Lemma process_equals_sign_witness :
  process (Some (str "HELLO_MSG = " ++ [quote] ++ str "Hi" ++ [quote]))
    (Some (str "en")) (Some [])
  = Some (MISSING_QUOTE, Some []).
Proof.
  exact (process_equals_sign [] (str "HELLO_MSG") (str " ")
           (str " " ++ [quote] ++ str "Hi" ++ [quote]) (Some (str "en")) []
           eq_refl eq_refl ltac:(simpl; lia) eq_refl).
Defined.

End LocaleProperties.

(** ** The further properties at the sample board *)

Lemma processCommandPacket_not_queued_witness :
  let s := with_ext (fun _ => mkSampleExt 0 false true false false true)
             sample_state in
  let r := processCommandPacket sample_K sample_X (request [129; 1; 2]) [] s in
  fst (fst r) = true
  /\ snd (fst r) = [sample_RC RC_BOT_BUILDING]
  /\ command_buffer (world (snd r)) = sample_queue [].
Proof.
  intros s r.
  destruct (processCommandPacket_not_queued sample_K sample_X
              (request [129; 1; 2]) [] s
              ltac:(unfold getLength; simpl; lia)
              ltac:(vm_compute; discriminate) (or_intror eq_refl))
    as (Hdone & Hreply & Hqueue & _).
  split; [exact Hdone|]. split; [exact Hreply | exact Hqueue].
Defined.

Lemma dispatch_unsupported_witness :
  dispatch sample_K sample_X 0 (request [99]) sample_state
  = Some ([133], sample_state).
Proof.
  exact (dispatch_unsupported sample_K sample_X 0 (request [99]) sample_state
           eq_refl (or_intror (conj eq_refl eq_refl))).
Defined.

Lemma handleVersion_sign_bit_witness :
  handleVersion sample_K sample_X (request [0; 0; 128]) [] = [129; 0; 0].
Proof.
  exact (handleVersion_sign_bit sample_K sample_X (request [0; 0; 128])
           ltac:(simpl; lia)
           ltac:(vm_compute; split; [discriminate | reflexivity])).
Defined.

Lemma handleWriteEeprom_frame_witness :
  eeprom_read_byte
    (eeprom (world (snd (handleWriteEeprom sample_K sample_X
                           (request [13; 16; 0; 3; 7; 8; 9]) []
                           sample_state))))
    100
  = eeprom_read_byte (eeprom (world sample_state)) 100.
Proof.
  exact (proj1 (handleWriteEeprom_frame sample_K sample_X
                  (request [13; 16; 0; 3; 7; 8; 9]) [] sample_state 100
                  ltac:(intros i Hi; change (0 <= i < 3) in Hi;
                        change (read16 1 (request [13; 16; 0; 3; 7; 8; 9]))
                          with 16;
                        unfold u16; rewrite !Z.mod_small by lia; lia))).
Defined.

Lemma handleBuildStopNotification_copies_witness :
  buildState (host (handleBuildStopNotification sample_K sample_X 0
                      sample_building_state))
  = BUILD_FINISHED_NORMALLY.
Proof.
  exact (proj1 (proj2 (handleBuildStopNotification_copies sample_K sample_X 0
                         sample_building_state) (or_introl eq_refl))).
Defined.

Lemma handleBuildStartNotification_discards_name_witness :
  let s := with_host (set_currentState HOST_STATE_BUILDING_FROM_SD)
             sample_state in
  fst (handleBuildStartNotification sample_K sample_X
         (sample_queue [104; 105; 0; 7]) s)
  = sample_queue [7].
Proof.
  exact (proj1 (handleBuildStartNotification_discards_name sample_K sample_X
                  (sample_queue [104; 105; 0; 7])
                  (with_host (set_currentState HOST_STATE_BUILDING_FROM_SD)
                     sample_state)
                  [104; 105] [7] eq_refl eq_refl
                  ltac:(repeat constructor; lia))).
Defined.

Lemma handleBuildStartNotification_takes_name_witness :
  buildName (host (snd (handleBuildStartNotification sample_K sample_X
                          (sample_queue [104; 105; 0; 7]) sample_state)))
  = [104; 105; 0] ++ repeat 0 28.
Proof.
  exact (proj1 (proj2 (handleBuildStartNotification_takes_name sample_K
                         sample_X (sample_queue [104; 105; 0; 7]) sample_state
                         [104; 105] [7] (or_introl eq_refl) eq_refl
                         ltac:(repeat constructor; lia)
                         ltac:(simpl; lia) eq_refl))).
Defined.

Lemma handleBuildStartNotification_cuts_name_witness :
  buildName (host (snd (handleBuildStartNotification sample_K sample_X
                          (CircularBuffer.mk 64 (repeat 65 31 ++ [66; 0])
                             false false)
                          sample_state)))
  = repeat 65 31.
Proof.
  exact (proj2 (handleBuildStartNotification_cuts_name sample_K sample_X
                  (CircularBuffer.mk 64 (repeat 65 31 ++ [66; 0]) false false)
                  sample_state (repeat 65 31) [66; 0] (or_introl eq_refl)
                  eq_refl ltac:(repeat constructor; lia) eq_refl
                  ltac:(simpl; lia) eq_refl)).
Defined.

Lemma handleBuildStartNotification_empty_queue_witness :
  fst (handleBuildStartNotification sample_K sample_X (sample_queue [])
         sample_state)
  = CircularBuffer.mk 8 [] false true.
Proof.
  exact (proj1 (handleBuildStartNotification_empty_queue sample_K sample_X
                  (sample_queue []) sample_state eq_refl
                  ltac:(discriminate))).
Defined.

Lemma handleGetBuildName_reply_witness :
  handleGetBuildName sample_K sample_X (request [20]) [] sample_state
  = [129; 0].
Proof.
  exact (proj1 (handleGetBuildName_reply sample_K sample_X (request [20])
                  sample_state ltac:(simpl; lia))
           [] (repeat 0 30) eq_refl ltac:(constructor)).
Defined.

Lemma startBuildFromSD_outcomes_witness :
  fst (startBuildFromSD sample_K sample_X FNull sample_state) = 0
  /\ currentState (host (snd (startBuildFromSD sample_K sample_X FNull
                                sample_state)))
     = HOST_STATE_BUILDING_FROM_SD.
Proof.
  pose proof (startBuildFromSD_outcomes sample_K sample_X FNull sample_state
                (or_introl eq_refl)) as H.
  cbv zeta in H. destruct H as [_ H].
  assert (H1 : fst (sd_startPlayback sample_X (buildName (host sample_state))
                      (ext (world sample_state))) <> SD_CWD sample_K)
    by (vm_compute; discriminate).
  assert (H2 : fst (sd_startPlayback sample_X (buildName (host sample_state))
                      (ext (world sample_state))) = SD_SUCCESS sample_K)
    by reflexivity.
  specialize (H (conj H1 H2)). destruct H as (Hcode & Hstate & _).
  split; [exact Hcode | exact Hstate].
Defined.

Lemma startBuildFromSD_copies_name_witness :
  buildName (host (snd (startBuildFromSD sample_K sample_X
                          (FOther [104; 105]) sample_state)))
  = [104; 105; 0] ++ repeat 0 28.
Proof.
  exact (startBuildFromSD_copies_name sample_K sample_X [104; 105]
           sample_state ltac:(repeat constructor; lia) ltac:(simpl; lia)
           eq_refl).
Defined.

Lemma handlePlayback_name_witness :
  buildName (host (snd (handlePlayback sample_K sample_X
                          (request [16; 104; 105; 0]) [] sample_state)))
  = [104; 105; 0] ++ repeat 0 28.
Proof.
  exact (proj1 (handlePlayback_name sample_K sample_X
                  (request [16; 104; 105; 0]) [] sample_state 16
                  [104; 105; 0] eq_refl ltac:(simpl; lia) ltac:(simpl; lia)
                  eq_refl)).
Defined.

Lemma getMachineName_loaded_once_witness :
  nth 0 (fst (getMachineName sample_X sample_N sample_state)) 0 <> 0.
Proof.
  exact (proj1 (getMachineName_loaded_once sample_X sample_N sample_state
                  eq_refl ltac:(simpl; lia))).
Defined.

Lemma getMachineName_load_witness :
  take 14 (fst (getMachineName sample_X sample_N sample_state))
  = defaultMachineName ++ [0].
Proof.
  exact (proj2 (proj2 (getMachineName_load sample_X sample_N sample_state
                         eq_refl ltac:(simpl; lia) eq_refl)) eq_refl).
Defined.

Lemma runHostSlice_held_while_sending_witness :
  let m := mkMachine (with_world (set_uart_sending true)
                        (st (sample_machine (request [0; 29; 0]) sample_host
                               sample_ext))) [] in
  exists m' : Machine SampleExt,
    runHostSlice sample_K sample_X 0 m = Some m'
    /\ world (st m') = world (st m)
    /\ reset_log m' = reset_log m.
Proof.
  exact (runHostSlice_held_while_sending sample_K sample_X 0
           (mkMachine (with_world (set_uart_sending true)
                         (st (sample_machine (request [0; 29; 0]) sample_host
                                sample_ext))) [])
           eq_refl eq_refl).
Defined.





Lemma runHostSlice_sd_state_witness :
  let m := sample_machine (mkInPacket [] [] false false NO_ERROR)
             (set_currentState HOST_STATE_BUILDING_FROM_SD sample_host)
             (mkSampleExt 0 false true false false true) in
  match runHostSlice sample_K sample_X 0 m with
  | Some m' => sd_isPlaying sample_X (ext (world (st m'))) = true
  | None => False
  end.
Proof.
  intros m.
  destruct (runHostSlice sample_K sample_X 0 m) as [m'|] eqn:E.
  - apply (runHostSlice_sd_state sample_K sample_X 0 m m' eq_refl E).
    vm_compute in E. injection E as <-. reflexivity.
  - vm_compute in E. discriminate E.
Defined.

Lemma handlePause_toggles_witness :
  exists fuel0 : nat,
    forall fuel : nat,
      (fuel0 <= fuel)%nat ->
      exists (to' : OutPacket) (s' : St SampleExt),
        handlePause sample_K sample_X fuel (request [8]) []
          sample_silent_state
        = Some (to', s')
        /\ buildState (host s') = BUILD_PAUSED.
Proof.
  destruct (handlePause_toggles sample_K sample_X (request [8]) []
              sample_silent_state _ eq_refl sample_clock_moves
              sample_transaction_progress) as [fuel0 Hreturns].
  exists fuel0. intros fuel Hfuel.
  destruct (Hreturns fuel Hfuel) as (to' & s' & Hrun & _ & Hbuild).
  exists to', s'. split; [exact Hrun | exact Hbuild].
Defined.



Lemma handleGetBuildStats_after_stop_witness :
  handleGetBuildStats sample_K sample_X []
    (stopBuildNow sample_X sample_building_state)
  = [129; sample_BuildState_value BUILD_CANCELED; 0; 0; 0; 0; 0; 0;
     0; 0; 0; 0].
Proof.
  exact (proj1 (handleGetBuildStats_after_stop sample_K sample_X
                  sample_building_state ltac:(simpl; lia))).
Defined.


(** The hidden file and the file [..] are passed over; the directory [..]
    is sent, and the file [a.x] is what the next query gets. *)
Example next_filename_skips_dot_files :
  handleNextFilename sample_K dir_X 5 (request [18; 0]) []
    (dir_state sample_directory)
  = Some ([129; 0; 46; 46; 0], dir_state [([97; 46; 120], false)]).
Proof. vm_compute. reflexivity. Qed.

